(** * Gasometer dashboard: aggregation, projection and single-flight cache

    A shallow embedding of [main.go] of the gasometer dashboard, and the
    properties of its specification proved (or refuted) on it.

    Conventions of the embedding.
    - Go's [int], [time.Duration] and instants are integers in [Z]; an
      instant is a number of nanoseconds since the Unix epoch, a duration a
      number of nanoseconds, with int64 saturation or wrap-around written out
      where the Go library does it.
    - Go's [float64] is an interface, [Float64], with two instances:
      [Binary64], the IEEE 754 arithmetic the program runs (Rocq's primitive
      floats), and [Exact], rational arithmetic without rounding.  The program
      is written once over the interface.  Statements that only depend on
      which operations the code performs are proved for every instance;
      statements that are algebra are proved in [Exact]; every
      counterexample is evaluated in [Binary64].
    - Library calls whose result does not come from this repository
      ([time.Parse], [strconv.ParseFloat], the HTTP round trip, a dashboard
      build seen from the cache) are parameters or answers of an environment.
    - [log.Printf] has no effect on control flow and is left out.
    - [time.Time.Format] is kept symbolic: the instant and the layout. *)

From Stdlib Require Import ZArith QArith Qcanon Floats String Ascii Lia.
From Stdlib Require Import DecimalString.
From stdpp Require Import base list sorting gmap.

Open Scope Z_scope.

(** ** Numbers *)

(** The operations the program uses on [float64]; [of_int i] is the
    conversion [float64(i)], [to_int x] the conversion [int(x)]. *)
Class Float64 (F : Type) := {
  f_add : F -> F -> F;
  f_sub : F -> F -> F;
  f_mul : F -> F -> F;
  f_div : F -> F -> F;
  f_abs : F -> F;
  f_ltb : F -> F -> bool;
  of_int : Z -> F;
  to_int : F -> Z
}.

Declare Scope f64_scope.
Delimit Scope f64_scope with f64.
Infix "+." := f_add (at level 50, left associativity) : f64_scope.
Infix "-." := f_sub (at level 50, left associativity) : f64_scope.
Infix "*." := f_mul (at level 40, left associativity) : f64_scope.
Infix "/." := f_div (at level 40, left associativity) : f64_scope.
Infix "<.?" := f_ltb (at level 70, no associativity) : f64_scope.
Open Scope f64_scope.

Definition minInt64 : Z := - 2 ^ 63.
Definition maxInt64 : Z := 2 ^ 63 - 1.

(** Two's complement wrap-around of int64 arithmetic. *)
Definition wrap64 (z : Z) : Z := (z + 2 ^ 63) mod 2 ^ 64 - 2 ^ 63.

(** Saturation, as [time.Time.Sub] does it. *)
Definition sat64 (z : Z) : Z := Z.max minInt64 (Z.min maxInt64 z).

Module Binary64.

(** [float64(i)]: the integer rounded to the nearest binary64 value. *)
Definition from_int (z : Z) : float :=
    SF2Prim (binary_normalize 53 1024 z 0 false).

(** [int(x)]: truncation toward zero; what does not fit int64 (and NaN)
      gives the smallest int64, as the conversion does on amd64. *)
Definition trunc (x : float) : Z :=
    match Prim2SF x with
    | S754_zero _ => 0
    | S754_finite s m e =>
        let a := match e with
                 | Z.neg p => Z.pos m / 2 ^ Z.pos p
                 | _ => Z.pos m * 2 ^ e
                 end in
        let v := if s then - a else a in
        if (minInt64 <=? v) && (v <=? maxInt64) then v else minInt64
    | _ => minInt64
    end.

#[global] Instance ops : Float64 float := {|
    f_add := PrimFloat.add;
    f_sub := PrimFloat.sub;
    f_mul := PrimFloat.mul;
    f_div := PrimFloat.div;
    f_abs := PrimFloat.abs;
    f_ltb := PrimFloat.ltb;
    of_int := from_int;
    to_int := trunc
  |}.

End Binary64.

Module Exact.

Definition ltb (x y : Qc) : bool :=
    Qnum x * Z.pos (Qden y) <? Qnum y * Z.pos (Qden x).

Definition abs (x : Qc) : Qc := if ltb x 0%Qc then (- x)%Qc else x.

Definition from_int (z : Z) : Qc := Q2Qc (inject_Z z).

Definition trunc (x : Qc) : Z := Z.quot (Qnum x) (Z.pos (Qden x)).

#[global] Instance ops : Float64 Qc := {|
    f_add := Qcplus;
    f_sub := Qcminus;
    f_mul := Qcmult;
    f_div := Qcdiv;
    f_abs := abs;
    f_ltb := ltb;
    of_int := from_int;
    to_int := trunc
  |}.

End Exact.

(** ** Configuration *)

Definition winterStartMonth : Z := 11.
Definition winterStartDay : Z := 1.
Definition trendWindow : nat := 14.
Definition retryAttempts : Z := 3.

Section Constants.
Context {F : Type} {FO : Float64 F}.

Definition f_zero : F := of_int 0.
Definition criticalThreshold : F := of_int 10.
(** 1.25 *)
Definition stressMultiplier : F := of_int 5 /. of_int 4.
(** 1e-10: the quotient is correctly rounded, so in [Binary64] this is
      the value of the literal. *)
Definition epsilon : F := of_int 1 /. of_int (10 ^ 10).
End Constants.

(** ** Time *)

Definition Time := Z.
Definition Duration := Z.

Definition Second : Duration := 10 ^ 9.
Definition Hour : Duration := 60 * 60 * Second.
Definition Day : Duration := 24 * Hour.
Definition retryDelay : Duration := 2 * Second.
Definition cacheTTL : Duration := 2 * Hour.

(** [time.Time{}]: 1 January of year 1, 00:00 UTC. *)
Definition zeroTime : Time := -62135596800 * Second.

Definition Time_IsZero (t : Time) : bool := t =? zeroTime.
Definition Time_Before (t u : Time) : bool := t <? u.
Definition Time_After (t u : Time) : bool := u <? t.
Definition Time_Sub (t u : Time) : Duration := sat64 (t - u).
Definition Time_Add (t : Time) (d : Duration) : Time := t + d.
Definition time_Since (now t : Time) : Duration := Time_Sub now t.

(** Days from 1970-01-01 to the civil date [y-m-d] (proleptic Gregorian). *)
Definition days_from_civil (y m d : Z) : Z :=
  let y' := if m <=? 2 then y - 1 else y in
  let era := y' / 400 in
  let yoe := y' - era * 400 in
  let doy := (153 * (if 2 <? m then m - 3 else m + 9) + 2) / 5 + d - 1 in
  let doe := yoe * 365 + yoe / 4 - yoe / 100 + doy in
  era * 146097 + doe - 719468.

Definition civil (y m d hh mm ss : Z) : Time :=
  days_from_civil y m d * Day + hh * Hour + mm * 60 * Second + ss * Second.

(** [time.Parse("2006-01-02", fmt.Sprintf("%d-%s", startYear, "11-01"))]
    with the error dropped: the text parses when the year prints as four
    digits, and is the zero time otherwise. *)
Definition seasonStartOf (startYear : Z) : Time :=
  if (1000 <=? startYear) && (startYear <=? 9999)
  then civil startYear winterStartMonth winterStartDay 0 0 0
  else zeroTime.

(** The result of [t.Format(layout)], not rendered. *)
Record Formatted := Format { fmt_time : Time; fmt_layout : string }.

Section DurationHours.
Context {F : Type} {FO : Float64 F}.

(** [time.Duration.Hours]. *)
Definition Duration_Hours (d : Duration) : F :=
    of_int (Z.quot d Hour) +. of_int (Z.rem d Hour) /. of_int (60 * 60 * 10 ^ 9).
End DurationHours.

(** ** Errors *)

Inductive error :=
| errorString (s : string)
| wrapError (msg : string) (err : error).

Definition Error (e : error) : string :=
  match e with errorString s => s | wrapError m _ => m end.

Definition Unwrap (e : error) : option error :=
  match e with errorString _ => None | wrapError _ c => Some c end.

(** [%d] of an integer. *)
Definition fmt_d (z : Z) : string := NilZero.string_of_int (Z.to_int z).

(** [fmt.Errorf(prefix + "%w", cause)]. *)
Definition Errorf_w (prefix : string) (cause : error) : error :=
  wrapError (prefix ++ Error cause)%string cause.

Inductive result (A : Type) :=
| Ok (a : A)
| Err (e : error).
Arguments Ok {A} a.
Arguments Err {A} e.

(** ** Data model *)

Record APIRecord := {
  GasDayStart : string;
  api_Full : string;
  api_Injection : string;
  api_Withdrawal : string
}.

Record DayRecord (F : Type) := {
  Date : Time;
  DateStr : Formatted;
  Full : F;
  Injection : F;
  Withdrawal : F;
  DaysElapsed : Z;
  Trend : F;
  TrendMA7 : F
}.
Arguments Date {F} _.
Arguments DateStr {F} _.
Arguments Full {F} _.
Arguments Injection {F} _.
Arguments Withdrawal {F} _.
Arguments DaysElapsed {F} _.
Arguments Trend {F} _.
Arguments TrendMA7 {F} _.

Record SeasonConfig := {
  Year : Z;
  cfg_Name : string;
  cfg_Color : string;
  Width : Z;
  cfg_Dash : string;
  FillColor : string;
  IsCurrent : bool
}.

Record SeasonData (F : Type) := {
  Config : SeasonConfig;
  Records : list (DayRecord F)
}.

Record ScenarioPoint (F : Type) := {
  X : F;
  Y : F;
  HoverDate : Formatted
}.
Arguments X {F} _.
Arguments Y {F} _.
Arguments HoverDate {F} _.

(** [HitDate] is [None] for the empty string a scenario without a crossing
    date carries. *)
Record Scenario (F : Type) := {
  Name : string;
  Label : string;
  Color : string;
  Dash : string;
  Points : list (ScenarioPoint F);
  HitDate : option Formatted;
  Slope : F;
  DaysLeft : Z
}.
Arguments Name {F} _.
Arguments Label {F} _.
Arguments Color {F} _.
Arguments Dash {F} _.
Arguments Points {F} _.
Arguments HitDate {F} _.
Arguments Slope {F} _.
Arguments DaysLeft {F} _.

Record KPIData (F : Type) := {
  CurrentFill : F;
  CurrentDate : Formatted;
  Delta7D : F;
  AvgWithdrawal : F;
  DaysToCrit : Z
}.
Arguments CurrentFill {F} _.
Arguments CurrentDate {F} _.
Arguments Delta7D {F} _.
Arguments AvgWithdrawal {F} _.
Arguments DaysToCrit {F} _.

Record DashboardData (F : Type) := {
  Seasons : list (SeasonData F);
  Scenarios : list (Scenario F);
  KPI : KPIData F;
  TickVals : list Z;
  TickLabels : list Formatted;
  GeneratedAt : Formatted;
  CurrentYear : Z
}.

(** ** Dashboard cache *)

(** [data] is the pointer ([None] for nil).  The read-write mutex [mu] makes
    each of the three operations atomic, which is how they are written here;
    the instant read from the clock is an argument. *)
Record Cache (D : Type) := {
  data : option D;
  lastFetched : Time;
  ttl : Duration
}.
Arguments data {D} _.
Arguments lastFetched {D} _.
Arguments ttl {D} _.

Definition Cache_Get {D} (c : Cache D) (now : Time) : option D :=
  match data c with
  | Some d => if time_Since now (lastFetched c) <? ttl c then Some d else None
  | None => None
  end.

Definition Cache_Set {D} (c : Cache D) (d : option D) (now : Time) : Cache D :=
  {| data := d; lastFetched := now; ttl := ttl c |}.

Definition Cache_Clear {D} (c : Cache D) : Cache D :=
  {| data := None; lastFetched := lastFetched c; ttl := ttl c |}.

(** [var cache = &Cache{ttl: 2 * time.Hour}]; the zero [time.Time]. *)
Definition cache0 {D} : Cache D :=
  {| data := None; lastFetched := zeroTime; ttl := cacheTTL |}.

(** ** The world a fetch runs in *)

(** What one HTTP round trip answers: [client.Do] fails, [io.ReadAll] fails,
    or a status and a body arrive together with what [json.Unmarshal] makes
    of that body. *)
Inductive Upstream :=
| DoFailed (e : error)
| ReadFailed (status : Z) (e : error)
| Body (status : Z) (body : string) (decoded : result (list APIRecord)).

(** Observable effects: [fetchSeason] entered, a request sent upstream,
    [time.Sleep]. *)
Inductive Event :=
| EvFetch (startYear : Z)
| EvRequest (startYear : Z)
| EvSleep (d : Duration).

(** [network n] is the answer to the [n]-th request and the time it takes. *)
Record World := {
  clock : Time;
  network : nat -> Duration * Upstream;
  requests : nat;
  trace : list Event
}.

Definition M (A : Type) : Type := World -> A * World.
Definition ret {A} (a : A) : M A := fun w => (a, w).
Definition bind {A B} (m : M A) (k : A -> M B) : M B :=
  fun w => let (a, w') := m w in k a w'.

Notation "x <- m ;; k" := (bind m (fun x => k))
  (at level 100, m at next level, right associativity).
Notation "m ;;; k" := (bind m (fun _ => k))
  (at level 100, right associativity).

Definition time_Now : M Time := fun w => (clock w, w).

Definition emit (e : Event) : M unit := fun w =>
  (tt, {| clock := clock w; network := network w; requests := requests w;
          trace := trace w ++ [e] |}).

Definition time_Sleep (d : Duration) : M unit := fun w =>
  (tt, {| clock := clock w + Z.max d 0; network := network w;
          requests := requests w; trace := trace w ++ [EvSleep d] |}).

Definition client_Do (startYear : Z) : M Upstream := fun w =>
  let (latency, answer) := network w (requests w) in
  (answer, {| clock := clock w + Z.max latency 0; network := network w;
              requests := S (requests w);
              trace := trace w ++ [EvRequest startYear] |}).

(** ** Record normalizer and season aggregator *)

Definition set_Trend {F} (r : DayRecord F) (v : F) : DayRecord F :=
  {| Date := Date r; DateStr := DateStr r; Full := Full r;
     Injection := Injection r; Withdrawal := Withdrawal r;
     DaysElapsed := DaysElapsed r; Trend := v; TrendMA7 := TrendMA7 r |}.

Definition set_TrendMA7 {F} (r : DayRecord F) (v : F) : DayRecord F :=
  {| Date := Date r; DateStr := DateStr r; Full := Full r;
     Injection := Injection r; Withdrawal := Withdrawal r;
     DaysElapsed := DaysElapsed r; Trend := Trend r; TrendMA7 := v |}.

Section Pipeline.
Context {F : Type} {FO : Float64 F}.

(** [time.Parse(layout, s)], [None] for an error. *)
Variable time_Parse : string -> string -> option Time.
(** The value [strconv.ParseFloat(s, 64)] returns; its error is dropped. *)
Variable strconv_ParseFloat : string -> F.

Definition zeroRecord : DayRecord F :=
  {| Date := zeroTime; DateStr := Format zeroTime ""; Full := f_zero;
     Injection := f_zero; Withdrawal := f_zero; DaysElapsed := 0;
     Trend := f_zero; TrendMA7 := f_zero |}.

(** [records[i]] *)
Definition at_ (records : list (DayRecord F)) (i : nat) : DayRecord F :=
  default zeroRecord (records !! i).

Definition parseDate_formats : list string :=
  [ "2006-01-02"; "2006-01-02T15:04:05Z"; "2006-01-02T15:04:05";
    "2006-01-02 15:04:05"; "2006-01-02T15:04:05Z07:00" ]%string.

Fixpoint parseDate_try (formats : list string) (s : string) : Time :=
  match formats with
  | [] => zeroTime
  | f :: formats' =>
      match time_Parse f s with
      | Some t => t
      | None => parseDate_try formats' s
      end
  end.

Definition parseDate (s : string) : Time := parseDate_try parseDate_formats s.

Definition parseFloat (s : string) : F :=
  if (String.eqb s "" || String.eqb s "-" || String.eqb s "N/A")%string
  then f_zero
  else strconv_ParseFloat s.

(** [int(date.Sub(seasonStart).Hours() / 24)] *)
Definition elapsedDays (seasonStart date : Time) : Z :=
  to_int (Duration_Hours (Time_Sub date seasonStart) /. of_int 24).

(** The loop over [apiResp.Data]. *)
Definition parseRecord (seasonStart : Time) (records : list (DayRecord F))
    (r : APIRecord) : list (DayRecord F) :=
  let date := parseDate (GasDayStart r) in
  if Time_IsZero date then records
  else records ++
       [ {| Date := date;
            DateStr := Format date "02 Jan 2006";
            Full := parseFloat (api_Full r);
            Injection := parseFloat (api_Injection r);
            Withdrawal := parseFloat (api_Withdrawal r);
            DaysElapsed := elapsedDays seasonStart date;
            Trend := f_zero;
            TrendMA7 := f_zero |} ].

Definition parseRecords (seasonStart : Time) (data : list APIRecord)
    : list (DayRecord F) :=
  fold_left (parseRecord seasonStart) data [].

(** [less] of the [sort.Slice] call. *)
Definition dateLess (a b : DayRecord F) : bool := Time_Before (Date a) (Date b).

(** [sort.Slice] promises a permutation ordered by [less] and no more (it
    is not stable).  It is written here as a straight insertion sort; the
    properties below use only that the result is an ordered permutation. *)
Fixpoint insertByDate (x : DayRecord F) (l : list (DayRecord F))
    : list (DayRecord F) :=
  match l with
  | [] => [x]
  | y :: l' => if dateLess x y then x :: y :: l' else y :: insertByDate x l'
  end.

Definition sortByDate (records : list (DayRecord F)) : list (DayRecord F) :=
  fold_left (fun acc x => insertByDate x acc) records [].

(** One turn of the loop [for i := range records]; [i - 6] is the
    subtraction of [nat], which stops at 0 as the source's [if start < 0]
    does. *)
Definition trendStep (records : list (DayRecord F)) (i : nat)
    : list (DayRecord F) :=
  let records :=
    if (0 <? i)%nat
    then <[ i := set_Trend (at_ records i)
                   (Full (at_ records i) -. Full (at_ records (i - 1))) ]> records
    else records in
  let start := (i - 6)%nat in
  let sum := fold_left (fun sum j => sum +. Trend (at_ records j))
               (seq start (i - start + 1)) f_zero in
  <[ i := set_TrendMA7 (at_ records i)
            (sum /. of_int (Z.of_nat (i - start + 1))) ]> records.

Definition computeTrends (records : list (DayRecord F)) : list (DayRecord F) :=
  fold_left trendStep (seq 0 (length records)) records.

(** [fetchSeason] from the decoded payload on: [(nil, nil)] for an empty
    data array, an error when no record survives, else the sorted records
    with their trends. *)
Definition aggregateSeason (startYear : Z) (data : list APIRecord)
    : result (list (DayRecord F)) :=
  match data with
  | [] => Ok []
  | _ =>
      match parseRecords (seasonStartOf startYear) data with
      | [] => Err (errorString "no valid records parsed")
      | records => Ok (computeTrends (sortByDate records))
      end
  end.

(** ** Retrying fetcher *)

Definition statusOK : Z := 200.

(** [fetchSeason].  [http.NewRequest] cannot fail on the URL built here.
    The request's URL is a function of [startYear] and the clock and is not
    kept in the event. *)
Definition fetchSeason (startYear : Z) : M (result (list (DayRecord F))) :=
  emit (EvFetch startYear) ;;;
  now <- time_Now ;;
  if Time_After (seasonStartOf startYear) now
  then ret (Err (errorString
         ("season " ++ fmt_d startYear ++ " starts in the future ("
          ++ fmt_d startYear ++ "-11-01)")%string))
  else
    answer <- client_Do startYear ;;
    match answer with
    | DoFailed e => ret (Err (Errorf_w "HTTP request: " e))
    | ReadFailed _ e => ret (Err (Errorf_w "reading response: " e))
    | Body status body decoded =>
        if negb (status =? statusOK)
        then ret (Err (errorString
               ("API status " ++ fmt_d status ++ ": "
                ++ substring 0 500 body)%string))
        else match decoded with
             | Err e => ret (Err (Errorf_w "JSON decode: " e))
             | Ok payload => ret (aggregateSeason startYear payload)
             end
    end.

(** The loop [for attempt := 1; attempt <= retryAttempts; attempt++]; [fuel]
    is the number of turns left, [lastErr] is nil before the first failure. *)
Fixpoint retryLoop (fuel : nat) (attempt : Z) (startYear : Z)
    (lastErr : option error) : M (result (list (DayRecord F))) :=
  match fuel with
  | O =>
      ret (Err (match lastErr with
                | Some e =>
                    Errorf_w ("all " ++ fmt_d retryAttempts
                              ++ " attempts failed for " ++ fmt_d startYear
                              ++ ": ")%string e
                | None =>
                    errorString ("all " ++ fmt_d retryAttempts
                                 ++ " attempts failed for " ++ fmt_d startYear
                                 ++ ": %!w(<nil>)")%string
                end))
  | S fuel' =>
      r <- fetchSeason startYear ;;
      match r with
      | Ok records => ret (Ok records)
      | Err e =>
          (if attempt <? retryAttempts
           then time_Sleep (wrap64 (retryDelay * attempt))
           else ret tt) ;;;
          retryLoop fuel' (attempt + 1) startYear (Some e)
      end
  end.

Definition fetchSeasonWithRetry (startYear : Z)
    : M (result (list (DayRecord F))) :=
  retryLoop (Z.to_nat retryAttempts) 1 startYear None.

End Pipeline.

(** ** Scenario projector *)

(** [%02d] of an integer. *)
Definition fmt_02d (z : Z) : string :=
  let s := fmt_d z in
  if (String.length s <? 2)%nat then ("0" ++ s)%string else s.

Section Projection.
Context {F : Type} {FO : Float64 F}.

(** The sums of the loop in [linearRegression]. *)
Record Sums := { sx : F; sy : F; sxy : F; sx2 : F }.

Definition regressionStep (s : Sums) (r : DayRecord F) : Sums :=
  let x := of_int (DaysElapsed r) in
  {| sx := sx s +. x;
     sy := sy s +. Full r;
     sxy := sxy s +. x *. Full r;
     sx2 := sx2 s +. x *. x |}.

Definition regressionSums (records : list (DayRecord F)) : Sums :=
  fold_left regressionStep records
    {| sx := f_zero; sy := f_zero; sxy := f_zero; sx2 := f_zero |}.

(** Returns [(slope, intercept)]. *)
Definition linearRegression (records : list (DayRecord F)) : F * F :=
  let n := of_int (Z.of_nat (length records)) in
  if n <.? of_int 2 then (f_zero, f_zero)
  else
    let s := regressionSums records in
    let d := n *. sx2 s -. sx s *. sx s in
    if f_abs d <.? epsilon then (f_zero, sy s /. n)
    else
      let slope := (n *. sxy s -. sx s *. sy s) /. d in
      let intercept := (sy s -. slope *. sx s) /. n in
      (slope, intercept).

(** [time.Duration(x*24) * time.Hour] *)
Definition hoursOfDays (x : F) : Duration :=
  wrap64 (to_int (x *. of_int 24) * Hour).

Definition makeProjectionPoints (startDay : Z) (startVal slope totalDays : F)
    (startDate : Time) (n : nat) : list (ScenarioPoint F) :=
  map (fun i : nat =>
         let d := totalDays *. of_int (Z.of_nat i) /. of_int (Z.of_nat n - 1) in
         {| X := of_int startDay +. d;
            Y := startVal +. slope *. d;
            HoverDate := Format (Time_Add startDate (hoursOfDays d))
                           "02 Jan 2006" |})
      (seq 0 n).

(** The raw crossing time of a decline of [slope] per day from
    [currentVal]. *)
Definition daysToThreshold (currentVal slope : F) : F :=
  (criticalThreshold -. currentVal) /. slope.

Definition declineScenario (name label color dash : string)
    (currentDay : Z) (currentVal : F) (lastDate : Time) (slope : F)
    : Scenario F :=
  let days := daysToThreshold currentVal slope in
  let hitDate := Time_Add lastDate (hoursOfDays days) in
  {| Name := name; Label := label; Color := color; Dash := dash;
     Points := makeProjectionPoints currentDay currentVal slope days
                 lastDate 50;
     HitDate := Some (Format hitDate "02.01.2006");
     Slope := slope;
     DaysLeft := to_int days |}.

(** The state of the loop over the previous season's records. *)
Record HistLoop := {
  pts : list (ScenarioPoint F);
  base : F;
  found : bool
}.

Definition historyStep (currentDay : Z) (currentVal : F) (st : HistLoop)
    (r : DayRecord F) : HistLoop :=
  if currentDay <? DaysElapsed r then
    let base' := if found st then base st else Full r in
    {| pts := pts st ++
              [ {| X := of_int (DaysElapsed r);
                   Y := currentVal +. (Full r -. base');
                   HoverDate := Format (Date r) "02 Jan" |} ];
       base := base';
       found := true |}
  else st.

Definition historyPoints (currentDay : Z) (currentVal : F)
    (recs : list (DayRecord F)) : list (ScenarioPoint F) :=
  pts (fold_left (historyStep currentDay currentVal) recs
         {| pts := []; base := f_zero; found := false |}).

Definition generateScenarios (current : list (DayRecord F))
    (allSeasons : gmap Z (list (DayRecord F))) (currentStartYear : Z)
    : list (Scenario F) :=
  if (length current <? trendWindow)%nat then []
  else
    let lastIdx := (length current - 1)%nat in
    let currentVal := Full (at_ current lastIdx) in
    let currentDay := DaysElapsed (at_ current lastIdx) in
    let lastDate := Date (at_ current lastIdx) in
    let recentStart := (length current - trendWindow)%nat in
    let slope := fst (linearRegression (drop recentStart current)) in
    let scenarios :=
      if slope <.? f_zero then
        let ss := slope *. stressMultiplier in
        [ declineScenario "Linear" "📉 Linear Trend" "#c0392b" "dot"
            currentDay currentVal lastDate slope;
          declineScenario "Stress" "❄️ Severe Winter" "#800000" "dashdot"
            currentDay currentVal lastDate ss ]
      else [] in
    let histYear := currentStartYear - 1 in
    match allSeasons !! histYear with
    | Some ((_ :: _) as recs) =>
        match historyPoints currentDay currentVal recs with
        | [] => scenarios
        | points =>
            scenarios ++
            [ {| Name := "History";
                 Label := ("📅 Like " ++ fmt_d histYear ++ "/"
                           ++ fmt_02d (Z.rem (histYear + 1) 100))%string;
                 Color := "#d35400"; Dash := "dash";
                 Points := points;
                 HitDate := None;
                 Slope := f_zero;
                 DaysLeft := 0 |} ]
        end
    | _ => scenarios
    end.

(** ** KPI summarizer *)

(** [None] stands for the panic of [records[len(records)-1]] on an empty
    slice. *)
Definition buildKPI (records : list (DayRecord F))
    (scenarios : list (Scenario F)) : option (KPIData F) :=
  match records with
  | [] => None
  | _ =>
      let n := length records in
      let last := at_ records (n - 1) in
      let delta :=
        if (7 <=? n)%nat then Full last -. Full (at_ records (n - 7))
        else f_zero in
      let start := (n - 7)%nat in
      let sum := fold_left (fun sum r => sum +. Withdrawal r)
                   (drop start records) f_zero in
      let crit :=
        fold_left (fun crit s =>
                     if (String.eqb (Name s) "Linear" && (0 <? DaysLeft s))%bool
                     then DaysLeft s else crit)
          scenarios 999 in
      Some {| CurrentFill := Full last;
              CurrentDate := Format (Date last) "02 Jan 2006";
              Delta7D := delta;
              AvgWithdrawal := sum /. of_int (Z.of_nat (n - start));
              DaysToCrit := crit |}
  end.

End Projection.
Arguments Sums F : clear implicits.
Arguments HistLoop F : clear implicits.

(** ** Request handlers over the cache *)

(** The handlers run concurrently; the model is their interleaving.  A
    caller is a program counter, one atomic action of one caller is a step:
    a cache operation (atomic under [cache.mu]), taking or releasing the
    mutex [cache.building], entering or leaving [buildDashboard].  The
    instant a step reads from the clock and the result a finishing build
    returns are given by the environment with the step. *)
Section Handlers.
Variable D : Type.

Inductive Response :=
| Served (d : D)
| Failed (e : error).

(** [handleAPI] starts at [AtGet1], [handleRefresh] at [AtClear], the
    pre-fetch of [main] at [AtLockBuild]. *)
Inductive pc :=
| AtGet1
| AtClear
| AtLock
| AtLockBuild
| AtGet2
| InBuild
| AtSet (d : D)
| AtUnlock (r : Response)
| Done (r : Response).

(** [building] names the caller that holds the mutex. *)
Record Server := {
  cache : Cache D;
  building : option nat;
  callers : list pc;
  builds : nat
}.

Record Tick := {
  who : nat;
  at_time : Time;
  built : result D
}.

Definition goto (s : Server) (i : nat) (p : pc) : Server :=
  {| cache := cache s; building := building s;
     callers := <[ i := p ]> (callers s); builds := builds s |}.

Definition lock (s : Server) (i : nat) : option Server :=
  match building s with
  | Some _ => None
  | None => Some {| cache := cache s; building := Some i;
                    callers := callers s; builds := builds s |}
  end.

Definition unlock (s : Server) : Server :=
  {| cache := cache s; building := None;
     callers := callers s; builds := builds s |}.

Definition enterBuild (s : Server) : Server :=
  {| cache := cache s; building := building s;
     callers := callers s; builds := S (builds s) |}.

Definition withCache (s : Server) (c : Cache D) : Server :=
  {| cache := c; building := building s;
     callers := callers s; builds := builds s |}.

(** One atomic action of caller [who e]; [None] when the caller does not
    exist, has returned, or is blocked on the mutex. *)
Definition step (s : Server) (e : Tick) : option Server :=
  let i := who e in
  match callers s !! i with
  | None => None
  | Some AtGet1 =>
      match Cache_Get (cache s) (at_time e) with
      | Some d => Some (goto s i (Done (Served d)))
      | None => Some (goto s i AtLock)
      end
  | Some AtClear =>
      Some (goto (withCache s (Cache_Clear (cache s))) i AtLockBuild)
  | Some AtLock =>
      match lock s i with
      | Some s' => Some (goto s' i AtGet2)
      | None => None
      end
  | Some AtLockBuild =>
      match lock s i with
      | Some s' => Some (goto (enterBuild s') i InBuild)
      | None => None
      end
  | Some AtGet2 =>
      match Cache_Get (cache s) (at_time e) with
      | Some d => Some (goto s i (AtUnlock (Served d)))
      | None => Some (goto (enterBuild s) i InBuild)
      end
  | Some InBuild =>
      match built e with
      | Ok d => Some (goto s i (AtSet d))
      | Err err => Some (goto s i (AtUnlock (Failed err)))
      end
  | Some (AtSet d) =>
      Some (goto (withCache s (Cache_Set (cache s) (Some d) (at_time e))) i
              (AtUnlock (Served d)))
  | Some (AtUnlock r) => Some (goto (unlock s) i (Done r))
  | Some (Done _) => None
  end.

Fixpoint run (s : Server) (schedule : list Tick) : option Server :=
  match schedule with
  | [] => Some s
  | e :: schedule' =>
      match step s e with
      | Some s' => run s' schedule'
      | None => None
      end
  end.

(** [n] callers of [handleAPI] that have all missed the cache [c] and are
    about to take the mutex. *)
Definition missed (c : Cache D) (n : nat) : Server :=
  {| cache := c; building := None; callers := replicate n AtLock;
     builds := 0 |}.

(** A server whose callers stand at the start of a handler. *)
Definition entry (p : pc) : Prop :=
  p = AtGet1 \/ p = AtClear \/ p = AtLockBuild \/ p = AtLock.

Definition finished (s : Server) : Prop :=
  forall i p, callers s !! i = Some p -> exists r, p = Done r.

End Handlers.
Arguments Served {D} d.
Arguments Failed {D} e.
Arguments AtGet1 {D}.
Arguments AtClear {D}.
Arguments AtLock {D}.
Arguments AtLockBuild {D}.
Arguments AtGet2 {D}.
Arguments InBuild {D}.
Arguments AtSet {D} d.
Arguments AtUnlock {D} r.
Arguments Done {D} r.
Arguments cache {D} _.
Arguments building {D} _.
Arguments callers {D} _.
Arguments builds {D} _.
Arguments who {D} _.
Arguments at_time {D} _.
Arguments built {D} _.
Arguments step {D} s e.
Arguments run {D} s schedule.
Arguments missed {D} c n.
Arguments entry {D} p.
Arguments finished {D} s.

(** ** Calendar of the local clock *)

(** The civil date of the day [z] days after 1970-01-01 (proleptic
    Gregorian): what [Time.Date] computes. *)
Definition civil_from_days (z : Z) : Z * Z * Z :=
  let z := z + 719468 in
  let era := z / 146097 in
  let doe := z - era * 146097 in
  let yoe := (doe - doe / 1460 + doe / 36524 - doe / 146096) / 365 in
  let doy := doe - (365 * yoe + yoe / 4 - yoe / 100) in
  let mp := (5 * doy + 2) / 153 in
  let d := doy - (153 * mp + 2) / 5 + 1 in
  let m := if mp <? 10 then mp + 3 else mp - 9 in
  let y := yoe + era * 400 in
  (if m <=? 2 then y + 1 else y, m, d).

(** [t.Year()] and [t.Month()] of a wall-clock instant. *)
Definition Time_Year (t : Time) : Z := fst (fst (civil_from_days (t / Day))).
Definition Time_Month (t : Time) : Z := snd (fst (civil_from_days (t / Day))).

(** [t.AddDate(0, 0, days)] of a UTC instant. *)
Definition Time_AddDays (t : Time) (days : Z) : Time := t + days * Day.

Definition delayBetweenCalls : Duration := 1 * Second.

Arguments Config {F} _.
Arguments Records {F} _.
Arguments Seasons {F} _.
Arguments Scenarios {F} _.
Arguments KPI {F} _.
Arguments TickVals {F} _.
Arguments TickLabels {F} _.
Arguments GeneratedAt {F} _.
Arguments CurrentYear {F} _.

(** ** Season year, orchestrator, ticks and dashboard builder *)

Section Builder.
Context {F : Type} {FO : Float64 F}.
Variable time_Parse : string -> string -> option Time.
Variable strconv_ParseFloat : string -> F.
(** The offset of the local time zone from UTC in effect at an instant:
    [time.Now()] is a local time, and its [Year] and [Month] are read on the
    local wall clock. *)
Variable zoneOffset : Time -> Duration.

(** [currentWinterStartYear] *)
Definition currentWinterStartYear : M Z :=
  now <- time_Now ;;
  let year := Time_Year (now + zoneOffset now) in
  let month := Time_Month (now + zoneOffset now) in
  if month <? 11 then ret (year - 1) else ret year.

(** What one turn of the loop of [fetchAllSeasons] does with the answer
    for [cfg]. *)
Definition keepSeason (cfg : SeasonConfig)
    (r : result (list (DayRecord F)))
    (loaded : gmap Z (list (DayRecord F)) * list (SeasonData F))
    : gmap Z (list (DayRecord F)) * list (SeasonData F) :=
  match r with
  | Ok ((_ :: _) as records) =>
      (<[ Year cfg := records ]> (fst loaded),
       snd loaded ++ [ {| Config := cfg; Records := records |} ])
  | _ => loaded
  end.

(** The loop [for i, cfg := range configs]; [i < len(configs)-1] holds when
    configs remain. *)
Fixpoint fetchSeasonsLoop (configs : list SeasonConfig)
    (loaded : gmap Z (list (DayRecord F)) * list (SeasonData F))
    : M (gmap Z (list (DayRecord F)) * list (SeasonData F)) :=
  match configs with
  | [] => ret loaded
  | cfg :: rest =>
      r <- fetchSeasonWithRetry time_Parse strconv_ParseFloat (Year cfg) ;;
      (match rest with
       | [] => ret tt
       | _ => time_Sleep delayBetweenCalls
       end) ;;;
      fetchSeasonsLoop rest (keepSeason cfg r loaded)
  end.

Definition fetchAllSeasons (configs : list SeasonConfig)
    : M (gmap Z (list (DayRecord F)) * list (SeasonData F)) :=
  fetchSeasonsLoop configs (∅, []).

(** The loop [for d := 0; d < 180; d += 7] of [generateTicks]. *)
Fixpoint ticksLoop (fuel : nat) (start : Time) (d : Z)
    (vals : list Z) (labels : list Formatted) : list Z * list Formatted :=
  match fuel with
  | O => (vals, labels)
  | S fuel' =>
      if d <? 180
      then ticksLoop fuel' start (d + 7) (vals ++ [d])
             (labels ++ [Format (Time_AddDays start d) "02 Jan"])
      else (vals, labels)
  end.

Definition generateTicks (startYear : Z) : list Z * list Formatted :=
  ticksLoop 180 (seasonStartOf startYear) 0 [] [].

(** The three season configs of [buildDashboard]. *)
Definition seasonConfigs (cwsy : Z) : list SeasonConfig :=
  [ {| Year := cwsy - 2;
       cfg_Name := ("Winter " ++ fmt_d (cwsy - 2) ++ "/"
                    ++ fmt_02d (Z.rem (cwsy - 1) 100))%string;
       cfg_Color := "#95a5a6"; Width := 3; cfg_Dash := "dash";
       FillColor := "rgba(149,165,166,0.08)"; IsCurrent := false |};
    {| Year := cwsy - 1;
       cfg_Name := ("Winter " ++ fmt_d (cwsy - 1) ++ "/"
                    ++ fmt_02d (Z.rem cwsy 100))%string;
       cfg_Color := "#e67e22"; Width := 3; cfg_Dash := "dash";
       FillColor := "rgba(230,126,34,0.10)"; IsCurrent := false |};
    {| Year := cwsy;
       cfg_Name := ("Winter " ++ fmt_d cwsy ++ "/"
                    ++ fmt_02d (Z.rem (cwsy + 1) 100) ++ " (Current)")%string;
       cfg_Color := "#004080"; Width := 4; cfg_Dash := "solid";
       FillColor := "rgba(0,64,128,0.18)"; IsCurrent := true |} ].

(** [seasons[i].Config.IsCurrent = true] *)
Definition markCurrent (sd : SeasonData F) : SeasonData F :=
  {| Config := {| Year := Year (Config sd); cfg_Name := cfg_Name (Config sd);
                  cfg_Color := cfg_Color (Config sd);
                  Width := Width (Config sd);
                  cfg_Dash := cfg_Dash (Config sd);
                  FillColor := FillColor (Config sd); IsCurrent := true |};
     Records := Records sd |}.

(** The fallback loop [for i := len(seasons) - 1; i >= 0; i--], entered
    with [n = len(seasons)]: the index of the last season with records. *)
Fixpoint fallbackLoop (seasons : list (SeasonData F)) (n : nat) : option nat :=
  match n with
  | O => None
  | S i =>
      match seasons !! i with
      | Some sd =>
          if (0 <? length (Records sd))%nat then Some i
          else fallbackLoop seasons i
      | None => fallbackLoop seasons i
      end
  end.

(** The choice of the current season's records, and the season list after
    it; [None] when no season qualifies. *)
Definition selectCurrent (cwsy : Z)
    (allSeasons : gmap Z (list (DayRecord F))) (seasons : list (SeasonData F))
    : option (list (DayRecord F) * list (SeasonData F)) :=
  match allSeasons !! cwsy with
  | Some ((_ :: _) as r) => Some (r, seasons)
  | _ =>
      match fallbackLoop seasons (length seasons) with
      | Some i =>
          match seasons !! i with
          | Some sd => Some (Records sd, <[ i := markCurrent sd ]> seasons)
          | None => None
          end
      | None => None
      end
  end.

(** [buildDashboard]; the outer [None] stands for a panic (of [buildKPI]
    on an empty slice). *)
Definition buildDashboard : M (option (result (DashboardData F))) :=
  now <- time_Now ;;
  cwsy <- currentWinterStartYear ;;
  loaded <- fetchAllSeasons (seasonConfigs cwsy) ;;
  match snd loaded with
  | [] => ret (Some (Err (errorString "no season data loaded from API")))
  | _ =>
      match selectCurrent cwsy (fst loaded) (snd loaded) with
      | None => ret (Some (Err (errorString "no usable current season data")))
      | Some (currentRecords, seasons) =>
          let scenarios := generateScenarios currentRecords (fst loaded) cwsy in
          match buildKPI currentRecords scenarios with
          | None => ret None
          | Some kpi =>
              ret (Some (Ok {| Seasons := seasons;
                               Scenarios := scenarios;
                               KPI := kpi;
                               TickVals := fst (generateTicks cwsy);
                               TickLabels := snd (generateTicks cwsy);
                               GeneratedAt := Format now "02 Jan 2006 15:04";
                               CurrentYear := cwsy |}))
          end
      end
  end.

End Builder.

(** * Vocabulary of the specification *)

(** ** Retrying fetcher *)

Definition isSleep (e : Event) : option Duration :=
  match e with EvSleep d => Some d | _ => None end.

Definition isFetch (e : Event) : bool :=
  match e with EvFetch _ => true | _ => false end.

Definition isRequest (e : Event) : bool :=
  match e with EvRequest _ => true | _ => false end.

(** The delays slept, in order. *)
Definition sleepsOf (evs : list Event) : list Duration := omap isSleep evs.

(** How many events of a kind a trace has. *)
Definition countEv (p : Event -> bool) (evs : list Event) : nat :=
  length (List.filter p evs).

(** [delay = base * attempt number], for attempts [1 .. k]. *)
Definition backoff (k : nat) : list Duration :=
  map (fun i : nat => retryDelay * Z.of_nat i) (seq 1 k).

Section RetrySpec.
Context {F : Type} {FO : Float64 F}.
Variable time_Parse : string -> string -> option Time.
Variable strconv_ParseFloat : string -> F.

(** [Tried y w k w']: starting in [w], [k] attempts for season [y] have
    failed one after the other, the [i]-th followed by a sleep of
    [retryDelay * i], and the world is then [w']. *)
Inductive Tried (y : Z) (w : World) : nat -> World -> Prop :=
| Tried_none : Tried y w 0 w
| Tried_again k w1 e w2 :
    Tried y w k w1 ->
    fetchSeason time_Parse strconv_ParseFloat y w1 = (Err e, w2) ->
    Tried y w (S k) (snd (time_Sleep (retryDelay * Z.of_nat (S k)) w2)).

End RetrySpec.

(** ** Season aggregator *)

Section AggregatorSpec.
Context {F : Type} {FO : Float64 F}.

(** The values at indices [max(0, i-6) .. i]. *)
Definition window (xs : list F) (i : nat) : list F :=
  take (i + 1 - (i - 6)) (drop (i - 6) xs).

(** The arithmetic mean, summed from the left starting at 0. *)
Definition mean (xs : list F) : F :=
  fold_left f_add xs f_zero /. of_int (Z.of_nat (length xs)).

(** The closed form of the trend loop on the sorted records [l]. *)
Definition trendAt (l : list (DayRecord F)) (j : nat) : F :=
  match j with
  | O => Trend (at_ l 0)
  | S j' => Full (at_ l j) -. Full (at_ l j')
  end.

Definition trendMA7At (l : list (DayRecord F)) (j : nat) : F :=
  fold_left (fun sum k => sum +. trendAt l k)
    (seq (j - 6) (j - (j - 6) + 1)) f_zero
  /. of_int (Z.of_nat (j - (j - 6) + 1)).

Definition derived (l : list (DayRecord F)) (j : nat) : DayRecord F :=
  set_TrendMA7 (set_Trend (at_ l j) (trendAt l j)) (trendMA7At l j).

Definition byDate (a b : DayRecord F) : Prop := Date a <= Date b.

(** What the normalizer guarantees of every record it emits. *)
Definition fresh (seasonStart : Time) (r : DayRecord F) : Prop :=
  DaysElapsed r = elapsedDays seasonStart (Date r) /\
  Trend r = f_zero /\ TrendMA7 r = f_zero.

End AggregatorSpec.

(** [p] holds of the [n] integers from [k] on. *)
Fixpoint allFrom (p : Z -> bool) (k : Z) (n : nat) : bool :=
  match n with
  | O => true
  | S n' => p k && allFrom p (k + 1) n'
  end.

(** Instant [t] lies [k] whole days from [start], within the range of a
    duration. *)
Definition wholeDaysFrom (start t : Time) (k : Z) : Prop :=
  t = start + k * Day /\ minInt64 <= k * Day <= maxInt64.

(** The arithmetic [F] computes the whole days of the duration [d] without
    error. *)
Definition daysExact {F : Type} {FO : Float64 F} (d : Duration) : Prop :=
  to_int (F := F) (Duration_Hours d /. of_int 24) = Z.quot d Day.

(** The whole-day offsets on which the binary64 computation of the elapsed
    days is checked exhaustively: about 27 years either side of the season
    start. *)
Definition wholeDaysChecked : Z := 10000.

(** ** Scenario projector *)

Section ProjectionSpec.
Context {F : Type} {FO : Float64 F}.

(** The last record of the current season: "today". *)
Definition today (current : list (DayRecord F)) : DayRecord F :=
  at_ current (length current - 1).

(** The regression slope over the trailing window. *)
Definition trailingSlope (current : list (DayRecord F)) : F :=
  fst (linearRegression (drop (length current - trendWindow) current)).

(** The records of a season that lie beyond elapsed day [day]. *)
Definition beyond (day : Z) (recs : list (DayRecord F)) : list (DayRecord F) :=
  List.filter (fun r => day <? DaysElapsed r) recs.

(** The point the projector makes of a historical record, given the fill
    [base] the curve is anchored at. *)
Definition analogPoint (currentVal base : F) (r : DayRecord F)
    : ScenarioPoint F :=
  {| X := of_int (DaysElapsed r);
     Y := currentVal +. (Full r -. base);
     HoverDate := Format (Date r) "02 Jan" |}.

(** The shift as the specification words it: by the offset between the
    historical fill at today's elapsed day and the current fill. *)
Definition shiftedByTodayOffset (day : Z) (currentVal : F)
    (recs : list (DayRecord F)) : list F :=
  match List.find (fun r => DaysElapsed r =? day) recs with
  | Some atToday =>
      map (fun r => Full r -. (Full atToday -. currentVal)) (beyond day recs)
  | None => []
  end.

(** The decline scenarios [generateScenarios] starts its result with. *)
Definition declines (current : list (DayRecord F)) : list (Scenario F) :=
  if trailingSlope current <.? f_zero then
    [ declineScenario "Linear" "📉 Linear Trend" "#c0392b" "dot"
        (DaysElapsed (today current)) (Full (today current))
        (Date (today current)) (trailingSlope current);
      declineScenario "Stress" "❄️ Severe Winter" "#800000" "dashdot"
        (DaysElapsed (today current)) (Full (today current))
        (Date (today current)) (trailingSlope current *. stressMultiplier) ]
  else [].

(** The History scenario [generateScenarios] ends its result with, if any. *)
Definition historyOf (current : list (DayRecord F))
    (allSeasons : gmap Z (list (DayRecord F))) (y : Z) : list (Scenario F) :=
  match allSeasons !! (y - 1) with
  | Some recs =>
      match historyPoints (DaysElapsed (today current)) (Full (today current))
              recs with
      | [] => []
      | points =>
          [ {| Name := "History";
               Label := ("📅 Like " ++ fmt_d (y - 1) ++ "/"
                         ++ fmt_02d (Z.rem (y - 1 + 1) 100))%string;
               Color := "#d35400"; Dash := "dash";
               Points := points;
               HitDate := None;
               Slope := f_zero;
               DaysLeft := 0 |} ]
      end
  | None => []
  end.

End ProjectionSpec.

(** ** Regression *)

Definition sumZ (zs : list Z) : Z := fold_right Z.add 0 zs.
Definition sumSq (zs : list Z) : Z := fold_right (fun z acc => z * z + acc) 0 zs.

(** [n * sum x^2 - (sum x)^2], the denominator of the slope. *)
Definition spread (zs : list Z) : Z :=
  Z.of_nat (length zs) * sumSq zs - sumZ zs * sumZ zs.

(** The squared distances from [z] to the elements of [zs]. *)
Definition sqDist (z : Z) (zs : list Z) : Z :=
  fold_right (fun y acc => (z - y) * (z - y) + acc) 0 zs.

(** The records lie on the line [fill = intercept + slope * day]. *)
Definition onLine {F : Type} {FO : Float64 F} (intercept slope : F)
    (recs : list (DayRecord F)) : Prop :=
  forall r, r ∈ recs -> Full r = intercept +. slope *. of_int (DaysElapsed r).

(** Two of the records have different elapsed days. *)
Definition twoDays {F : Type} (recs : list (DayRecord F)) : Prop :=
  exists i j r1 r2,
    recs !! i = Some r1 /\ recs !! j = Some r2 /\
    DaysElapsed r1 <> DaysElapsed r2.

(** ** Single-flight build *)

Section HandlerSpec.
Context {D : Type}.

(** The callers between [cache.building.Lock()] and the deferred
    [Unlock()]. *)
Definition critical (p : pc D) : bool :=
  match p with
  | AtGet2 | InBuild | AtSet _ | AtUnlock _ => true
  | _ => false
  end.

(** Whoever is in the critical section holds the mutex. *)
Definition exclusive (s : Server D) : Prop :=
  forall i p, callers s !! i = Some p -> critical p = true ->
              building s = Some i.

(** Before a result is published: the cache is still [c], nobody has
    returned, and a build has been entered only by the holder of the
    mutex. *)
Definition cold (c : Cache D) (s : Server D) : Prop :=
  cache s = c /\
  (building s = None -> builds s = 0%nat) /\
  forall i p, callers s !! i = Some p ->
    match p with
    | AtLock => True
    | AtGet2 => building s = Some i /\ builds s = 0%nat
    | InBuild | AtSet _ => building s = Some i /\ builds s = 1%nat
    | _ => False
    end.

(** After the one build has published [d] at instant [t0]. *)
Definition published (c : Cache D) (d : D) (t0 : Time) (s : Server D) : Prop :=
  cache s = Cache_Set c (Some d) t0 /\
  builds s = 1%nat /\
  forall i p, callers s !! i = Some p ->
    match p with
    | AtLock => True
    | AtGet2 => building s = Some i
    | AtUnlock r => r = Served d /\ building s = Some i
    | Done r => r = Served d
    | _ => False
    end.

(** A step of a run in which the callers keep missing [c], builds
    succeed, and every instant is less than a time-to-live after [t0]
    whenever [anchor t0]. *)
Definition benign (c : Cache D) (anchor : Time -> Prop) (e : Tick D) : Prop :=
  Cache_Get c (at_time e) = None /\
  (exists d, built e = Ok d) /\
  anchor (at_time e) /\
  forall t0, anchor t0 -> time_Since (at_time e) t0 < ttl c.

End HandlerSpec.

(** * Vocabulary of the further properties *)

Section NormalizerSpec.
Context {F : Type} {FO : Float64 F}.
Variable time_Parse : string -> string -> option Time.
Variable strconv_ParseFloat : string -> F.

(** The payload entries the normalizer keeps. *)
Definition parseable (r : APIRecord) : bool :=
  negb (Time_IsZero (parseDate time_Parse (GasDayStart r))).

(** The record the normalizer makes of a payload entry. *)
Definition normalized (seasonStart : Time) (r : APIRecord) : DayRecord F :=
  {| Date := parseDate time_Parse (GasDayStart r);
     DateStr := Format (parseDate time_Parse (GasDayStart r)) "02 Jan 2006";
     Full := parseFloat strconv_ParseFloat (api_Full r);
     Injection := parseFloat strconv_ParseFloat (api_Injection r);
     Withdrawal := parseFloat strconv_ParseFloat (api_Withdrawal r);
     DaysElapsed := elapsedDays seasonStart
                      (parseDate time_Parse (GasDayStart r));
     Trend := f_zero;
     TrendMA7 := f_zero |}.

End NormalizerSpec.

(** A record with its two derived fields reset. *)
Definition untrended {F : Type} {FO : Float64 F} (r : DayRecord F)
    : DayRecord F :=
  set_TrendMA7 (set_Trend r f_zero) f_zero.

(** How often the delay [d] was slept. *)
Definition countSleeps (d : Duration) (evs : list Event) : nat :=
  length (List.filter (Z.eqb d) (sleepsOf evs)).

(** The map [fetchAllSeasons] keeps beside its list: the records of each
    loaded season under its year, a later season replacing an earlier one
    of the same year. *)
Definition indexByYear {F : Type} (seasons : list (SeasonData F))
    (m : gmap Z (list (DayRecord F))) : gmap Z (list (DayRecord F)) :=
  fold_left (fun m sd => <[ Year (Config sd) := Records sd ]> m) seasons m.

Definition hasRecords {F : Type} (sd : SeasonData F) : Prop :=
  Records sd <> [].

(** ** Calendar *)

(** The winter start year read off the civil date of day [day] (days since
    1970-01-01), as [currentWinterStartYear] reads it off the local wall
    clock. *)
Definition winterOfDay (day : Z) : Z :=
  let '(y, m, _) := civil_from_days day in
  if m <? 11 then y - 1 else y.

(** Day [day] lies in the winter year computed for it: on or after its
    1 November and before the next. *)
Definition bracketed (day : Z) : bool :=
  let y := winterOfDay day in
  (1000 <=? y) && (y + 1 <=? 9999) &&
  (days_from_civil y winterStartMonth winterStartDay <=? day) &&
  (day <? days_from_civil (y + 1) winterStartMonth winterStartDay).

(** The civil date of 1 November of year [y] is read back as such. *)
Definition novemberFirst (y : Z) : bool :=
  match civil_from_days (days_from_civil y winterStartMonth winterStartDay) with
  | (y', m, d) => (y' =? y) && (m =? 11) && (d =? 1)
  end.

(** The days on which the calendar is checked exhaustively: from
    1970-01-01 up to 2100-01-01. *)
Definition calendarDays : nat := Z.to_nat (days_from_civil 2100 1 1).

(** ** Handlers *)

Section HandlerSpecMore.
Context {D : Type}.

(** Whoever holds the mutex is in its critical section. *)
Definition held (s : Server D) : Prop :=
  forall i, building s = Some i ->
            exists p, callers s !! i = Some p /\ critical p = true.

(** A caller at [p] carries the dashboard [d] towards its response. *)
Definition carries (d : D) (p : pc D) : Prop :=
  p = AtSet d \/ p = AtUnlock (Served d) \/ p = Done (Served d).

(** Every dashboard in the cache or in a caller's hands satisfies [P]. *)
Definition sourced (P : D -> Prop) (s : Server D) : Prop :=
  (forall d, data (cache s) = Some d -> P d) /\
  forall i p d, callers s !! i = Some p -> carries d p -> P d.

(** One caller of [handleRefresh] on a server that holds the cache [c]. *)
Definition refreshing (c : Cache D) : Server D :=
  {| cache := c; building := None; callers := [AtClear]; builds := 0 |}.

End HandlerSpecMore.

(** ** Shape of the orchestrator's trace *)

(** What one call of [fetchSeason] for the year [y] leaves in the trace;
    [sent] says whether it got as far as sending the request. *)
Definition attemptEvents (y : Z) (sent : bool) : list Event :=
  if sent then [EvFetch y; EvRequest y] else [EvFetch y].

(** Failed attempts for [y], numbered from [i], each followed by its
    retry delay. *)
Fixpoint failedAttempts (y : Z) (i : nat) (failed : list bool) : list Event :=
  match failed with
  | [] => []
  | sent :: failed' =>
      attemptEvents y sent
      ++ EvSleep (retryDelay * Z.of_nat i) :: failedAttempts y (S i) failed'
  end.

(** The trace of one season: at most two failed attempts for [y], then the
    attempt that decides. *)
Definition seasonBlock (y : Z) (block : list Event) : Prop :=
  exists (failed : list bool) (sent : bool),
    (length failed < 3)%nat /\
    block = failedAttempts y 1 failed ++ attemptEvents y sent.

(** The blocks of the seasons, two consecutive ones separated by one sleep
    of [delayBetweenCalls]. *)
Fixpoint paced (blocks : list (list Event)) : list Event :=
  match blocks with
  | [] => []
  | block :: rest =>
      match rest with
      | [] => block
      | _ :: _ => block ++ EvSleep delayBetweenCalls :: paced rest
      end
  end.

(** What the trace of the season of [cfg] looks like: a block for its
    year, with one to three tries and no more requests than tries. *)
Definition seasonTrace (cfg : SeasonConfig) (block : list Event) : Prop :=
  seasonBlock (Year cfg) block /\
  (1 <= countEv isFetch block <= 3)%nat /\
  (countEv isRequest block <= countEv isFetch block)%nat.

(** ** Anchor of the History scenario *)

(** Shifting by the fill of the anchor record itself gives back the
    current fill [v]: the first point of the History scenario, whose
    anchor fill is [x], is then [v]. *)
Definition anchored {F : Type} {FO : Float64 F} (v x : F) : Prop :=
  v +. (x -. x) = v.

(** ** KPI window *)

(** The record seven records before the last one, if there is one. *)
Definition sevenBack {F : Type} (records : list (DayRecord F))
    : option (DayRecord F) :=
  if (8 <=? length records)%nat then records !! (length records - 8)%nat
  else None.

(** * Concrete inputs used below *)

(** A [time.Parse] that rejects everything, for runs that parse nothing. *)
Definition parseNothing : string -> string -> option Time := fun _ _ => None.

(** A [strconv.ParseFloat] that fails on everything (value 0). *)
Definition parseZero : string -> float := fun _ => 0%float.

(** 15 January 2026, noon, with an upstream that refuses every
    connection after one second. *)
Definition worldDown : World :=
  {| clock := civil 2026 1 15 12 0 0;
     network := fun _ => (Second, DoFailed (errorString "connection refused"));
     requests := 0;
     trace := [] |}.

Definition worldDown_after : World :=
  {| clock := civil 2026 1 15 12 0 9;
     network := fun _ => (Second, DoFailed (errorString "connection refused"));
     requests := 3;
     trace := [ EvFetch 2025; EvRequest 2025; EvSleep (2 * Second);
                EvFetch 2025; EvRequest 2025; EvSleep (4 * Second);
                EvFetch 2025; EvRequest 2025 ] |}.

Definition worldDown_error : error :=
  wrapError
    "all 3 attempts failed for 2025: HTTP request: connection refused"
    (wrapError "HTTP request: connection refused"
       (errorString "connection refused")).

(** The answers of [time.Parse] and [strconv.ParseFloat] on the texts used
    in the payloads below. *)
Definition parseSample (layout s : string) : option Time :=
  if String.eqb layout "2006-01-02" then
    if String.eqb s "2025-11-01" then Some (civil 2025 11 1 0 0 0)
    else if String.eqb s "2025-11-02" then Some (civil 2025 11 2 0 0 0)
    else if String.eqb s "2025-11-03" then Some (civil 2025 11 3 0 0 0)
    else None
  else if String.eqb layout "2006-01-02T15:04:05" then
    if String.eqb s "2025-11-01T18:00:00" then Some (civil 2025 11 1 18 0 0)
    else if String.eqb s "2025-11-02T12:00:00" then Some (civil 2025 11 2 12 0 0)
    else None
  else None.

Definition parseFloatSample (s : string) : float :=
  if String.eqb s "96" then 96%float
  else if String.eqb s "95.5" then 95.5%float
  else if String.eqb s "95" then 95%float
  else 0%float.

Definition apiRecord (day full : string) : APIRecord :=
  {| GasDayStart := day; api_Full := full; api_Injection := "-";
     api_Withdrawal := "N/A" |}.

(** Three gas days given by date only, newest first. *)
Definition payloadDaily : list APIRecord :=
  [ apiRecord "2025-11-03" "95"; apiRecord "2025-11-02" "95.5";
    apiRecord "2025-11-01" "96" ].

(** Two gas days given with a time of day: 1 November 18:00 and
    2 November 12:00. *)
Definition payloadTimed : list APIRecord :=
  [ apiRecord "2025-11-01T18:00:00" "96";
    apiRecord "2025-11-02T12:00:00" "95.5" ].

(** A record of season 2025/26, [day] days after its start. *)
Definition sampleRecord {F : Type} {FO : Float64 F} (day : Z) (full : F)
    : DayRecord F :=
  {| Date := seasonStartOf 2025 + day * Day;
     DateStr := Format (seasonStartOf 2025 + day * Day) "02 Jan 2006";
     Full := full; Injection := f_zero; Withdrawal := f_zero;
     DaysElapsed := day; Trend := f_zero; TrendMA7 := f_zero |}.

(** [n] daily records on the line [fill = intercept + slope * day], from
    day 0. *)
Definition lineSeason {F : Type} {FO : Float64 F} (intercept slope : F)
    (n : nat) : list (DayRecord F) :=
  map (fun i : nat =>
         sampleRecord (Z.of_nat i)
           (intercept +. slope *. of_int (Z.of_nat i)))
      (seq 0 n).

(** Fourteen days falling by half a point a day from 80. *)
Definition fallingFrom80 : list (DayRecord float) :=
  lineSeason 80%float (-0.5)%float 14.

(** Fourteen days falling by 2 a day, ending at a fill of 11. *)
Definition fallingTo11 : list (DayRecord float) :=
  lineSeason 37%float (-2)%float 14.

Definition fallingTo11_exact : list (DayRecord Qc) :=
  lineSeason (F := Qc) (of_int 37) (of_int (-2)) 14.

(** Fourteen days falling by 2 a day, ending at a fill of 8. *)
Definition fallingTo8 : list (DayRecord float) :=
  lineSeason 34%float (-2)%float 14.

(** Fourteen days falling by 3/64 a day, ending at a fill of 90. *)
Definition fallingTo90 : list (DayRecord float) :=
  lineSeason 90.609375%float (-0.046875)%float 14.

(** Fourteen days rising by 1 a day, ending at a fill of 90. *)
Definition risingTo90 : list (DayRecord float) :=
  lineSeason 77%float 1%float 14.

Definition risingTo90_exact : list (DayRecord Qc) :=
  lineSeason (F := Qc) (of_int 77) (of_int 1) 14.

(** Three days at the binary64 value nearest to 0.1. *)
Definition flatTenth : list (DayRecord float) :=
  lineSeason 0x1.999999999999ap-4%float 0%float 3.

(** The season before 2025/26: sixteen days falling by 2 a day from 80. *)
Definition seasonsWith2024 : gmap Z (list (DayRecord float)) :=
  {[ 2024 := lineSeason 80%float (-2)%float 16 ]}.

Definition seasonsWith2024_exact : gmap Z (list (DayRecord Qc)) :=
  {[ 2024 := lineSeason (F := Qc) (of_int 80) (of_int (-2)) 16 ]}.

(** Two callers that missed an empty cache.  The first takes the mutex,
    re-checks, builds and publishes 42, and releases; the second then takes
    the mutex, finds the result, and releases. *)
Definition tick (i : nat) (t : Time) (r : result Z) : Tick Z :=
  {| who := i; at_time := t; built := r |}.

Definition scheduleOk : list (Tick Z) :=
  [ tick 0 1 (Ok 42); tick 0 2 (Ok 42); tick 0 3 (Ok 42); tick 0 4 (Ok 42);
    tick 0 5 (Ok 42);
    tick 1 6 (Ok 42); tick 1 7 (Ok 42); tick 1 8 (Ok 42) ].

(** The same two callers with an upstream that is down: the first build
    fails, nothing is published, and the second caller builds again. *)
Definition upstreamDown : result Z := Err (errorString "no season data loaded from API").

Definition scheduleDown : list (Tick Z) :=
  [ tick 0 1 upstreamDown; tick 0 2 upstreamDown; tick 0 3 upstreamDown;
    tick 0 4 upstreamDown;
    tick 1 5 upstreamDown; tick 1 6 upstreamDown; tick 1 7 upstreamDown;
    tick 1 8 upstreamDown ].

(** * Further concrete inputs *)

(** 15 January 2026, noon, with an upstream that answers every request
    after one second with the three gas days of [payloadDaily]. *)
Definition worldUp : World :=
  {| clock := civil 2026 1 15 12 0 0;
     network := fun _ => (Second, Body 200 "{...}" (Ok payloadDaily));
     requests := 0;
     trace := [] |}.

(** The configs of the seasons 2024/25 and 2025/26. *)
Definition configsSample : list SeasonConfig :=
  [ {| Year := 2024; cfg_Name := "Winter 2024/25"; cfg_Color := "#e67e22";
       Width := 3; cfg_Dash := "dash"; FillColor := "rgba(230,126,34,0.10)";
       IsCurrent := false |};
    {| Year := 2025; cfg_Name := "Winter 2025/26 (Current)";
       cfg_Color := "#004080"; Width := 4; cfg_Dash := "solid";
       FillColor := "rgba(0,64,128,0.18)"; IsCurrent := true |} ].

(** 31 October 2025, 23:30 UTC: half past midnight of 1 November in a zone
    one hour ahead. *)
Definition worldEve : World :=
  {| clock := civil 2025 10 31 23 30 0;
     network := fun _ => (Second, Body 200 "{...}" (Ok payloadDaily));
     requests := 0;
     trace := [] |}.

(** A season before 2025/26 whose only record, on day 14, carries an
    infinite fill (the text [Inf] parses to it). *)
Definition seasonsWithInfinity : gmap Z (list (DayRecord float)) :=
  {[ 2024 := [sampleRecord 14 infinity] ]}.

(** * Properties *)

(** ** Dashboard cache *)

Section CacheFacts.
Context {D : Type}.
Implicit Types (c : Cache D) (d : D).

Lemma Cache_Get_Some c now r :
  Cache_Get c now = Some r <->
  data c = Some r /\ time_Since now (lastFetched c) < ttl c.
Proof.
  unfold Cache_Get.
  destruct (data c) as [d|]; [|split; [discriminate|intros [? _]; discriminate]].
  destruct (Z.ltb_spec (time_Since now (lastFetched c)) (ttl c)); split.
  - intros [= ->]. auto.
  - intros [[= ->] _]. reflexivity.
  - discriminate.
  - intros [_ ?]. lia.
Qed.

Lemma Cache_Get_None c now :
  Cache_Get c now = None <->
  data c = None \/ ttl c <= time_Since now (lastFetched c).
Proof.
  unfold Cache_Get.
  destruct (data c) as [d|]; [|split; auto].
  destruct (Z.ltb_spec (time_Since now (lastFetched c)) (ttl c)); split;
    try discriminate; auto.
  intros [?|?]; [discriminate|lia].
Qed.

(** The age the cache computes is the difference of the two instants as
    long as the time-to-live is an int64 and the clock has not run
    backwards past it. *)
Lemma age_fresh_iff (now t life : Z) :
  minInt64 < life <= maxInt64 ->
  time_Since now t < life <-> now - t < life.
Proof.
  unfold time_Since, Time_Sub, sat64, minInt64, maxInt64. lia.
Qed.

End CacheFacts.

(** C1: [Get] returns the stored result exactly when one is present and
    its age is strictly below the time-to-live, and a miss otherwise; [Set]
    replaces the result and restarts the freshness clock; [Clear] empties
    the cache.  Hence two [Get]s inside the window after a [Set] return the
    same data, and a [Get] once the time-to-live has elapsed is a miss. *)
Theorem cache_contract {D : Type} (c : Cache D) :
  (forall now r,
     Cache_Get c now = Some r <->
     data c = Some r /\ time_Since now (lastFetched c) < ttl c) /\
  (forall now,
     Cache_Get c now = None <->
     data c = None \/ ttl c <= time_Since now (lastFetched c)) /\
  (forall p now,
     data (Cache_Set c p now) = p /\
     lastFetched (Cache_Set c p now) = now /\
     ttl (Cache_Set c p now) = ttl c) /\
  (data (Cache_Clear c) = None /\
   forall now, Cache_Get (Cache_Clear c) now = None) /\
  (forall d t0 t1 t2,
     time_Since t1 t0 < ttl c -> time_Since t2 t0 < ttl c ->
     Cache_Get (Cache_Set c (Some d) t0) t1 = Some d /\
     Cache_Get (Cache_Set c (Some d) t0) t2 = Some d) /\
  (forall p t0 t,
     ttl c <= time_Since t t0 ->
     Cache_Get (Cache_Set c p t0) t = None).
Proof.
  split; [apply Cache_Get_Some|].
  split; [apply Cache_Get_None|].
  split; [intros; cbn; auto|].
  split; [split; [reflexivity|intros; apply Cache_Get_None; left; reflexivity]|].
  split.
  - intros d t0 t1 t2 H1 H2; split; apply Cache_Get_Some; cbn; auto.
  - intros p t0 t H. apply Cache_Get_None. right. exact H.
Qed.

Lemma cache_contract_witness :
  Cache_Get (Cache_Set (@cache0 Z) (Some 7) 0) Hour = Some 7 /\
  Cache_Get (Cache_Set (@cache0 Z) (Some 7) 0) (Hour + 1) = Some 7 /\
  Cache_Get (Cache_Set (@cache0 Z) (Some 7) 0) (2 * Hour) = None.
Proof.
  destruct (cache_contract (@cache0 Z)) as (_ & _ & _ & _ & Hfresh & Hstale).
  destruct (Hfresh 7 0 Hour (Hour + 1)) as [H1 H2];
    [vm_compute; reflexivity | vm_compute; reflexivity |].
  split; [exact H1|]. split; [exact H2|].
  apply Hstale. vm_compute. discriminate.
Defined.

(** ** Retrying fetcher *)

Lemma string_app_assoc (a b c : string) :
  ((a ++ b) ++ c = a ++ (b ++ c))%string.
Proof.
  induction a as [|ch a IH]; [reflexivity|].
  change (String ch ((a ++ b) ++ c) = String ch (a ++ (b ++ c)))%string.
  now rewrite IH.
Qed.

Section RetryFacts.
Context {F : Type} {FO : Float64 F}.
Variable time_Parse : string -> string -> option Time.
Variable strconv_ParseFloat : string -> F.

Local Abbreviation fetch := (fetchSeason time_Parse strconv_ParseFloat).
Local Abbreviation tried := (Tried time_Parse strconv_ParseFloat).

(** One call of [fetchSeason] sends at most one request and never sleeps. *)
Lemma fetchSeason_effect y w r w' :
  fetch y w = (r, w') ->
  (trace w' = trace w ++ [EvFetch y] /\ requests w' = requests w) \/
  (trace w' = trace w ++ [EvFetch y; EvRequest y] /\
   requests w' = S (requests w)).
Proof.
  unfold fetchSeason, bind, emit, time_Now, client_Do, ret. cbn.
  destruct (Time_After _ _).
  - intros [= _ <-]. left. auto.
  - intros H. cbn in H. right.
    destruct (network w (requests w)) as [latency answer].
    assert (w' = {| clock := clock w + Z.max latency 0; network := network w;
                    requests := S (requests w);
                    trace := (trace w ++ [EvFetch y]) ++ [EvRequest y] |})
      as ->.
    { destruct answer as [e|st e|st body [payload|e]]; cbn in H;
        try destruct (negb _); injection H as _ <-; reflexivity. }
    cbn. rewrite <- app_assoc. auto.
Qed.

Lemma sleepsOf_app evs evs' : sleepsOf (evs ++ evs') = sleepsOf evs ++ sleepsOf evs'.
Proof. apply omap_app. Qed.

Lemma countEv_app p evs evs' :
  countEv p (evs ++ evs') = (countEv p evs + countEv p evs')%nat.
Proof. unfold countEv. rewrite List.filter_app, length_app. reflexivity. Qed.

Lemma backoff_S k : backoff (S k) = backoff k ++ [retryDelay * Z.of_nat (S k)].
Proof. unfold backoff. rewrite seq_S, map_app. reflexivity. Qed.

(** What [k] failed attempts leave in the trace. *)
Lemma Tried_trace y w k w1 :
  tried y w k w1 ->
  exists evs,
    trace w1 = trace w ++ evs /\
    sleepsOf evs = backoff k /\
    countEv isFetch evs = k /\
    (countEv isRequest evs <= k)%nat /\
    requests w1 = (requests w + countEv isRequest evs)%nat.
Proof.
  induction 1 as [|k w1 e w2 _ (evs & Ht & Hs & Hf & Hr & Hn) Hfetch].
  - exists []. rewrite app_nil_r. cbn. auto with lia.
  - destruct (fetchSeason_effect _ _ _ _ Hfetch) as [[Ht2 Hn2]|[Ht2 Hn2]].
    + exists (evs ++ [EvFetch y; EvSleep (retryDelay * Z.of_nat (S k))]).
      cbn [snd time_Sleep trace requests].
      rewrite Ht2, Ht, sleepsOf_app, !countEv_app, backoff_S, Hs.
      rewrite <- !app_assoc. cbn. repeat split; auto; lia.
    + exists (evs ++ [EvFetch y; EvRequest y;
                      EvSleep (retryDelay * Z.of_nat (S k))]).
      cbn [snd time_Sleep trace requests].
      rewrite Ht2, Ht, sleepsOf_app, !countEv_app, backoff_S, Hs.
      rewrite <- !app_assoc. cbn. repeat split; auto; lia.
Qed.

(** The attempt that follows [k] failed ones. *)
Lemma attempt_trace y w k w1 r w' :
  tried y w k w1 ->
  fetch y w1 = (r, w') ->
  exists evs,
    trace w' = trace w ++ evs /\
    sleepsOf evs = backoff k /\
    countEv isFetch evs = S k /\
    (countEv isRequest evs <= S k)%nat /\
    requests w' = (requests w + countEv isRequest evs)%nat /\
    (forall d, last evs <> Some (EvSleep d)).
Proof.
  intros Ht Hfetch.
  destruct (Tried_trace _ _ _ _ Ht) as (evs & Htr & Hs & Hf & Hr & Hn).
  destruct (fetchSeason_effect _ _ _ _ Hfetch) as [[Ht2 Hn2]|[Ht2 Hn2]].
  - exists (evs ++ [EvFetch y]).
    rewrite Ht2, Htr, sleepsOf_app, !countEv_app, Hs, <- app_assoc, last_snoc.
    cbn. rewrite app_nil_r. repeat split; auto; try lia; try discriminate.
  - exists ((evs ++ [EvFetch y]) ++ [EvRequest y]).
    rewrite Ht2, Htr, !sleepsOf_app, !countEv_app, Hs, last_snoc.
    cbn. rewrite !app_nil_r, <- !app_assoc.
    repeat split; auto; try lia; try discriminate.
Qed.

End RetryFacts.

(** C9: the retrying fetcher makes at most three attempts, hence sends at
    most three upstream requests; it returns the records of the first
    attempt that succeeds; after the [i]-th failed attempt, and only when
    another attempt follows, it sleeps [retryDelay * i]; when all three
    attempts fail it returns an error that wraps the last cause and whose
    text names the season's start year. *)
Theorem fetchSeasonWithRetry_contract {F : Type} {FO : Float64 F}
    (time_Parse : string -> string -> option Time)
    (strconv_ParseFloat : string -> F)
    (y : Z) (w : World) (r : result (list (DayRecord F))) (w' : World) :
  fetchSeasonWithRetry time_Parse strconv_ParseFloat y w = (r, w') ->
  exists (k : nat) (w1 : World) (evs : list Event),
    (k < 3)%nat /\
    Tried time_Parse strconv_ParseFloat y w k w1 /\
    trace w' = trace w ++ evs /\
    sleepsOf evs = backoff k /\
    countEv isFetch evs = S k /\
    (countEv isRequest evs <= 3)%nat /\
    requests w' = (requests w + countEv isRequest evs)%nat /\
    (forall d, last evs <> Some (EvSleep d)) /\
    match r with
    | Ok records =>
        fetchSeason time_Parse strconv_ParseFloat y w1 = (Ok records, w')
    | Err e =>
        k = 2%nat /\
        exists cause,
          fetchSeason time_Parse strconv_ParseFloat y w1 = (Err cause, w') /\
          e = Errorf_w ("all 3 attempts failed for " ++ fmt_d y ++ ": ") cause /\
          Error e = ("all 3 attempts failed for " ++ fmt_d y ++ ": "
                     ++ Error cause)%string /\
          Unwrap e = Some cause
    end.
Proof.
  intros Hrun.
  assert (Hgoal : forall k w1, (k < 3)%nat ->
            Tried time_Parse strconv_ParseFloat y w k w1 ->
            match r with
            | Ok records =>
                fetchSeason time_Parse strconv_ParseFloat y w1 = (Ok records, w')
            | Err e =>
                k = 2%nat /\
                exists cause,
                  fetchSeason time_Parse strconv_ParseFloat y w1
                    = (Err cause, w') /\
                  e = Errorf_w ("all 3 attempts failed for " ++ fmt_d y ++ ": ")
                        cause /\
                  Error e = ("all 3 attempts failed for " ++ fmt_d y ++ ": "
                             ++ Error cause)%string /\
                  Unwrap e = Some cause
            end ->
            exists (k : nat) (w1 : World) (evs : list Event),
              (k < 3)%nat /\
              Tried time_Parse strconv_ParseFloat y w k w1 /\
              trace w' = trace w ++ evs /\
              sleepsOf evs = backoff k /\
              countEv isFetch evs = S k /\
              (countEv isRequest evs <= 3)%nat /\
              requests w' = (requests w + countEv isRequest evs)%nat /\
              (forall d, last evs <> Some (EvSleep d)) /\
              match r with
              | Ok records =>
                  fetchSeason time_Parse strconv_ParseFloat y w1
                    = (Ok records, w')
              | Err e =>
                  k = 2%nat /\
                  exists cause,
                    fetchSeason time_Parse strconv_ParseFloat y w1
                      = (Err cause, w') /\
                    e = Errorf_w
                          ("all 3 attempts failed for " ++ fmt_d y ++ ": ")
                          cause /\
                    Error e = ("all 3 attempts failed for " ++ fmt_d y ++ ": "
                               ++ Error cause)%string /\
                    Unwrap e = Some cause
              end).
  { intros k w1 Hk Ht Hr.
    assert (exists r0, fetchSeason time_Parse strconv_ParseFloat y w1 = (r0, w'))
      as [r0 Hf].
    { destruct r as [records|e]; [eauto|]. destruct Hr as (_ & c & ? & _). eauto. }
    destruct (attempt_trace _ _ _ _ _ _ _ _ Ht Hf)
      as (evs & H1 & H2 & H3 & H4 & H5 & H6).
    exists k, w1, evs. repeat split; auto. lia. }
  unfold fetchSeasonWithRetry in Hrun.
  change (Z.to_nat retryAttempts) with 3%nat in Hrun.
  cbn [retryLoop] in Hrun. unfold bind at 1 in Hrun.
  destruct (fetchSeason time_Parse strconv_ParseFloat y w)
    as [[recs1|e1] w1] eqn:E1.
  { injection Hrun as <- <-. apply (Hgoal 0%nat w); [lia|constructor|exact E1]. }
  pose proof (Tried_again _ _ y w _ _ _ _ (Tried_none _ _ y w) E1) as T1.
  change (1 <? retryAttempts) with true in Hrun.
  unfold bind at 1 in Hrun.
  change (wrap64 (retryDelay * 1)) with (retryDelay * Z.of_nat 1) in Hrun.
  destruct (time_Sleep (retryDelay * Z.of_nat 1) w1) as [[] w1'] eqn:S1.
  cbn [snd] in T1. unfold bind at 1 in Hrun.
  destruct (fetchSeason time_Parse strconv_ParseFloat y w1')
    as [[recs2|e2] w2] eqn:E2.
  { injection Hrun as <- <-. apply (Hgoal 1%nat w1'); [lia|exact T1|exact E2]. }
  pose proof (Tried_again _ _ y w _ _ _ _ T1 E2) as T2.
  change (1 + 1 <? retryAttempts) with true in Hrun.
  unfold bind at 1 in Hrun.
  change (wrap64 (retryDelay * (1 + 1))) with (retryDelay * Z.of_nat 2) in Hrun.
  destruct (time_Sleep (retryDelay * Z.of_nat 2) w2) as [[] w2'] eqn:S2.
  cbn [snd] in T2. unfold bind at 1 in Hrun.
  destruct (fetchSeason time_Parse strconv_ParseFloat y w2')
    as [[recs3|e3] w3] eqn:E3.
  { injection Hrun as <- <-. apply (Hgoal 2%nat w2'); [lia|exact T2|exact E3]. }
  change (1 + 1 + 1 <? retryAttempts) with false in Hrun.
  unfold bind at 1 in Hrun. cbn [ret] in Hrun.
  injection Hrun as <- <-.
  apply (Hgoal 2%nat w2'); [lia|exact T2|].
  split; [reflexivity|]. exists e3.
  change (fmt_d retryAttempts) with "3"%string.
  repeat split; auto.
  unfold Errorf_w, Error at 1.
  rewrite !string_app_assoc. reflexivity.
Qed.

Lemma fetchSeasonWithRetry_contract_witness :
  exists k : nat,
    (k < 3)%nat /\
    sleepsOf (trace worldDown_after) = backoff k /\
    (requests worldDown_after <= 3)%nat.
Proof.
  destruct (fetchSeasonWithRetry_contract parseNothing parseZero 2025
              worldDown (Err worldDown_error) worldDown_after)
    as (k & w1 & evs & Hk & _ & Htrace & Hsleeps & _ & Hreq & Hn & _).
  - vm_compute. reflexivity.
  - exists k. split; [exact Hk|]. split.
    + rewrite Htrace. exact Hsleeps.
    + rewrite Hn. cbn. exact Hreq.
Defined.

(** ** Exact arithmetic *)

Section ExactFacts.
Implicit Types (x y : Qc) (a b : Z).

Lemma exact_ltb_lt x y : (x <.? y) = true <-> (x < y)%Qc.
Proof. apply Z.ltb_lt. Qed.

Lemma exact_ltb_ge x y : (x <.? y) = false <-> (y <= x)%Qc.
Proof.
  change ((Qnum x * Z.pos (Qden y) <? Qnum y * Z.pos (Qden x)) = false
          <-> (Qnum y * Z.pos (Qden x) <= Qnum x * Z.pos (Qden y))).
  rewrite Z.ltb_ge. reflexivity.
Qed.

Lemma exact_of_int_add a b : of_int (a + b) = (of_int a + of_int b)%Qc.
Proof.
  apply Qc_is_canon. cbn [of_int Exact.ops Exact.from_int Qcplus Q2Qc this].
  rewrite !Qred_correct, inject_Z_plus. reflexivity.
Qed.

Lemma exact_of_int_mul a b : of_int (a * b) = (of_int a * of_int b)%Qc.
Proof.
  apply Qc_is_canon. cbn [of_int Exact.ops Exact.from_int Qcmult Q2Qc this].
  rewrite !Qred_correct, inject_Z_mult. reflexivity.
Qed.

Lemma exact_of_int_sub a b : of_int (a - b) = (of_int a - of_int b)%Qc.
Proof.
  apply Qc_is_canon.
  cbn [of_int Exact.ops Exact.from_int Qcminus Qcplus Qcopp Q2Qc this].
  rewrite !Qred_correct. unfold Z.sub.
  rewrite inject_Z_plus, inject_Z_opp. reflexivity.
Qed.

Lemma exact_of_int_lt a b : a < b -> (of_int a < of_int b)%Qc.
Proof.
  intros H. unfold Qclt. cbn [of_int Exact.ops Exact.from_int Q2Qc this].
  rewrite !Qred_correct, <- Zlt_Qlt. exact H.
Qed.

Lemma exact_of_int_le a b : a <= b -> (of_int a <= of_int b)%Qc.
Proof.
  intros H. unfold Qcle. cbn [of_int Exact.ops Exact.from_int Q2Qc this].
  rewrite !Qred_correct, <- Zle_Qle. exact H.
Qed.

Lemma exact_of_int_neq0 a : a <> 0 -> of_int a <> 0%Qc.
Proof.
  intros Ha H. apply Ha.
  destruct (Z.lt_trichotomy a 0) as [Hlt|[Heq|Hgt]]; [|exact Heq|].
  - apply exact_of_int_lt in Hlt. rewrite H in Hlt.
    exfalso. revert Hlt. apply Qcle_not_lt, Qcle_refl.
  - apply exact_of_int_lt in Hgt. rewrite H in Hgt.
    exfalso. revert Hgt. apply Qcle_not_lt, Qcle_refl.
Qed.

Lemma exact_of_int_0 : of_int 0 = 0%Qc.
Proof. reflexivity. Qed.

(** Truncating an exact quotient of integers is the integer quotient. *)
Lemma exact_trunc_div a b :
  0 < b -> to_int (of_int a /. of_int b) = Z.quot a b.
Proof.
  intros Hb.
  assert (Hb0 : of_int b <> 0%Qc) by (apply exact_of_int_neq0; lia).
  remember (of_int a /. of_int b) as x eqn:Ex.
  assert (Hx : (x * of_int b)%Qc = of_int a).
  { rewrite Ex. cbn [f_div Exact.ops]. field. exact Hb0. }
  clear Ex. destruct x as [[n m] Hcanon].
  apply (f_equal this) in Hx.
  cbn [of_int Exact.ops Exact.from_int Qcmult Q2Qc this] in Hx.
  assert (Hq : ((n # m) * inject_Z b == inject_Z a)%Q).
  { rewrite <- (Qred_correct ((n # m) * _)), <- (Qred_correct (inject_Z a)).
    rewrite <- Hx. rewrite !Qred_correct. reflexivity. }
  unfold Qeq, Qmult, inject_Z in Hq. cbn [Qnum Qden] in Hq.
  cbn [to_int Exact.ops]. unfold Exact.trunc. cbn [Qnum Qden this].
  assert (Hnm : n * b = a * Z.pos m) by lia.
  rewrite <- (Z.quot_mul_cancel_r n (Z.pos m) b) by lia.
  rewrite <- (Z.quot_mul_cancel_r a b (Z.pos m)) by lia.
  rewrite Hnm. f_equal. lia.
Qed.

(** In exact arithmetic the elapsed days are the whole days of the
    duration, truncated toward zero. *)
Lemma exact_whole_days (d : Duration) :
  to_int (F := Qc) (Duration_Hours d /. of_int 24) = Z.quot d Day.
Proof.
  rewrite <- (exact_trunc_div d Day) by reflexivity. f_equal.
  unfold Duration_Hours. change (60 * 60 * 10 ^ 9) with Hour.
  assert (HH : of_int Hour <> 0%Qc) by (apply exact_of_int_neq0; discriminate).
  assert (H24 : of_int 24 <> 0%Qc) by (apply exact_of_int_neq0; discriminate).
  rewrite (Z.quot_rem' d Hour) at 3.
  change Day with (24 * Hour).
  rewrite exact_of_int_add, !exact_of_int_mul.
  cbn [f_add f_div Exact.ops]. field. auto.
Qed.

End ExactFacts.


(** ** Season aggregator *)

Lemma fold_left_ext_in {A B} (f g : A -> B -> A) (l : list B) (a : A) :
  (forall a x, In x l -> f a x = g a x) ->
  fold_left f l a = fold_left g l a.
Proof.
  revert a. induction l as [|x l IH]; intros a H; [reflexivity|].
  cbn. rewrite H by (left; reflexivity). apply IH.
  intros; apply H; right; assumption.
Qed.

Lemma fold_left_over_map {A B C} (f : A -> C -> A) (g : B -> C) (l : list B)
    (a : A) :
  fold_left (fun s k => f s (g k)) l a = fold_left f (map g l) a.
Proof. revert a. induction l as [|x l IH]; intros a; cbn; auto. Qed.

Section TrendLoop.
Context {F : Type} {FO : Float64 F}.
Implicit Types (l : list (DayRecord F)) (r x : DayRecord F).

Lemma at_lookup l i x : l !! i = Some x -> at_ l i = x.
Proof. unfold at_. now intros ->. Qed.

Lemma set_Trend_same x : set_Trend x (Trend x) = x.
Proof. now destruct x. Qed.

Lemma at_derived_prefix l m rest j :
  (j < m)%nat -> at_ (map (derived l) (seq 0 m) ++ rest) j = derived l j.
Proof.
  intros Hj. apply at_lookup.
  rewrite lookup_app_l by (rewrite length_map, length_seq; exact Hj).
  change (map (derived l) (seq 0 m)) with (derived l <$> seq 0 m).
  rewrite list_lookup_fmap, lookup_seq_lt by exact Hj. reflexivity.
Qed.

Lemma at_after_prefix l m x rest :
  at_ (map (derived l) (seq 0 m) ++ x :: rest) m = x.
Proof.
  apply at_lookup.
  rewrite lookup_app_r by (rewrite length_map, length_seq; lia).
  rewrite length_map, length_seq, Nat.sub_diag. reflexivity.
Qed.

Lemma insert_after_prefix l m x y rest :
  <[ m := y ]> (map (derived l) (seq 0 m) ++ x :: rest)
  = map (derived l) (seq 0 m) ++ y :: rest.
Proof.
  rewrite insert_app_r_alt by (rewrite length_map, length_seq; lia).
  rewrite length_map, length_seq, Nat.sub_diag. reflexivity.
Qed.

(** One turn of the loop extends the finished prefix by one record. *)
Lemma trendStep_prefix l m x :
  l !! m = Some x ->
  trendStep (map (derived l) (seq 0 m) ++ drop m l) m
  = map (derived l) (seq 0 (S m)) ++ drop (S m) l.
Proof.
  intros Hx. rewrite (drop_S _ _ _ Hx).
  pose proof (at_lookup _ _ _ Hx) as Hat.
  assert (Hupd :
    (if (0 <? m)%nat
     then <[ m := set_Trend
                    (at_ (map (derived l) (seq 0 m) ++ x :: drop (S m) l) m)
                    (Full (at_ (map (derived l) (seq 0 m) ++ x :: drop (S m) l) m)
                     -. Full (at_ (map (derived l) (seq 0 m)
                                   ++ x :: drop (S m) l) (m - 1))) ]>
            (map (derived l) (seq 0 m) ++ x :: drop (S m) l)
     else map (derived l) (seq 0 m) ++ x :: drop (S m) l)
    = map (derived l) (seq 0 m) ++ set_Trend x (trendAt l m) :: drop (S m) l).
  { destruct m as [|m'].
    - cbn [Nat.ltb Nat.leb]. unfold trendAt. rewrite Hat, set_Trend_same.
      reflexivity.
    - replace (0 <? S m')%nat with true by reflexivity.
      rewrite at_after_prefix, insert_after_prefix.
      replace (S m' - 1)%nat with m' by lia.
      rewrite at_derived_prefix by lia.
      unfold trendAt. rewrite Hat. reflexivity. }
  unfold trendStep. rewrite Hupd. clear Hupd.
  rewrite at_after_prefix, insert_after_prefix.
  rewrite seq_S, map_app, <- app_assoc. cbn [map app Nat.add].
  do 2 f_equal. unfold derived at 2. rewrite Hat. f_equal.
  unfold trendMA7At. f_equal.
  apply fold_left_ext_in. intros s j Hj. f_equal.
  apply in_seq in Hj.
  destruct (decide (j = m)) as [->|Hne].
  - rewrite at_after_prefix. reflexivity.
  - rewrite at_derived_prefix by lia. reflexivity.
Qed.

Lemma trendLoop_prefix l m :
  (m <= length l)%nat ->
  fold_left trendStep (seq 0 m) l = map (derived l) (seq 0 m) ++ drop m l.
Proof.
  induction m as [|m IH]; intros Hm; [reflexivity|].
  rewrite seq_S at 1. rewrite fold_left_app, IH by lia.
  cbn [fold_left Nat.add].
  destruct (lookup_lt_is_Some_2 l m ltac:(lia)) as [x Hx].
  apply (trendStep_prefix _ _ _ Hx).
Qed.

(** The trend loop in closed form. *)
Lemma computeTrends_closed l :
  computeTrends l = map (derived l) (seq 0 (length l)).
Proof.
  unfold computeTrends. rewrite trendLoop_prefix by lia.
  rewrite drop_all, app_nil_r. reflexivity.
Qed.

End TrendLoop.

Section SortFacts.
Context {F : Type} {FO : Float64 F}.
Implicit Types (l acc : list (DayRecord F)) (x : DayRecord F).

Lemma insertByDate_perm x l : insertByDate x l ≡ₚ x :: l.
Proof.
  induction l as [|y l IH]; cbn; [reflexivity|].
  destruct (dateLess x y); [reflexivity|].
  rewrite IH. apply Permutation_swap.
Qed.

Lemma insertByDate_sorted x l :
  StronglySorted byDate l -> StronglySorted byDate (insertByDate x l).
Proof.
  induction 1 as [|y l Hs IH Hy]; cbn.
  - repeat constructor.
  - unfold dateLess, Time_Before.
    destruct (Z.ltb_spec (Date x) (Date y)) as [Hlt|Hge].
    + constructor; [constructor; assumption|].
      constructor; [unfold byDate; lia|].
      eapply Forall_impl; [exact Hy|]. unfold byDate. intros; lia.
    + constructor; [exact IH|].
      rewrite insertByDate_perm. constructor; [exact Hge|exact Hy].
Qed.

Lemma sortLoop_perm l acc :
  fold_left (fun acc x => insertByDate x acc) l acc ≡ₚ l ++ acc.
Proof.
  revert acc. induction l as [|x l IH]; intros acc; cbn; [reflexivity|].
  rewrite IH, insertByDate_perm. symmetry. apply Permutation_middle.
Qed.

Lemma sortLoop_sorted l acc :
  StronglySorted byDate acc ->
  StronglySorted byDate (fold_left (fun acc x => insertByDate x acc) l acc).
Proof.
  revert acc. induction l as [|x l IH]; intros acc H; cbn; [exact H|].
  apply IH, insertByDate_sorted, H.
Qed.

Lemma sortByDate_perm l : sortByDate l ≡ₚ l.
Proof. unfold sortByDate. rewrite sortLoop_perm, app_nil_r. reflexivity. Qed.

Lemma sortByDate_sorted l : StronglySorted byDate (sortByDate l).
Proof. apply sortLoop_sorted. constructor. Qed.

Lemma sorted_lookup l i j a b :
  StronglySorted byDate l -> (i <= j)%nat ->
  l !! i = Some a -> l !! j = Some b -> Date a <= Date b.
Proof.
  intros Hs. revert i j.
  induction Hs as [|y l Hs IH Hy]; intros i j Hij Ha Hb; [discriminate|].
  destruct i as [|i], j as [|j]; cbn in Ha, Hb; try lia.
  - injection Ha as <-. injection Hb as <-. lia.
  - injection Ha as <-. rewrite Forall_forall in Hy.
    apply (Hy b). eapply list_elem_of_lookup_2, Hb.
  - apply (IH i j); [lia|assumption..].
Qed.

End SortFacts.

Section ParseFacts.
Context {F : Type} {FO : Float64 F}.
Variable time_Parse : string -> string -> option Time.
Variable strconv_ParseFloat : string -> F.

Lemma parseLoop_fresh seasonStart data acc :
  Forall (fresh seasonStart) acc ->
  Forall (fresh seasonStart)
    (fold_left (parseRecord time_Parse strconv_ParseFloat seasonStart) data acc).
Proof.
  revert acc. induction data as [|r data IH]; intros acc H; cbn; [exact H|].
  apply IH. unfold parseRecord.
  destruct (Time_IsZero _); [exact H|].
  apply Forall_app. split; [exact H|].
  repeat constructor.
Qed.

Lemma parseRecords_fresh seasonStart data :
  Forall (fresh seasonStart)
    (parseRecords time_Parse strconv_ParseFloat seasonStart data).
Proof. apply parseLoop_fresh. constructor. Qed.

(** The shape of a successful aggregation: the trend loop in closed form
    over an ordered list of normalized records. *)
Lemma aggregateSeason_Ok y data recs :
  aggregateSeason time_Parse strconv_ParseFloat y data = Ok recs ->
  exists l,
    recs = map (derived l) (seq 0 (length l)) /\
    StronglySorted byDate l /\
    Forall (fresh (seasonStartOf y)) l.
Proof.
  unfold aggregateSeason. destruct data as [|d data].
  - intros [= <-]. exists []. repeat constructor.
  - pose proof (parseRecords_fresh (seasonStartOf y) (d :: data)) as Hf.
    destruct (parseRecords _ _ _ (d :: data)) as [|r records]; [discriminate|].
    intros [= <-]. exists (sortByDate (r :: records)).
    split; [apply computeTrends_closed|].
    split; [apply sortByDate_sorted|].
    rewrite sortByDate_perm. exact Hf.
Qed.

End ParseFacts.

Section DerivedFacts.
Context {F : Type} {FO : Float64 F}.
Implicit Types (l : list (DayRecord F)) (r x : DayRecord F).

Lemma derived_lookup l i r :
  map (derived l) (seq 0 (length l)) !! i = Some r ->
  r = derived l i /\ exists x, l !! i = Some x /\ at_ l i = x.
Proof.
  change (map (derived l) (seq 0 (length l)))
    with (derived l <$> seq 0 (length l)).
  rewrite list_lookup_fmap. intros H.
  destruct (seq 0 (length l) !! i) as [j|] eqn:Hj; [|discriminate].
  apply lookup_seq in Hj as [-> Hlt]. cbn in H. injection H as <-.
  split; [reflexivity|].
  destruct (lookup_lt_is_Some_2 l i Hlt) as [x Hx].
  exists x. split; [exact Hx|apply at_lookup, Hx].
Qed.

Lemma trends_of_derived l :
  map Trend (map (derived l) (seq 0 (length l)))
  = map (trendAt l) (seq 0 (length l)).
Proof. rewrite map_map. reflexivity. Qed.

Lemma window_of_seq (g : nat -> F) n i :
  (i < n)%nat ->
  window (map g (seq 0 n)) i = map g (seq (i - 6) (i - (i - 6) + 1)).
Proof.
  intros Hi. unfold window.
  rewrite skipn_map, firstn_map, drop_seq, take_seq.
  do 2 f_equal; lia.
Qed.

End DerivedFacts.

(** C3: in a successfully aggregated season the first record's trend is 0,
    every later trend is the record's fill minus the fill of the record
    before it, and the 7-day average at index [i] is the arithmetic mean of
    the trends at indices [max(0, i-6) .. i]. *)
Theorem trend_series {F : Type} {FO : Float64 F}
    (time_Parse : string -> string -> option Time)
    (strconv_ParseFloat : string -> F)
    (y : Z) (data : list APIRecord) (recs : list (DayRecord F)) :
  aggregateSeason time_Parse strconv_ParseFloat y data = Ok recs ->
  (forall r, recs !! 0%nat = Some r -> Trend r = f_zero) /\
  (forall i p r,
     recs !! i = Some p -> recs !! S i = Some r ->
     Trend r = Full r -. Full p) /\
  (forall i r,
     recs !! i = Some r ->
     TrendMA7 r = mean (window (map Trend recs) i)).
Proof.
  intros H.
  destruct (aggregateSeason_Ok _ _ _ _ _ H) as (l & -> & _ & Hfresh).
  split; [|split].
  - intros r Hr. apply derived_lookup in Hr as (-> & x & Hx & Hat).
    cbn. rewrite Hat. rewrite Forall_forall in Hfresh.
    apply (Hfresh x). eapply list_elem_of_lookup_2, Hx.
  - intros i p r Hp Hr.
    apply derived_lookup in Hp as (-> & _).
    apply derived_lookup in Hr as (-> & _).
    reflexivity.
  - intros i r Hr.
    pose proof (lookup_lt_Some _ _ _ Hr) as Hlt.
    rewrite length_map, length_seq in Hlt.
    apply derived_lookup in Hr as (-> & _).
    rewrite trends_of_derived, window_of_seq by exact Hlt.
    unfold mean. rewrite length_map, length_seq, <- fold_left_over_map.
    reflexivity.
Qed.

Lemma trend_series_witness :
  exists recs,
    aggregateSeason parseSample parseFloatSample 2025 payloadDaily = Ok recs /\
    map Trend recs = [0; -0.5; -0.5]%float /\
    forall i r,
      recs !! i = Some r -> TrendMA7 r = mean (window (map Trend recs) i).
Proof.
  destruct (aggregateSeason parseSample parseFloatSample 2025 payloadDaily)
    as [recs|e] eqn:E; [|vm_compute in E; discriminate].
  exists recs. split; [reflexivity|]. split.
  - vm_compute in E. injection E as <-. reflexivity.
  - apply (trend_series _ _ _ _ _ E).
Defined.

(** *** Elapsed days *)

Lemma allFrom_spec p k n :
  allFrom p k n = true ->
  forall j, k <= j < k + Z.of_nat n -> p j = true.
Proof.
  revert k. induction n as [|n IH]; intros k H j Hj; [lia|].
  cbn [allFrom] in H. apply andb_prop in H as [Hk Hrest].
  destruct (decide (j = k)) as [->|Hne]; [exact Hk|].
  apply (IH (k + 1) Hrest). lia.
Qed.

Lemma binary64_whole_days_checked :
  allFrom
    (fun k => to_int (F := float) (Duration_Hours (k * Day) /. of_int 24) =? k)
    (- wholeDaysChecked) (Z.to_nat (2 * wholeDaysChecked + 1)) = true.
Proof. vm_compute. reflexivity. Qed.

(** In binary64 the whole days of a duration of up to 10000 whole days
    either way are computed without error. *)
Lemma binary64_whole_days (k : Z) :
  - wholeDaysChecked <= k <= wholeDaysChecked ->
  daysExact (F := float) (k * Day).
Proof.
  intros Hk. unfold daysExact.
  rewrite Z.quot_mul by discriminate.
  pose proof (allFrom_spec _ _ _ binary64_whole_days_checked k) as H.
  cbv beta in H. apply Z.eqb_eq, H.
  change wholeDaysChecked with 10000 in Hk |- .
  change (Z.of_nat _) with 20001. change wholeDaysChecked with 10000. lia.
Qed.

(** Off the whole days binary64 can err: one nanosecond short of 171 days
    the hours round up to 4104 and the elapsed days to 171. *)
Example binary64_elapsed_rounds_up :
  elapsedDays (F := float) 0 (171 * Day - 1) = 171 /\
  Z.quot (Time_Sub (171 * Day - 1) 0) Day = 170.
Proof. split; vm_compute; reflexivity. Qed.

Lemma wholeDaysFrom_Sub start t k :
  wholeDaysFrom start t k -> Time_Sub t start = k * Day.
Proof.
  intros [-> Hrange]. unfold Time_Sub, sat64.
  replace (start + k * Day - start) with (k * Day) by lia. lia.
Qed.

(** C4, as the code has it: the records of a successfully aggregated season
    are in non-decreasing date order; the elapsed days of a record are
    [int(hours / 24)] of its distance from the season start; wherever the
    arithmetic computes that without error (always in exact arithmetic, and
    in binary64 at least for a whole number of days up to 10000, see
    [exact_whole_days] and [binary64_whole_days]) they are the whole days of
    that distance, truncated toward zero; and between two consecutive
    records whose dates both lie a whole number of days from the season
    start the elapsed days grow by the day difference of the dates. *)
Theorem elapsed_days_contract {F : Type} {FO : Float64 F}
    (time_Parse : string -> string -> option Time)
    (strconv_ParseFloat : string -> F)
    (y : Z) (data : list APIRecord) (recs : list (DayRecord F)) :
  aggregateSeason time_Parse strconv_ParseFloat y data = Ok recs ->
  (forall i j a b,
     (i <= j)%nat -> recs !! i = Some a -> recs !! j = Some b ->
     Date a <= Date b) /\
  (forall i r,
     recs !! i = Some r ->
     DaysElapsed r = elapsedDays (F := F) (seasonStartOf y) (Date r)) /\
  (forall i r,
     recs !! i = Some r ->
     daysExact (F := F) (Time_Sub (Date r) (seasonStartOf y)) ->
     DaysElapsed r = Z.quot (Time_Sub (Date r) (seasonStartOf y)) Day) /\
  (forall i a b ka kb,
     recs !! i = Some a -> recs !! S i = Some b ->
     wholeDaysFrom (seasonStartOf y) (Date a) ka ->
     wholeDaysFrom (seasonStartOf y) (Date b) kb ->
     daysExact (F := F) (ka * Day) -> daysExact (F := F) (kb * Day) ->
     DaysElapsed a = ka /\ DaysElapsed b = kb /\
     DaysElapsed b = DaysElapsed a + (Date b - Date a) / Day).
Proof.
  intros H.
  destruct (aggregateSeason_Ok _ _ _ _ _ H) as (l & -> & Hsorted & Hfresh).
  assert (Helapsed : forall i r,
            map (derived l) (seq 0 (length l)) !! i = Some r ->
            DaysElapsed r
            = elapsedDays (F := F) (seasonStartOf y) (Date r)).
  { intros i r Hr. apply derived_lookup in Hr as (-> & x & Hx & Hat).
    cbn [derived set_TrendMA7 set_Trend DaysElapsed Date]. rewrite Hat.
    rewrite Forall_forall in Hfresh.
    apply (Hfresh x). eapply list_elem_of_lookup_2, Hx. }
  assert (Hwhole : forall i r k,
            map (derived l) (seq 0 (length l)) !! i = Some r ->
            wholeDaysFrom (seasonStartOf y) (Date r) k ->
            daysExact (F := F) (k * Day) ->
            DaysElapsed r = k).
  { intros i r k Hr Hk Hexact. rewrite (Helapsed i r Hr).
    unfold elapsedDays. rewrite (wholeDaysFrom_Sub _ _ _ Hk), Hexact.
    apply Z.quot_mul. discriminate. }
  split; [|split; [exact Helapsed|split]].
  - intros i j a b Hij Ha Hb.
    apply derived_lookup in Ha as (-> & xa & Hxa & Hata).
    apply derived_lookup in Hb as (-> & xb & Hxb & Hatb).
    cbn. rewrite Hata, Hatb.
    apply (sorted_lookup l i j xa xb Hsorted Hij Hxa Hxb).
  - intros i r Hr Hexact. rewrite (Helapsed i r Hr). exact Hexact.
  - intros i a b ka kb Ha Hb Hka Hkb Hea Heb.
    rewrite (Hwhole _ _ _ Ha Hka Hea), (Hwhole _ _ _ Hb Hkb Heb).
    split; [reflexivity|]. split; [reflexivity|].
    destruct Hka as [-> _], Hkb as [-> _].
    replace (seasonStartOf y + kb * Day - (seasonStartOf y + ka * Day))
      with ((kb - ka) * Day) by lia.
    rewrite Z.div_mul by discriminate. lia.
Qed.

Lemma elapsed_days_contract_witness :
  exists recs,
    aggregateSeason parseSample parseFloatSample 2025 payloadDaily = Ok recs /\
    (forall i j a b,
       (i <= j)%nat -> recs !! i = Some a -> recs !! j = Some b ->
       Date a <= Date b) /\
    forall a b,
      recs !! 0%nat = Some a -> recs !! 1%nat = Some b ->
      DaysElapsed a = 0 /\ DaysElapsed b = 1 /\
      DaysElapsed b = DaysElapsed a + (Date b - Date a) / Day.
Proof.
  destruct (aggregateSeason parseSample parseFloatSample 2025 payloadDaily)
    as [recs|e] eqn:E; [|vm_compute in E; discriminate].
  exists recs. split; [reflexivity|].
  destruct (elapsed_days_contract _ _ _ _ _ E) as (Hsorted & _ & _ & Hadd).
  split; [exact Hsorted|].
  intros a b Ha Hb.
  apply (Hadd 0%nat a b 0 1 Ha Hb).
  - vm_compute in E. injection E as <-.
    injection Ha as <-. vm_compute. split; [reflexivity|split; discriminate].
  - vm_compute in E. injection E as <-.
    injection Hb as <-. vm_compute. split; [reflexivity|split; discriminate].
  - apply (binary64_whole_days 0). vm_compute. split; discriminate.
  - apply (binary64_whole_days 1). vm_compute. split; discriminate.
Defined.

(** C4 as stated fails: with gas days carrying a time of day, the elapsed
    days of the second record (1) are not those of the first (0) plus the
    whole days between the two dates (18 hours: 0). *)
Lemma elapsed_days_not_additive :
  exists recs,
    aggregateSeason parseSample parseFloatSample 2025 payloadTimed = Ok recs /\
    ~ (forall i a b,
         recs !! i = Some a -> recs !! S i = Some b ->
         DaysElapsed b = DaysElapsed a + (Date b - Date a) / Day).
Proof.
  eexists. split; [vm_compute; reflexivity|].
  intros H. specialize (H 0%nat _ _ eq_refl eq_refl).
  vm_compute in H. discriminate H.
Defined.

(** ** KPI summarizer *)

(** C7, as the code has it: for a non-empty current season the KPI is
    built, and its 7-day delta is the last record's fill minus the fill six
    records before the last, the first of the last seven records (index
    [len - 7]), when there are at least 7 records, and 0 when there are
    fewer. *)
Theorem kpi_delta7d {F : Type} {FO : Float64 F}
    (records : list (DayRecord F)) (scenarios : list (Scenario F)) :
  records <> [] ->
  exists kpi,
    buildKPI records scenarios = Some kpi /\
    (forall lastRecord seventh,
       (7 <= length records)%nat ->
       last records = Some lastRecord ->
       records !! (length records - 7)%nat = Some seventh ->
       Delta7D kpi = Full lastRecord -. Full seventh) /\
    ((length records < 7)%nat -> Delta7D kpi = f_zero).
Proof.
  intros Hne. destruct records as [|r0 records]; [congruence|].
  eexists. split; [reflexivity|]. cbn [Delta7D]. split.
  - intros lastRecord seventh Hlen Hlast Hseventh.
    destruct (Nat.leb_spec 7 (length (r0 :: records))); [|lia].
    rewrite last_lookup in Hlast.
    replace (pred (length (r0 :: records)))
      with (length (r0 :: records) - 1)%nat in Hlast by lia.
    rewrite (at_lookup _ _ _ Hlast), (at_lookup _ _ _ Hseventh).
    reflexivity.
  - intros Hlen.
    destruct (Nat.leb_spec 7 (length (r0 :: records))); [lia|reflexivity].
Qed.

Lemma kpi_delta7d_witness :
  exists kpi,
    buildKPI fallingFrom80 [] = Some kpi /\
    Delta7D kpi = (-3)%float.
Proof.
  destruct (kpi_delta7d fallingFrom80 [])
    as (kpi & Hkpi & Hdelta & _); [discriminate|].
  exists kpi. split; [exact Hkpi|].
  rewrite (Hdelta (sampleRecord 13 73.5%float) (sampleRecord 7 76.5%float));
    [reflexivity | vm_compute; lia | reflexivity | reflexivity].
Defined.

(** C7 as stated fails: over fourteen days falling by 0.5 a day from 80 to
    73.5, the record seven records before the last stands at 77, so the
    claim's delta is -3.5; the code subtracts the fill six records before
    the last, 76.5, and reports -3.  With exactly seven records the code
    reports the fall over all of them, although no record lies seven
    back. *)
Lemma kpi_delta7d_not_seven_back :
  (exists kpi lastRecord back,
     buildKPI fallingFrom80 [] = Some kpi /\
     last fallingFrom80 = Some lastRecord /\
     sevenBack fallingFrom80 = Some back /\
     Full lastRecord -. Full back = (-3.5)%float /\
     Delta7D kpi = (-3)%float /\
     Delta7D kpi <> Full lastRecord -. Full back) /\
  (exists kpi,
     buildKPI (lineSeason 80%float (-0.5)%float 7) [] = Some kpi /\
     sevenBack (lineSeason 80%float (-0.5)%float 7) = None /\
     Delta7D kpi = (-3)%float).
Proof.
  split.
  - destruct (buildKPI fallingFrom80 []) as [kpi|] eqn:E;
      [|vm_compute in E; discriminate E].
    assert (Hdelta : Delta7D kpi = (-3)%float)
      by (vm_compute in E; injection E as <-; reflexivity).
    exists kpi, (sampleRecord 13 73.5%float), (sampleRecord 6 77%float).
    rewrite Hdelta. repeat split; try (vm_compute; reflexivity).
    intros H. apply (f_equal Prim2SF) in H. vm_compute in H. discriminate H.
  - eexists. split; [vm_compute; reflexivity|].
    split; vm_compute; reflexivity.
Defined.

(** ** Regression *)

Section Spread.
Implicit Types (z : Z) (zs : list Z).

Lemma sqDist_eq z zs :
  sqDist z zs = Z.of_nat (length zs) * z * z - 2 * z * sumZ zs + sumSq zs.
Proof.
  induction zs as [|y zs IH]; [cbn; lia|].
  cbn [sqDist sumZ sumSq fold_right length].
  fold (sqDist z zs) (sumZ zs) (sumSq zs).
  rewrite IH, Nat2Z.inj_succ. ring.
Qed.

Lemma spread_cons z zs : spread (z :: zs) = spread zs + sqDist z zs.
Proof.
  rewrite sqDist_eq. unfold spread.
  cbn [sumZ sumSq fold_right length]. fold (sumZ zs) (sumSq zs).
  rewrite Nat2Z.inj_succ. ring.
Qed.

Lemma sqDist_nonneg z zs : 0 <= sqDist z zs.
Proof.
  induction zs as [|y zs IH]; [reflexivity|].
  cbn [sqDist fold_right]. fold (sqDist z zs).
  pose proof (Z.square_nonneg (z - y)). lia.
Qed.

Lemma sqDist_pos z zs y : In y zs -> y <> z -> 1 <= sqDist z zs.
Proof.
  induction zs as [|x zs IH]; [intros []|].
  cbn [sqDist fold_right]. fold (sqDist z zs).
  pose proof (sqDist_nonneg z zs). pose proof (Z.square_nonneg (z - x)).
  intros [->|Hin] Hne; [|specialize (IH Hin Hne); lia].
  assert (z - y <> 0) by lia. nia.
Qed.

Lemma spread_nonneg zs : 0 <= spread zs.
Proof.
  induction zs as [|z zs IH]; [reflexivity|].
  rewrite spread_cons. pose proof (sqDist_nonneg z zs). lia.
Qed.

(** Two different values make the spread positive. *)
Lemma spread_pos zs x y : In x zs -> In y zs -> x <> y -> 1 <= spread zs.
Proof.
  induction zs as [|z zs IH]; [intros []|].
  rewrite spread_cons.
  pose proof (sqDist_nonneg z zs). pose proof (spread_nonneg zs).
  intros [->|Hx] [->|Hy] Hne; try congruence.
  - pose proof (sqDist_pos x zs y Hy ltac:(congruence)). lia.
  - pose proof (sqDist_pos y zs x Hx ltac:(congruence)). lia.
  - specialize (IH Hx Hy Hne). lia.
Qed.

End Spread.

Section ExactRegression.
Implicit Types (a b : Qc) (recs : list (DayRecord Qc)).

Lemma regressionSums_onLine a b recs (s0 : Sums Qc) :
  Forall (fun r => Full r = (a + b * of_int (DaysElapsed r))%Qc) recs ->
  fold_left regressionStep recs s0
  = {| sx := (sx s0 + of_int (sumZ (map DaysElapsed recs)))%Qc;
       sy := (sy s0 + (of_int (Z.of_nat (length recs)) * a
                       + b * of_int (sumZ (map DaysElapsed recs))))%Qc;
       sxy := (sxy s0 + (a * of_int (sumZ (map DaysElapsed recs))
                         + b * of_int (sumSq (map DaysElapsed recs))))%Qc;
       sx2 := (sx2 s0 + of_int (sumSq (map DaysElapsed recs)))%Qc |}.
Proof.
  intros H. revert s0. induction H as [|r recs Hr _ IH]; intros s0.
  - cbn. destruct s0 as [x1 y1 xy1 x2].
    cbn. change (Z.of_nat 0) with 0. change (Exact.from_int 0) with 0%Qc.
    f_equal; ring.
  - cbn [fold_left]. rewrite IH.
    cbn [map sumZ sumSq fold_right length regressionStep sx sy sxy sx2].
    fold (sumZ (map DaysElapsed recs)) (sumSq (map DaysElapsed recs)).
    rewrite Hr, Nat2Z.inj_succ. unfold Z.succ.
    rewrite !exact_of_int_add, !exact_of_int_mul.
    change (of_int 1) with 1%Qc.
    cbn [f_add f_mul Exact.ops].
    f_equal; ring.
Qed.

Lemma exact_epsilon_le_1 : (epsilon <= of_int 1)%Qc.
Proof. vm_compute. discriminate. Qed.

(** In exact arithmetic the regression recovers a line exactly. *)
Lemma exact_regression a b recs :
  (2 <= length recs)%nat -> twoDays recs -> onLine a b recs ->
  linearRegression recs = (b, a).
Proof.
  intros Hlen (i & j & r1 & r2 & H1 & H2 & Hne) Hline.
  set (days := map DaysElapsed recs).
  assert (Hspread : 1 <= spread days).
  { apply (spread_pos days (DaysElapsed r1) (DaysElapsed r2)); [| |exact Hne].
    - apply in_map, list_elem_of_In. eapply list_elem_of_lookup_2, H1.
    - apply in_map, list_elem_of_In. eapply list_elem_of_lookup_2, H2. }
  unfold linearRegression, regressionSums.
  rewrite (regressionSums_onLine a b) by (apply Forall_forall, Hline).
  fold days. cbn [sx sy sxy sx2].
  set (n := of_int (Z.of_nat (length recs))).
  set (s1 := of_int (sumZ days)). set (s2 := of_int (sumSq days)).
  assert (Hn2 : (n <.? of_int 2) = false).
  { apply exact_ltb_ge, exact_of_int_le. lia. }
  assert (Hn0 : n <> 0%Qc) by (apply exact_of_int_neq0; lia).
  cbn [f_add f_sub f_mul f_div Exact.ops]. change (@f_zero Qc _) with 0%Qc.
  assert (Hd : (n * (0 + s2) - (0 + s1) * (0 + s1))%Qc = of_int (spread days)).
  { unfold spread.
    replace (length days) with (length recs)
      by (unfold days; now rewrite length_map).
    rewrite exact_of_int_sub, !exact_of_int_mul. fold n s1 s2. ring. }
  rewrite Hn2, Hd.
  assert (Hd1 : (of_int 1 <= of_int (spread days))%Qc)
    by (apply exact_of_int_le, Hspread).
  assert (Hd0 : of_int (spread days) <> 0%Qc)
    by (apply exact_of_int_neq0; lia).
  assert (Habs : (f_abs (of_int (spread days)) <.? epsilon) = false).
  { cbn [f_abs Exact.ops]. unfold Exact.abs.
    assert ((Exact.ltb (of_int (spread days)) 0%Qc) = false) as ->.
    { apply exact_ltb_ge. apply (exact_of_int_le 0). lia. }
    apply exact_ltb_ge.
    eapply Qcle_trans; [apply exact_epsilon_le_1|exact Hd1]. }
  rewrite Habs, <- Hd. rewrite <- Hd in Hd0.
  assert (Hd0' : (n * s2 - s1 * s1)%Qc <> 0%Qc).
  { replace (n * s2 - s1 * s1)%Qc
      with (n * (0 + s2) - (0 + s1) * (0 + s1))%Qc by ring.
    exact Hd0. }
  f_equal; field; auto.
Qed.

End ExactRegression.

(** C8, as the code has it: in exact arithmetic, for at least two records
    with two different elapsed days that lie on a line
    [fill = intercept + slope * day], [linearRegression] returns exactly that
    slope and intercept; in binary64 that holds up to rounding only, and it
    does hold exactly for [fill = 80 - 0.5 * day] over the fourteen days
    0 to 13. *)
Theorem regression_recovers_line (intercept slope : Qc)
    (recs : list (DayRecord Qc)) :
  (2 <= length recs)%nat -> twoDays recs -> onLine intercept slope recs ->
  linearRegression recs = (slope, intercept) /\
  onLine 80%float (-0.5)%float fallingFrom80 /\
  linearRegression fallingFrom80 = ((-0.5)%float, 80%float).
Proof.
  intros Hlen Hdays Hline.
  split; [exact (exact_regression _ _ _ Hlen Hdays Hline)|].
  split; [|vm_compute; reflexivity].
  intros r Hr. apply list_elem_of_In, in_map_iff in Hr as (i & <- & _).
  reflexivity.
Qed.

Lemma regression_recovers_line_witness :
  linearRegression (lineSeason (F := Qc) (of_int 80) (Q2Qc (-1 # 2)) 14)
  = (Q2Qc (-1 # 2), of_int 80).
Proof.
  apply (regression_recovers_line (of_int 80) (Q2Qc (-1 # 2))).
  - vm_compute. lia.
  - exists 0%nat, 1%nat. do 2 eexists.
    split; [reflexivity|]. split; [reflexivity|]. vm_compute. discriminate.
  - intros r Hr. apply list_elem_of_In, in_map_iff in Hr as (i & <- & _).
    reflexivity.
Defined.

(** C8 as stated fails: three records at the binary64 value nearest to 0.1
    lie on the line of slope 0 through that value, and the intercept
    returned is the next binary64 value above it. *)
Lemma regression_not_exact_in_binary64 :
  onLine 0x1.999999999999ap-4%float 0%float flatTenth /\
  (2 <= length flatTenth)%nat /\
  twoDays flatTenth /\
  linearRegression flatTenth = (0%float, 0x1.999999999999bp-4%float) /\
  linearRegression flatTenth <> (0%float, 0x1.999999999999ap-4%float).
Proof.
  split.
  { intros r Hr. apply list_elem_of_In, in_map_iff in Hr as (i & <- & _).
    reflexivity. }
  split; [vm_compute; lia|]. split.
  { exists 0%nat, 1%nat. do 2 eexists.
    split; [reflexivity|]. split; [reflexivity|]. vm_compute. discriminate. }
  split; [vm_compute; reflexivity|].
  vm_compute. intros H. discriminate H.
Defined.


(** ** Scenario projector *)

Section ScenarioFacts.
Context {F : Type} {FO : Float64 F}.
Implicit Types (current recs : list (DayRecord F)) (s : Scenario F).

(** With enough records the result is the decline scenarios followed by
    the History scenario. *)
Lemma generateScenarios_shape current (allSeasons : gmap Z (list (DayRecord F))) y :
  (trendWindow <= length current)%nat ->
  generateScenarios current allSeasons y
  = declines current ++ historyOf current allSeasons y.
Proof.
  intros Hlen. unfold generateScenarios, historyOf.
  destruct (Nat.ltb_spec (length current) trendWindow) as [|_]; [lia|].
  fold (today current). fold (trailingSlope current). fold (declines current).
  destruct (allSeasons !! (y - 1)) as [[|r recs]|] eqn:Hlook.
  - now rewrite app_nil_r.
  - destruct (historyPoints _ _ (r :: recs)) as [|p points] eqn:Hpts.
    + now rewrite app_nil_r.
    + reflexivity.
  - now rewrite app_nil_r.
Qed.

Lemma historyOf_names current (allSeasons : gmap Z (list (DayRecord F))) y s :
  s ∈ historyOf current allSeasons y -> Name s = "History"%string.
Proof.
  unfold historyOf. destruct (allSeasons !! (y - 1)) as [recs|];
    [|intros Hs; inversion Hs].
  destruct (historyPoints _ _ recs); intros Hs; [inversion Hs|].
  apply list_elem_of_singleton in Hs as ->. reflexivity.
Qed.

End ScenarioFacts.

(** C5, as the code has it: with at least [trendWindow] records, when the
    trailing slope is not negative no scenario named Linear or Stress is
    emitted; when it is negative the result starts with a Linear scenario
    projected to [days = (criticalThreshold - current fill) / slope] whose
    recorded days-remaining is [days] truncated to an integer, followed by a
    Stress scenario built the same way from the slope times the stress
    factor; whatever follows is named History. *)
Theorem decline_scenarios {F : Type} {FO : Float64 F}
    (current : list (DayRecord F))
    (allSeasons : gmap Z (list (DayRecord F))) (y : Z) :
  (trendWindow <= length current)%nat ->
  let slope := trailingSlope current in
  let fill := Full (today current) in
  let day := DaysElapsed (today current) in
  let date := Date (today current) in
  ((slope <.? f_zero) = false ->
   forall s, s ∈ generateScenarios current allSeasons y ->
             Name s <> "Linear"%string /\ Name s <> "Stress"%string) /\
  ((slope <.? f_zero) = true ->
   exists linear stress rest,
     generateScenarios current allSeasons y = linear :: stress :: rest /\
     (forall s, s ∈ rest -> Name s = "History"%string) /\
     Name linear = "Linear"%string /\
     Slope linear = slope /\
     Points linear
     = makeProjectionPoints day fill slope
         ((criticalThreshold -. fill) /. slope) date 50 /\
     DaysLeft linear = to_int ((criticalThreshold -. fill) /. slope) /\
     Name stress = "Stress"%string /\
     Slope stress = slope *. stressMultiplier /\
     Points stress
     = makeProjectionPoints day fill (slope *. stressMultiplier)
         ((criticalThreshold -. fill) /. (slope *. stressMultiplier)) date 50 /\
     DaysLeft stress
     = to_int ((criticalThreshold -. fill) /. (slope *. stressMultiplier))).
Proof.
  intros Hlen slope fill day date.
  rewrite (generateScenarios_shape current allSeasons y Hlen).
  pose proof (historyOf_names current allSeasons y) as Hnames.
  unfold declines. fold slope. split; intros Hslope; rewrite Hslope.
  - intros s Hs. cbn [app] in Hs. rewrite (Hnames s Hs).
    split; discriminate.
  - do 3 eexists. split; [reflexivity|].
    split; [exact Hnames|]. repeat split.
Qed.

Lemma decline_scenarios_witness :
  exists linear stress rest,
    generateScenarios fallingTo11 ∅ 2025
    = linear :: stress :: rest /\
    Slope linear = (-2)%float /\ DaysLeft linear = 0 /\
    Slope stress = (-2.5)%float /\ DaysLeft stress = 0.
Proof.
  destruct (decline_scenarios fallingTo11 ∅ 2025) as [_ H];
    [vm_compute; lia|].
  destruct H as (linear & stress & rest & Heq & _ & _ & Hs & _ & Hd & _
                 & Hss & _ & Hds); [vm_compute; reflexivity|].
  exists linear, stress, rest.
  rewrite Hs, Hd, Hss, Hds. split; [exact Heq|].
  vm_compute. repeat split.
Defined.

(** C5 as stated fails: on fourteen days falling by 2 a day to a fill of 11
    the days to the threshold are [(10 - 11) / (-2) = 0.5], and the Linear
    scenario records 0 days remaining. *)
Lemma linear_days_left_not_exact :
  exists linear rest,
    generateScenarios fallingTo11 ∅ 2025 = linear :: rest /\
    Name linear = "Linear"%string /\
    (criticalThreshold -. Full (today fallingTo11))
      /. trailingSlope fallingTo11 = 0.5%float /\
    of_int (DaysLeft linear)
    <> (criticalThreshold -. Full (today fallingTo11))
         /. trailingSlope fallingTo11.
Proof.
  do 2 eexists. split; [vm_compute; reflexivity|].
  vm_compute. repeat split. intros H. discriminate H.
Defined.

(** *** Historical analog *)

Section HistoryFacts.
Context {F : Type} {FO : Float64 F}.
Implicit Types (recs : list (DayRecord F)) (st : HistLoop F).

Lemma historyLoop_found day fill recs st :
  found st = true ->
  pts (fold_left (historyStep day fill) recs st)
  = pts st ++ map (analogPoint fill (base st)) (beyond day recs).
Proof.
  revert st. induction recs as [|r recs IH]; intros st Hfound; cbn.
  - now rewrite app_nil_r.
  - unfold historyStep at 2. destruct (day <? DaysElapsed r).
    + rewrite IH by reflexivity. cbn. rewrite Hfound, <- app_assoc.
      reflexivity.
    + apply IH, Hfound.
Qed.

(** The loop in closed form: one point for every record beyond [day], all
    anchored at the fill of the first of them. *)
Lemma historyPoints_closed day fill recs :
  historyPoints day fill recs
  = match beyond day recs with
    | [] => []
    | first :: _ => map (analogPoint fill (Full first)) (beyond day recs)
    end.
Proof.
  unfold historyPoints.
  generalize f_zero at 1. intros b.
  induction recs as [|r recs IH]; cbn; [reflexivity|].
  unfold historyStep at 2. cbn [found pts base].
  destruct (day <? DaysElapsed r); [|exact IH].
  rewrite historyLoop_found by reflexivity. reflexivity.
Qed.

Lemma declines_names current s :
  s ∈ declines current -> Name s <> "History"%string.
Proof.
  unfold declines. destruct (_ <.? _); intros Hs.
  - apply elem_of_cons in Hs as [->|Hs]; [discriminate|].
    apply list_elem_of_singleton in Hs as ->. discriminate.
  - inversion Hs.
Qed.

End HistoryFacts.

(** *** The anchor in binary64 *)

Lemma binary64_finite_cases (x : float) :
  is_finite x = true ->
  (exists s, Prim2SF x = S754_zero s) \/
  (exists s m e, Prim2SF x = S754_finite s m e).
Proof.
  unfold is_finite. intros H.
  apply negb_true_iff, orb_false_iff in H as [Hnan Hinf].
  unfold Prim2SF. rewrite Hnan, Hinf.
  destruct (is_zero x); [left; eauto|].
  repeat match goal with
         | |- context [let (_, _) := ?t in _] => destruct t
         end.
  match goal with
  | |- context [match ?t with Z0 => _ | Zpos _ => _ | Zneg _ => _ end] =>
      destruct t
  end; eauto 6.
Qed.

(** A finite binary64 number minus itself is the positive zero. *)
Lemma binary64_sub_self (x : float) :
  is_finite x = true -> PrimFloat.sub x x = PrimFloat.zero.
Proof.
  intros H. apply Prim2SF_inj. rewrite sub_spec.
  change (Prim2SF PrimFloat.zero) with (S754_zero false).
  destruct (binary64_finite_cases x H) as [[s ->]|(s & m & e & ->)].
  - destruct s; reflexivity.
  - unfold SF64sub, SFsub. cbv zeta. rewrite Z.sub_diag. reflexivity.
Qed.

(** Adding the positive zero changes the negative zero only. *)
Lemma binary64_add_zero (v : float) :
  v <> neg_zero -> PrimFloat.add v PrimFloat.zero = v.
Proof.
  intros Hv. apply Prim2SF_inj. rewrite add_spec.
  change (Prim2SF PrimFloat.zero) with (S754_zero false).
  destruct (Prim2SF v) as [s|s| |s m e] eqn:E; try reflexivity.
  destruct s; [|reflexivity].
  exfalso. apply Hv. rewrite <- (SF2Prim_Prim2SF v), E. reflexivity.
Qed.

Lemma binary64_anchored (v x : float) :
  is_finite x = true ->
  (v <> neg_zero -> anchored v x) /\
  (v = neg_zero -> v +. (x -. x) = PrimFloat.zero).
Proof.
  intros Hx. unfold anchored. cbn [f_add f_sub Binary64.ops].
  rewrite (binary64_sub_self x Hx). split.
  - apply binary64_add_zero.
  - intros ->. reflexivity.
Qed.

Lemma exact_anchored (v x : Qc) : anchored v x.
Proof. unfold anchored. cbn [f_add f_sub Exact.ops]. ring. Qed.

(** C6, as the code has it: with at least [trendWindow] records, the
    History scenario is built from the season of the year before
    [currentStartYear]; it has exactly one point for every record of that
    season whose elapsed day exceeds today's, each with the fill shifted by
    the offset between the current fill and the historical fill of the first
    such record.  Its first point stands at that record's elapsed day, with
    the fill [fill + (x - x)] for the anchor fill [x], which is the current
    fill exactly: in binary64 whenever the anchor fill is finite (a current
    fill of negative zero comes out as the positive zero), and always in
    exact arithmetic.  No History scenario is emitted when that season is
    absent, empty, or has no record beyond today's elapsed day. *)
Theorem history_scenario {F : Type} {FO : Float64 F}
    (current : list (DayRecord F))
    (allSeasons : gmap Z (list (DayRecord F))) (y : Z) :
  (trendWindow <= length current)%nat ->
  let fill := Full (today current) in
  let later :=
    match allSeasons !! (y - 1) with
    | Some recs => beyond (DaysElapsed (today current)) recs
    | None => []
    end in
  (later = [] ->
   forall s, s ∈ generateScenarios current allSeasons y ->
             Name s <> "History"%string) /\
  (forall first rest,
     later = first :: rest ->
     exists h,
       generateScenarios current allSeasons y = declines current ++ [h] /\
       Name h = "History"%string /\
       Points h = map (analogPoint fill (Full first)) later /\
       length (Points h) = length later /\
       exists p points,
         Points h = p :: points /\
         X p = of_int (DaysElapsed first) /\
         Y p = fill +. (Full first -. Full first) /\
         (anchored fill (Full first) -> Y p = fill)) /\
  (forall v x : float,
     is_finite x = true ->
     (v <> neg_zero -> anchored v x) /\
     (v = neg_zero -> v +. (x -. x) = PrimFloat.zero)) /\
  (forall v x : Qc, anchored v x).
Proof.
  intros Hlen fill later.
  rewrite (generateScenarios_shape current allSeasons y Hlen).
  assert (Hclosed : historyOf current allSeasons y
            = match later with
              | [] => []
              | first :: _ =>
                  [ {| Name := "History";
                       Label := ("📅 Like " ++ fmt_d (y - 1) ++ "/"
                                 ++ fmt_02d (Z.rem (y - 1 + 1) 100))%string;
                       Color := "#d35400"; Dash := "dash";
                       Points := map (analogPoint fill (Full first)) later;
                       HitDate := None;
                       Slope := f_zero;
                       DaysLeft := 0 |} ]
              end).
  { unfold historyOf. subst later.
    destruct (allSeasons !! (y - 1)) as [recs|]; [|reflexivity].
    rewrite historyPoints_closed. fold fill.
    destruct (beyond _ recs) as [|first rest]; reflexivity. }
  rewrite Hclosed. split; [|split; [|split]].
  - intros -> s Hs. rewrite app_nil_r in Hs. apply (declines_names _ _ Hs).
  - intros first rest ->.
    eexists. split; [reflexivity|]. split; [reflexivity|].
    split; [reflexivity|]. split; [apply length_map|].
    cbn [Points map].
    do 2 eexists. split; [reflexivity|]. cbn [X Y analogPoint].
    split; [reflexivity|]. split; [reflexivity|].
    intros Hanchor. exact Hanchor.
  - exact binary64_anchored.
  - exact exact_anchored.
Qed.

Lemma history_scenario_witness :
  exists h p points,
    generateScenarios risingTo90 seasonsWith2024 2025
    = declines risingTo90 ++ [h] /\
    Name h = "History"%string /\
    Points h = p :: points /\
    Y p = Full (today risingTo90).
Proof.
  destruct (history_scenario risingTo90 seasonsWith2024 2025)
    as (_ & H & Hbinary64 & _); [vm_compute; lia|].
  unfold seasonsWith2024 in H at 1.
  change (2025 - 1) with 2024 in H. rewrite lookup_singleton in H.
  rewrite decide_True in H by reflexivity.
  destruct (beyond (DaysElapsed (today risingTo90))
              (lineSeason 80%float (-2)%float 16))
    as [|first rest] eqn:E; [vm_compute in E; discriminate E|].
  destruct (H first rest eq_refl)
    as (h & Heq & Hname & _ & _ & p & points & Hpts & _ & _ & Hanchor).
  exists h, p, points. split; [exact Heq|]. split; [exact Hname|].
  split; [exact Hpts|]. apply Hanchor.
  assert (Hfirst : Full first = 52%float).
  { assert (Hhead : head (beyond (DaysElapsed (today risingTo90))
                            (lineSeason 80%float (-2)%float 16))
                    = Some first) by (rewrite E; reflexivity).
    vm_compute in Hhead. injection Hhead as <-. reflexivity. }
  rewrite Hfirst. apply Hbinary64; [reflexivity|].
  intros Hzero. apply (f_equal Prim2SF) in Hzero.
  vm_compute in Hzero. discriminate Hzero.
Defined.

(** C6 as stated fails, in two ways.  Today is day 13 at a fill of 90; the
    season before stood at 54 on day 13, 52 on day 14 and 50 on day 15.
    The code anchors the curve at the first later record, giving 90 and 88;
    shifting by the offset between the historical fill at day 13 and the
    current fill gives 88 and 86, and a first point that is not the current
    fill.  And when the first later record carries an infinite fill, the
    first point is [90 + (inf - inf)], not a number, and so not the
    current fill either. *)
Lemma history_not_shifted_by_today_offset :
  (exists h,
     generateScenarios risingTo90 seasonsWith2024 2025 = [h] /\
     Name h = "History"%string /\
     map Y (Points h) = [90; 88]%float /\
     shiftedByTodayOffset (DaysElapsed (today risingTo90))
       (Full (today risingTo90)) (lineSeason 80%float (-2)%float 16)
     = [88; 86]%float /\
     map Y (Points h)
     <> shiftedByTodayOffset (DaysElapsed (today risingTo90))
          (Full (today risingTo90)) (lineSeason 80%float (-2)%float 16)) /\
  (exists h,
     generateScenarios risingTo90 seasonsWithInfinity 2025 = [h] /\
     Name h = "History"%string /\
     Full (today risingTo90) = 90%float /\
     map Y (Points h) = [nan] /\
     map Y (Points h) <> [Full (today risingTo90)]).
Proof.
  split.
  - eexists. split; [vm_compute; reflexivity|].
    vm_compute. repeat split. intros H. discriminate H.
  - eexists. split; [vm_compute; reflexivity|].
    vm_compute. repeat split. intros H.
    apply (f_equal (fun ys => map Prim2SF ys)) in H.
    vm_compute in H. discriminate H.
Defined.

(** *** Stress against Linear *)

Section ExactCrossing.
Implicit Types (fill slope : Qc).

Lemma exact_stressMultiplier_pos : (0 < stressMultiplier)%Qc.
Proof. reflexivity. Qed.

Lemma exact_inv_stressMultiplier_lt_1 : (/ stressMultiplier < 1)%Qc.
Proof. reflexivity. Qed.

Lemma exact_crossing_div fill slope :
  (slope < 0)%Qc ->
  daysToThreshold fill (slope *. stressMultiplier)
  = (daysToThreshold fill slope / stressMultiplier)%Qc.
Proof.
  intros Hs. unfold daysToThreshold. cbn [f_sub f_mul f_div Exact.ops].
  assert (Hm : stressMultiplier <> 0%Qc)
    by apply not_eq_sym, Qclt_not_eq, exact_stressMultiplier_pos.
  assert (Hs0 : slope <> 0%Qc) by apply Qclt_not_eq, Hs.
  field. repeat split; auto.
  intros H. apply Qcmult_integral in H as [H|H]; auto.
Qed.

(** Above the threshold a falling line crosses it in the future. *)
Lemma exact_crossing_pos fill slope :
  (slope < 0)%Qc -> (criticalThreshold < fill)%Qc ->
  (0 < daysToThreshold fill slope)%Qc.
Proof.
  intros Hs Hfill. apply Qcnot_le_lt. intros Hle.
  assert (Hprod : (slope * daysToThreshold fill slope
                   = criticalThreshold - fill)%Qc).
  { unfold daysToThreshold. cbn [f_sub f_div Exact.ops].
    apply Qcmult_div_r, Qclt_not_eq, Hs. }
  assert (Hneg : (criticalThreshold - fill < 0)%Qc).
  { apply Qclt_minus_iff. replace (0 + - (criticalThreshold - fill))%Qc
      with (fill + - criticalThreshold)%Qc by ring.
    apply (proj1 (Qclt_minus_iff _ _)), Hfill. }
  (* [days <= 0] and [0 <= -slope] give [0 <= slope * days] *)
  assert (Hge : (0 <= slope * daysToThreshold fill slope)%Qc).
  { replace (slope * daysToThreshold fill slope)%Qc
      with ((- daysToThreshold fill slope) * (- slope))%Qc by ring.
    replace 0%Qc with (0 * (- slope))%Qc by ring.
    apply Qcmult_le_compat_r.
    - replace 0%Qc with (- 0)%Qc by ring. apply Qcopp_le_compat, Hle.
    - replace 0%Qc with (- 0)%Qc by ring.
      apply Qcopp_le_compat, Qclt_le_weak, Hs. }
  rewrite Hprod in Hge. revert Hneg. apply Qcle_not_lt, Hge.
Qed.

Lemma exact_crossing_lt fill slope :
  (slope < 0)%Qc -> (criticalThreshold < fill)%Qc ->
  (daysToThreshold fill (slope *. stressMultiplier)
   < daysToThreshold fill slope)%Qc.
Proof.
  intros Hs Hfill. rewrite exact_crossing_div by exact Hs.
  pose proof (exact_crossing_pos fill slope Hs Hfill) as Hpos.
  replace (daysToThreshold fill slope / stressMultiplier)%Qc
    with (/ stressMultiplier * daysToThreshold fill slope)%Qc
    by (unfold Qcdiv; ring).
  replace (daysToThreshold fill slope)%Qc
    with (1 * daysToThreshold fill slope)%Qc at 2 by ring.
  apply Qcmult_lt_compat_r; [exact Hpos|].
  exact exact_inv_stressMultiplier_lt_1.
Qed.

End ExactCrossing.

(** C10, as the code has it, in exact arithmetic: when the trailing slope
    is negative the result starts with a Linear and a Stress scenario; the
    Stress slope is the Linear slope times the stress multiplier, the Stress
    raw crossing time is the Linear raw crossing time divided by the stress
    multiplier, each scenario records its raw crossing time truncated, and
    when the current fill is above the critical threshold the Stress crossing
    is strictly sooner than the Linear one. *)
Theorem stress_sooner (current : list (DayRecord Qc))
    (allSeasons : gmap Z (list (DayRecord Qc))) (y : Z) :
  (trendWindow <= length current)%nat ->
  (trailingSlope current <.? f_zero) = true ->
  let fill := Full (today current) in
  exists linear stress rest,
    generateScenarios current allSeasons y = linear :: stress :: rest /\
    Name linear = "Linear"%string /\
    Name stress = "Stress"%string /\
    Slope linear = trailingSlope current /\
    Slope stress = (Slope linear * stressMultiplier)%Qc /\
    DaysLeft linear = to_int (daysToThreshold fill (Slope linear)) /\
    DaysLeft stress = to_int (daysToThreshold fill (Slope stress)) /\
    daysToThreshold fill (Slope stress)
    = (daysToThreshold fill (Slope linear) / stressMultiplier)%Qc /\
    ((criticalThreshold < fill)%Qc ->
     (daysToThreshold fill (Slope stress)
      < daysToThreshold fill (Slope linear))%Qc).
Proof.
  intros Hlen Hslope fill.
  rewrite (generateScenarios_shape current allSeasons y Hlen).
  unfold declines. rewrite Hslope. fold fill.
  apply exact_ltb_lt in Hslope.
  do 3 eexists. split; [reflexivity|].
  cbn [Name Slope DaysLeft declineScenario].
  repeat split.
  - apply exact_crossing_div, Hslope.
  - intros Hfill. apply exact_crossing_lt; assumption.
Qed.

(** In binary64 the two raw crossing times are related up to rounding
    only: from a fill of 90 falling by 3/64 a day, the Stress crossing time
    and the Linear one divided by 1.25 differ in the last bit. *)
Example binary64_crossing_rounds :
  trailingSlope fallingTo90 = (-0.046875)%float /\
  Full (today fallingTo90) = 90%float /\
  daysToThreshold 90%float ((-0.046875)%float *. stressMultiplier)
  = 0x1.5555555555555p+10%float /\
  daysToThreshold 90%float (-0.046875)%float /. stressMultiplier
  = 0x1.5555555555556p+10%float.
Proof. repeat split; vm_compute; reflexivity. Qed.

Lemma stress_sooner_witness :
  exists linear stress rest,
    generateScenarios fallingTo11_exact ∅ 2025 = linear :: stress :: rest /\
    (daysToThreshold (Full (today fallingTo11_exact)) (Slope stress)
     < daysToThreshold (Full (today fallingTo11_exact)) (Slope linear))%Qc.
Proof.
  destruct (stress_sooner fallingTo11_exact ∅ 2025)
    as (linear & stress & rest & Heq & _ & _ & _ & _ & _ & _ & _ & Hlt).
  - vm_compute. lia.
  - vm_compute. reflexivity.
  - exists linear, stress, rest. split; [exact Heq|].
    apply Hlt. vm_compute. reflexivity.
Defined.

(** C10 as stated fails: fourteen days falling by 2 a day to a fill of 8,
    below the threshold of 10.  Both scenarios are produced; the Linear raw
    crossing time is -1 day, the Stress one -0.8, which is not sooner. *)
Lemma stress_not_sooner_below_threshold :
  exists linear stress,
    generateScenarios fallingTo8 ∅ 2025 = [linear; stress] /\
    Name linear = "Linear"%string /\
    Name stress = "Stress"%string /\
    (trailingSlope fallingTo8 <.? f_zero) = true /\
    daysToThreshold (Full (today fallingTo8)) (Slope linear) = (-1)%float /\
    daysToThreshold (Full (today fallingTo8)) (Slope stress)
    = (-0x1.999999999999ap-1)%float /\
    (daysToThreshold (Full (today fallingTo8)) (Slope stress)
     <.? daysToThreshold (Full (today fallingTo8)) (Slope linear)) = false.
Proof.
  do 2 eexists. split; [vm_compute; reflexivity|].
  vm_compute. repeat split.
Defined.

(** ** Single-flight build *)

Section HandlerFacts.
Context {D : Type}.
Implicit Types (s : Server D) (e : Tick D) (p : pc D) (c : Cache D).

Lemma lock_Some s i s' :
  lock D s i = Some s' ->
  building s = None /\
  s' = {| cache := cache s; building := Some i; callers := callers s;
          builds := builds s |}.
Proof.
  unfold lock. destruct (building s); [discriminate|].
  intros [= <-]. auto.
Qed.

(** What a step does: the stepping caller moves from [p] to [p'], the other
    callers stay where they are. *)
Lemma step_callers s e s' :
  step s e = Some s' ->
  exists p p',
    callers s !! who e = Some p /\
    callers s' = <[ who e := p' ]> (callers s).
Proof.
  unfold step. destruct (callers s !! who e) as [p|] eqn:Hp; [|discriminate].
  intros H. exists p.
  destruct p; cbn in H;
    repeat match type of H with
           | context [Cache_Get ?c ?t] => destruct (Cache_Get c t)
           | context [lock D ?s ?i] =>
               let E := fresh in
               destruct (lock D s i) eqn:E;
               [apply lock_Some in E as [_ ->]|discriminate]
           | context [built ?e] => destruct (built e)
           end;
    first [discriminate H | injection H as <-; eexists; split; reflexivity].
Qed.

(** Splits a step into the cases of the stepping caller's program
    counter: [Hp] says where it stands, the new server replaces [s']. *)
Ltac step_cases H Hp :=
  unfold step in H;
  match type of H with
  | context [callers ?s !! ?i] =>
      destruct (callers s !! i) as [[]|] eqn:Hp; [..|discriminate H]
  end;
  cbn in H;
  repeat match type of H with
         | context [Cache_Get ?c ?t] =>
             let E := fresh "Hget" in destruct (Cache_Get c t) eqn:E
         | context [lock D ?s ?i] =>
             let E := fresh "Hlock" in
             destruct (lock D s i) eqn:E;
             [apply lock_Some in E as [E ->]|discriminate H]
         | context [built ?e] =>
             let E := fresh "Hbuilt" in destruct (built e) eqn:E
         end;
  first [discriminate H | injection H as <-];
  cbn [goto unlock enterBuild withCache cache building callers builds].

Ltac split_lookup Hq Hne :=
  apply list_lookup_insert_Some in Hq as [(<- & <- & _)|(Hne & Hq)].

Lemma step_exclusive s e s' :
  exclusive s -> step s e = Some s' -> exclusive s'.
Proof.
  intros Hex H. unfold exclusive in *|-.
  step_cases H Hp; intros j q Hq Hcrit; cbn in Hq |- *;
    split_lookup Hq Hne; try discriminate Hcrit; try reflexivity;
    try (apply (Hex _ _ Hq Hcrit));
    try (apply (Hex _ _ Hp); reflexivity);
    try (rewrite (Hex _ _ Hq Hcrit) in Hlock; discriminate Hlock).
  (* releasing the mutex: nobody else was inside *)
  pose proof (Hex _ _ Hp eq_refl) as Hi.
  rewrite (Hex _ _ Hq Hcrit) in Hi. congruence.
Qed.

Lemma run_exclusive s schedule s' :
  exclusive s -> run s schedule = Some s' -> exclusive s'.
Proof.
  revert s. induction schedule as [|e schedule IH]; intros s Hex; cbn.
  - intros [= <-]. exact Hex.
  - destruct (step s e) as [s1|] eqn:Hstep; [|discriminate].
    apply IH. exact (step_exclusive _ _ _ Hex Hstep).
Qed.

(** At most one build runs at any time. *)
Lemma one_build_at_a_time s schedule s' i j :
  exclusive s -> run s schedule = Some s' ->
  callers s' !! i = Some InBuild -> callers s' !! j = Some InBuild ->
  i = j.
Proof.
  intros Hex Hrun Hi Hj.
  pose proof (run_exclusive _ _ _ Hex Hrun) as Hex'.
  pose proof (Hex' _ _ Hi eq_refl) as H1.
  pose proof (Hex' _ _ Hj eq_refl) as H2. congruence.
Qed.

Lemma step_cold c anchor s e s' :
  benign c anchor e -> cold c s -> step s e = Some s' ->
  cold c s' \/ exists d, published c d (at_time e) s'.
Proof.
  intros (Hmiss & [d0 Hok] & _ & _) (Hcache & Hfree & Hcallers) H.
  step_cases H Hp; pose proof (Hcallers _ _ Hp) as Hi; cbn in Hi;
    try contradiction; unfold cold, published;
    cbn [goto unlock enterBuild withCache cache building callers builds].
  - (* takes the mutex *)
    left. split; [exact Hcache|]. split; [discriminate|].
    intros j q Hq. split_lookup Hq Hne; [auto|].
    specialize (Hcallers _ _ Hq). destruct q; try contradiction; auto;
      destruct Hcallers as [Hb _]; congruence.
  - (* re-check: a hit is impossible *)
    rewrite Hcache, Hmiss in Hget. discriminate.
  - (* re-check: miss, the build is entered *)
    destruct Hi as [Hb Hn]. left. split; [exact Hcache|].
    split; [intros; congruence|].
    intros j q Hq. split_lookup Hq Hne; [split; [exact Hb|lia]|].
    specialize (Hcallers _ _ Hq). destruct q; try contradiction; auto;
      destruct Hcallers as [Hb' _]; congruence.
  - (* the build returns its result *)
    destruct Hi as [Hb Hn]. left. split; [exact Hcache|].
    split; [intros; congruence|].
    intros j q Hq. split_lookup Hq Hne; [auto|].
    specialize (Hcallers _ _ Hq). destruct q; try contradiction; auto.
  - (* the build fails: excluded *)
    rewrite Hok in Hbuilt. discriminate.
  - (* the result is published *)
    destruct Hi as [Hb Hn]. right. eexists. split; [rewrite Hcache; reflexivity|].
    split; [exact Hn|].
    intros j q Hq. split_lookup Hq Hne; [auto|].
    specialize (Hcallers _ _ Hq). destruct q; try contradiction; auto;
      destruct Hcallers as [Hb' _]; congruence.
Qed.

Lemma step_published c anchor d t0 s e s' :
  benign c anchor e -> anchor t0 -> published c d t0 s ->
  step s e = Some s' -> published c d t0 s'.
Proof.
  intros (_ & _ & _ & Hfresh) Ht0 (Hcache & Hbuilds & Hcallers) H.
  specialize (Hfresh t0 Ht0).
  step_cases H Hp; pose proof (Hcallers _ _ Hp) as Hi; cbn in Hi;
    try contradiction; unfold cold, published;
    cbn [goto unlock enterBuild withCache cache building callers builds].
  - (* takes the mutex *)
    split; [exact Hcache|]. split; [exact Hbuilds|].
    intros j q Hq. split_lookup Hq Hne; [auto|].
    specialize (Hcallers _ _ Hq). destruct q; try contradiction; auto;
      try congruence. destruct Hcallers; congruence.
  - (* re-check: hit *)
    rewrite Hcache in Hget. apply Cache_Get_Some in Hget as [[= <-] _].
    split; [exact Hcache|]. split; [exact Hbuilds|].
    intros j q Hq. split_lookup Hq Hne; [auto|].
    exact (Hcallers _ _ Hq).
  - (* re-check: a miss is impossible inside the window *)
    rewrite Hcache in Hget. apply Cache_Get_None in Hget as [Hget|Hget];
      [discriminate|]. cbn in Hget. lia.
  - (* releases the mutex *)
    destruct Hi as [-> Hb].
    split; [exact Hcache|]. split; [exact Hbuilds|].
    intros j q Hq. split_lookup Hq Hne; [auto|].
    specialize (Hcallers _ _ Hq). destruct q; try contradiction; auto;
      try congruence. destruct Hcallers; congruence.
Qed.

(** Along a benign run the server is cold until the one build publishes. *)
Lemma run_benign c anchor s schedule s' :
  (forall e, e ∈ schedule -> benign c anchor e) ->
  cold c s \/ (exists d t0, anchor t0 /\ published c d t0 s) ->
  run s schedule = Some s' ->
  cold c s' \/ (exists d t0, anchor t0 /\ published c d t0 s').
Proof.
  revert s. induction schedule as [|e schedule IH]; intros s Hben Hinv; cbn.
  - intros [= <-]. exact Hinv.
  - destruct (step s e) as [s1|] eqn:Hstep; [|discriminate].
    assert (He : benign c anchor e) by (apply Hben; left).
    apply IH; [intros e' He'; apply Hben; right; exact He'|].
    destruct Hinv as [Hcold|(d & t0 & Ht0 & Hpub)].
    + destruct (step_cold _ _ _ _ _ He Hcold Hstep) as [?|[d Hpub]];
        [left; assumption|].
      right. exists d, (at_time e). split; [apply He|exact Hpub].
    + right. exists d, t0. split; [exact Ht0|].
      exact (step_published _ _ _ _ _ _ _ He Ht0 Hpub Hstep).
Qed.

Lemma missed_cold c n : cold c (missed c n).
Proof.
  split; [reflexivity|]. split; [reflexivity|].
  intros i p Hp. cbn in Hp. apply lookup_replicate in Hp as [-> _]. exact I.
Qed.

Lemma missed_exclusive c n : exclusive (missed c n).
Proof.
  intros i p Hp Hcrit. cbn in Hp.
  apply lookup_replicate in Hp as [-> _]. discriminate.
Qed.

End HandlerFacts.

Lemma run_callers_length {D : Type} (s : Server D) (schedule : list (Tick D))
    (s' : Server D) :
  run s schedule = Some s' -> length (callers s') = length (callers s).
Proof.
  revert s. induction schedule as [|e schedule IH]; intros s; cbn.
  - intros [= <-]. reflexivity.
  - destruct (step s e) as [s1|] eqn:Hstep; [|discriminate].
    intros Hrun. rewrite (IH _ Hrun).
    destruct (step_callers _ _ _ Hstep) as (p & p' & _ & ->).
    apply length_insert.
Qed.

Lemma entry_exclusive {D : Type} (s : Server D) :
  (forall i p, callers s !! i = Some p -> entry p) -> exclusive s.
Proof.
  intros Hentry i p Hp Hcrit.
  destruct (Hentry i p Hp) as [->|[->|[->| ->]]]; discriminate.
Qed.

(** C2, as the code has it.  Whatever the handlers do (data requests,
    forced refreshes, the pre-fetch), at most one build runs at any time.
    When [n > 0] callers have all missed the cache, every build succeeds,
    and the whole episode is shorter than the time-to-live, exactly one
    build is entered, its result is what the cache holds, and every caller
    is served that same result. *)
Theorem single_flight {D : Type} (c : Cache D) (n : nat)
    (schedule : list (Tick D)) (s : Server D)
    (s0 : Server D) (schedule0 : list (Tick D)) (s1 : Server D) :
  ((forall i p, callers s0 !! i = Some p -> entry p) ->
   run s0 schedule0 = Some s1 ->
   forall i j,
     callers s1 !! i = Some InBuild -> callers s1 !! j = Some InBuild ->
     i = j) /\
  (run (missed c n) schedule = Some s ->
   (0 < n)%nat ->
   finished s ->
   (forall e, e ∈ schedule -> Cache_Get c (at_time e) = None) ->
   (forall e, e ∈ schedule -> exists d, built e = Ok d) ->
   (forall e1 e2, e1 ∈ schedule -> e2 ∈ schedule ->
                  time_Since (at_time e2) (at_time e1) < ttl c) ->
   builds s = 1%nat /\
   exists d,
     data (cache s) = Some d /\
     forall i p, callers s !! i = Some p -> p = Done (Served d)).
Proof.
  split.
  - intros Hentry Hrun i j.
    apply (one_build_at_a_time s0 schedule0 s1 i j); [|exact Hrun].
    apply entry_exclusive, Hentry.
  - intros Hrun Hn Hfin Hmiss Hok Hwindow.
    set (anchor := fun t0 : Time =>
           forall e, e ∈ schedule -> time_Since (at_time e) t0 < ttl c).
    assert (Hben : forall e, e ∈ schedule -> benign c anchor e).
    { intros e He. split; [exact (Hmiss e He)|]. split; [exact (Hok e He)|].
      split.
      - intros e2 He2. exact (Hwindow e e2 He He2).
      - intros t0 Ht0. exact (Ht0 e He). }
    destruct (run_benign c anchor _ _ _ Hben
                (or_introl (missed_cold c n)) Hrun)
      as [(_ & _ & Hcallers)|(d & t0 & _ & Hcache & Hbuilds & Hcallers)].
    + (* nobody can have returned while the server is cold *)
      exfalso.
      assert (Hlen : length (callers s) = n).
      { rewrite (run_callers_length _ _ _ Hrun). apply length_replicate. }
      destruct (lookup_lt_is_Some_2 (callers s) 0%nat ltac:(lia)) as [p Hp].
      destruct (Hfin _ _ Hp) as [r ->].
      exact (Hcallers _ _ Hp).
    + split; [exact Hbuilds|]. exists d. split; [rewrite Hcache; reflexivity|].
      intros i p Hp. destruct (Hfin _ _ Hp) as [r ->].
      rewrite (Hcallers _ _ Hp). reflexivity.
Qed.

Lemma single_flight_witness :
  exists s,
    run (missed cache0 2) scheduleOk = Some s /\
    builds s = 1%nat /\
    callers s = [Done (Served 42); Done (Served 42)].
Proof.
  destruct (run (missed cache0 2) scheduleOk) as [s|] eqn:Hrun;
    [|vm_compute in Hrun; discriminate Hrun].
  exists s. split; [reflexivity|].
  pose proof Hrun as Hs. vm_compute in Hs. injection Hs as Hs.
  destruct (single_flight (@cache0 Z) 2 scheduleOk s
              (missed cache0 2) [] (missed cache0 2)) as [_ H].
  destruct (H Hrun) as (Hbuilds & _).
  - lia.
  - rewrite <- Hs. intros [|[|i]] p; cbn; intros [= <-]; eauto.
  - intros e He. reflexivity.
  - intros e He.
    repeat (apply elem_of_cons in He as [->|He]; [exists 42; reflexivity|]).
    inversion He.
  - intros e1 e2 H1 H2.
    repeat (apply elem_of_cons in H1 as [->|H1];
            [repeat (apply elem_of_cons in H2 as [->|H2];
                     [vm_compute; reflexivity|]); inversion H2|]).
    inversion H1.
  - split; [exact Hbuilds|]. rewrite <- Hs. reflexivity.
Defined.

(** C2 as stated fails: two callers miss while the upstream is down.  The
    first build fails and publishes nothing, so the second caller, finding
    the cache still empty on its re-check, builds again: two builds for two
    callers, one after the other. *)
Lemma two_misses_two_builds :
  exists s,
    run (missed cache0 2) scheduleDown = Some s /\
    finished s /\
    builds s = 2%nat /\
    callers s = [Done (Failed (errorString "no season data loaded from API"));
                 Done (Failed (errorString "no season data loaded from API"))].
Proof.
  eexists. split; [vm_compute; reflexivity|].
  split; [|split; reflexivity].
  intros [|[|i]] p; cbn; intros [= <-]; eauto.
Defined.

(** * Further properties of the code *)

(** ** Normalizer and aggregator *)

Section AggregateMore.
Context {F : Type} {FO : Float64 F}.
Variable time_Parse : string -> string -> option Time.
Variable strconv_ParseFloat : string -> F.
Implicit Types (l : list (DayRecord F)) (data : list APIRecord).

Lemma parseLoop_closed seasonStart data l :
  fold_left (parseRecord time_Parse strconv_ParseFloat seasonStart) data l
  = l ++ map (normalized time_Parse strconv_ParseFloat seasonStart)
           (List.filter (parseable time_Parse) data).
Proof.
  revert l. induction data as [|r data IH]; intros l; cbn [fold_left].
  - cbn. now rewrite app_nil_r.
  - rewrite IH. unfold parseRecord at 1. cbn [List.filter].
    unfold parseable at 2.
    destruct (Time_IsZero _); cbn [negb map]; [reflexivity|].
    rewrite <- app_assoc. reflexivity.
Qed.

Lemma parseRecords_closed seasonStart data :
  parseRecords time_Parse strconv_ParseFloat seasonStart data
  = map (normalized time_Parse strconv_ParseFloat seasonStart)
      (List.filter (parseable time_Parse) data).
Proof. apply parseLoop_closed. Qed.

Lemma map_at_seq {B} (g : DayRecord F -> B) l :
  map (fun j => g (at_ l j)) (seq 0 (length l)) = map g l.
Proof.
  apply list_eq. intros i.
  change (map (fun j => g (at_ l j)) (seq 0 (length l)))
    with ((fun j => g (at_ l j)) <$> seq 0 (length l)).
  change (map g l) with (g <$> l).
  rewrite !list_lookup_fmap.
  destruct (l !! i) as [x|] eqn:Hx.
  - rewrite lookup_seq_lt by (eapply lookup_lt_Some, Hx).
    cbn. now rewrite (at_lookup _ _ _ Hx).
  - rewrite lookup_seq_ge by (apply lookup_ge_None, Hx). reflexivity.
Qed.

Lemma computeTrends_untrended l :
  map untrended (computeTrends l) = map untrended l.
Proof.
  rewrite computeTrends_closed, map_map.
  exact (map_at_seq untrended l).
Qed.

Lemma computeTrends_length l : length (computeTrends l) = length l.
Proof. now rewrite computeTrends_closed, length_map, length_seq. Qed.

(** What a successful aggregation is made of. *)
Lemma aggregateSeason_Ok_inv y data recs :
  aggregateSeason time_Parse strconv_ParseFloat y data = Ok recs ->
  recs = computeTrends
           (sortByDate
              (parseRecords time_Parse strconv_ParseFloat
                 (seasonStartOf y) data)).
Proof.
  unfold aggregateSeason. destruct data as [|d data].
  - intros [= <-]. reflexivity.
  - destruct (parseRecords _ _ _ (d :: data)) as [|r records];
      [discriminate|].
    intros [= <-]. reflexivity.
Qed.

End AggregateMore.

(** X1: a successful aggregation holds exactly the payload entries whose
    date parses, each once: but for the two trend fields its records are a
    permutation of the normalized entries.  Entries with an unparseable
    date are dropped and nothing else is lost or invented. *)
Theorem aggregateSeason_keeps_parseable {F : Type} {FO : Float64 F}
    (time_Parse : string -> string -> option Time)
    (strconv_ParseFloat : string -> F)
    (y : Z) (data : list APIRecord) (recs : list (DayRecord F)) :
  aggregateSeason time_Parse strconv_ParseFloat y data = Ok recs ->
  map untrended recs
  ≡ₚ map (normalized time_Parse strconv_ParseFloat (seasonStartOf y))
       (List.filter (parseable time_Parse) data) /\
  length recs = length (List.filter (parseable time_Parse) data).
Proof.
  intros H. apply aggregateSeason_Ok_inv in H as ->.
  rewrite computeTrends_untrended, computeTrends_length.
  rewrite sortByDate_perm, parseRecords_closed.
  split; [|now rewrite length_map].
  rewrite map_map. reflexivity.
Qed.

Lemma aggregateSeason_keeps_parseable_witness :
  exists recs,
    aggregateSeason parseSample parseFloatSample 2025 payloadDaily = Ok recs /\
    length recs = 3%nat.
Proof.
  destruct (aggregateSeason parseSample parseFloatSample 2025 payloadDaily)
    as [recs|e] eqn:E; [|vm_compute in E; discriminate].
  exists recs. split; [reflexivity|].
  destruct (aggregateSeason_keeps_parseable _ _ _ _ _ E) as [_ ->].
  reflexivity.
Defined.

(** X2: the three outcomes of an aggregation.  An empty payload gives no
    records and no error; a payload none of whose dates parses gives the
    error "no valid records parsed"; any other payload succeeds, with as
    many records as it has parseable dates. *)
Theorem aggregateSeason_outcomes {F : Type} {FO : Float64 F}
    (time_Parse : string -> string -> option Time)
    (strconv_ParseFloat : string -> F)
    (y : Z) (data : list APIRecord) :
  (data = [] ->
   aggregateSeason time_Parse strconv_ParseFloat y data = Ok []) /\
  (data <> [] -> List.filter (parseable time_Parse) data = [] ->
   aggregateSeason time_Parse strconv_ParseFloat y data
   = Err (errorString "no valid records parsed")) /\
  (List.filter (parseable time_Parse) data <> [] ->
   exists r recs,
     aggregateSeason time_Parse strconv_ParseFloat y data = Ok (r :: recs) /\
     length (r :: recs) = length (List.filter (parseable time_Parse) data)).
Proof.
  split; [intros ->; reflexivity|]. split.
  - intros Hne Hnone. unfold aggregateSeason.
    destruct data as [|d data]; [congruence|].
    rewrite parseRecords_closed, Hnone. reflexivity.
  - intros Hsome. unfold aggregateSeason.
    destruct data as [|d data]; [cbn in Hsome; congruence|].
    rewrite parseRecords_closed.
    destruct (List.filter _ (d :: data)) as [|a kept] eqn:Hkept;
      [congruence|].
    cbn [map].
    destruct (computeTrends _) as [|r recs] eqn:Hrecs.
    + apply (f_equal length) in Hrecs.
      rewrite computeTrends_length, (Permutation_length (sortByDate_perm _))
        in Hrecs. discriminate.
    + exists r, recs. split; [reflexivity|].
      rewrite <- Hrecs, computeTrends_length,
        (Permutation_length (sortByDate_perm _)).
      cbn. now rewrite length_map.
Qed.

Lemma aggregateSeason_outcomes_witness :
  aggregateSeason parseNothing parseZero 2025 payloadDaily
  = Err (errorString "no valid records parsed").
Proof.
  apply (aggregateSeason_outcomes parseNothing parseZero 2025 payloadDaily).
  - discriminate.
  - reflexivity.
Defined.

Section ExactTrends.
Implicit Types (l : list (DayRecord Qc)).

(** In exact arithmetic consecutive trends telescope. *)
Lemma exact_trend_sum l a c (z : Qc) :
  fold_left (fun sum k => sum +. trendAt l k) (seq (S a) c) z
  = (z + (Full (at_ l (a + c)) - Full (at_ l a)))%Qc.
Proof.
  revert a z. induction c as [|c IH]; intros a z.
  - cbn [seq fold_left]. rewrite Nat.add_0_r. ring.
  - cbn [seq fold_left]. rewrite IH.
    replace (S a + c)%nat with (a + S c)%nat by lia.
    cbn [trendAt f_add f_sub Exact.ops]. ring.
Qed.

Lemma sat64_mono (a b : Z) : a <= b -> sat64 a <= sat64 b.
Proof. unfold sat64. lia. Qed.

End ExactTrends.

(** X3: in exact arithmetic the 7-day average telescopes.  From the eighth
    record on it is the fill gained over the last seven records divided by
    7; for the first seven records (index [i <= 6]) it is the fill gained
    since the first record divided by [i + 1], the first record's trend of 0
    being counted in. *)
Theorem exact_ma7_telescopes
    (time_Parse : string -> string -> option Time)
    (strconv_ParseFloat : string -> Qc)
    (y : Z) (data : list APIRecord) (recs : list (DayRecord Qc))
    (i : nat) (r : DayRecord Qc) :
  aggregateSeason time_Parse strconv_ParseFloat y data = Ok recs ->
  recs !! i = Some r ->
  ((i <= 6)%nat ->
   forall first, recs !! 0%nat = Some first ->
     TrendMA7 r = ((Full r - Full first) / of_int (Z.of_nat (i + 1)))%Qc) /\
  ((7 <= i)%nat ->
   forall before, recs !! (i - 7)%nat = Some before ->
     TrendMA7 r = ((Full r - Full before) / of_int 7)%Qc).
Proof.
  intros H Hr.
  destruct (aggregateSeason_Ok _ _ _ _ _ H) as (l & -> & _ & Hfresh).
  apply derived_lookup in Hr as (-> & x & Hx & Hat).
  cbn [derived set_TrendMA7 set_Trend TrendMA7 Full]. unfold trendMA7At.
  split.
  - intros Hi first Hfirst.
    apply derived_lookup in Hfirst as (-> & x0 & Hx0 & Hat0).
    cbn [derived set_TrendMA7 set_Trend Full].
    replace (i - 6)%nat with 0%nat by lia.
    replace (i - 0 + 1)%nat with (S i) by lia.
    replace (i + 1)%nat with (S i) by lia.
    cbn [seq fold_left]. rewrite exact_trend_sum.
    cbn [trendAt f_add f_div Exact.ops Nat.add].
    assert (Trend (at_ l 0) = f_zero) as ->.
    { rewrite Hat0. rewrite Forall_forall in Hfresh.
      apply (Hfresh x0). eapply list_elem_of_lookup_2, Hx0. }
    change (@f_zero Qc _) with 0%Qc.
    f_equal. ring.
  - intros Hi before Hbefore.
    apply derived_lookup in Hbefore as (-> & xb & Hxb & Hatb).
    cbn [derived set_TrendMA7 set_Trend Full].
    replace (i - 6)%nat with (S (i - 7)) by lia.
    replace (i - S (i - 7) + 1)%nat with 7%nat by lia.
    rewrite exact_trend_sum.
    replace (i - 7 + 7)%nat with i by lia.
    change (@f_zero Qc _) with 0%Qc. cbn [f_div Exact.ops].
    f_equal. ring.
Qed.

Lemma exact_ma7_telescopes_witness :
  exists recs r first,
    aggregateSeason parseSample (fun _ => of_int 96) 2025 payloadDaily
    = Ok recs /\
    recs !! 2%nat = Some r /\ recs !! 0%nat = Some first /\
    TrendMA7 r = ((Full r - Full first) / of_int 3)%Qc.
Proof.
  destruct (aggregateSeason parseSample (fun _ => of_int 96) 2025 payloadDaily)
    as [recs|e] eqn:E; [|vm_compute in E; discriminate].
  destruct (recs !! 2%nat) as [r|] eqn:Hr;
    [|vm_compute in E; injection E as <-; discriminate Hr].
  destruct (recs !! 0%nat) as [first|] eqn:Hfirst;
    [|vm_compute in E; injection E as <-; discriminate Hfirst].
  exists recs, r, first. repeat split; auto.
  destruct (exact_ma7_telescopes _ _ _ _ _ 2%nat r E Hr) as [Hsmall _].
  apply Hsmall; [lia|exact Hfirst].
Defined.

(** X4: in exact arithmetic the elapsed days never decrease along an
    aggregated season, so its last record has the greatest elapsed day. *)
Theorem exact_elapsed_monotone
    (time_Parse : string -> string -> option Time)
    (strconv_ParseFloat : string -> Qc)
    (y : Z) (data : list APIRecord) (recs : list (DayRecord Qc))
    (i j : nat) (a b : DayRecord Qc) :
  aggregateSeason time_Parse strconv_ParseFloat y data = Ok recs ->
  (i <= j)%nat -> recs !! i = Some a -> recs !! j = Some b ->
  DaysElapsed a <= DaysElapsed b.
Proof.
  intros H Hij Ha Hb.
  destruct (aggregateSeason_Ok _ _ _ _ _ H) as (l & -> & Hsorted & Hfresh).
  apply derived_lookup in Ha as (-> & xa & Hxa & Hata).
  apply derived_lookup in Hb as (-> & xb & Hxb & Hatb).
  cbn [derived set_TrendMA7 set_Trend DaysElapsed]. rewrite Hata, Hatb.
  rewrite Forall_forall in Hfresh.
  destruct (Hfresh xa (list_elem_of_lookup_2 _ _ _ Hxa)) as [-> _].
  destruct (Hfresh xb (list_elem_of_lookup_2 _ _ _ Hxb)) as [-> _].
  unfold elapsedDays. rewrite !exact_whole_days.
  apply Z.quot_le_mono; [reflexivity|].
  apply sat64_mono.
  pose proof (sorted_lookup l i j xa xb Hsorted Hij Hxa Hxb). lia.
Qed.

Lemma exact_elapsed_monotone_witness :
  exists recs a b,
    aggregateSeason parseSample (fun _ => of_int 96) 2025 payloadTimed
    = Ok recs /\
    recs !! 0%nat = Some a /\ recs !! 1%nat = Some b /\
    DaysElapsed a <= DaysElapsed b.
Proof.
  destruct (aggregateSeason parseSample (fun _ => of_int 96) 2025 payloadTimed)
    as [recs|e] eqn:E; [|vm_compute in E; discriminate].
  destruct (recs !! 0%nat) as [a|] eqn:Ha;
    [|vm_compute in E; injection E as <-; discriminate Ha].
  destruct (recs !! 1%nat) as [b|] eqn:Hb;
    [|vm_compute in E; injection E as <-; discriminate Hb].
  exists recs, a, b. repeat split; auto.
  apply (exact_elapsed_monotone _ _ _ _ _ 0%nat 1%nat a b E); auto.
Defined.

(** ** Fetching *)

Section FetchMore.
Context {F : Type} {FO : Float64 F}.
Variable time_Parse : string -> string -> option Time.
Variable strconv_ParseFloat : string -> F.

Local Abbreviation fetch := (fetchSeason time_Parse strconv_ParseFloat).
Local Abbreviation retry := (fetchSeasonWithRetry time_Parse strconv_ParseFloat).

(** A season that has not started is refused before any request. *)
Lemma fetchSeason_future y w :
  Time_After (seasonStartOf y) (clock w) = true ->
  fetch y w
  = (Err (errorString ("season " ++ fmt_d y ++ " starts in the future ("
                       ++ fmt_d y ++ "-11-01)")),
     {| clock := clock w; network := network w; requests := requests w;
        trace := trace w ++ [EvFetch y] |}).
Proof.
  intros H. unfold fetchSeason, bind, emit, time_Now, ret. cbn.
  rewrite H. reflexivity.
Qed.

(** The retry loop unrolled: some attempts fail, the last one decides. *)
Lemma retry_unrolled y w r w' :
  retry y w = (r, w') ->
  exists (k : nat) w1 r0,
    (k < 3)%nat /\
    Tried time_Parse strconv_ParseFloat y w k w1 /\
    fetch y w1 = (r0, w') /\
    match r0 with
    | Ok recs => r = Ok recs
    | Err e =>
        k = 2%nat /\
        r = Err (Errorf_w ("all " ++ fmt_d retryAttempts
                           ++ " attempts failed for " ++ fmt_d y ++ ": ") e)
    end.
Proof.
  intros Hrun. unfold fetchSeasonWithRetry in Hrun.
  change (Z.to_nat retryAttempts) with 3%nat in Hrun.
  cbn [retryLoop] in Hrun. unfold bind at 1 in Hrun.
  destruct (fetch y w) as [[recs1|e1] w1] eqn:E1.
  { injection Hrun as <- <-. exists 0%nat, w, (Ok recs1).
    repeat split; [lia|constructor|exact E1]. }
  pose proof (Tried_again _ _ y w _ _ _ _ (Tried_none _ _ y w) E1) as T1.
  change (1 <? retryAttempts) with true in Hrun.
  unfold bind at 1 in Hrun.
  change (wrap64 (retryDelay * 1)) with (retryDelay * Z.of_nat 1) in Hrun.
  destruct (time_Sleep (retryDelay * Z.of_nat 1) w1) as [[] w1'] eqn:S1.
  cbn [snd] in T1. unfold bind at 1 in Hrun.
  destruct (fetch y w1') as [[recs2|e2] w2] eqn:E2.
  { injection Hrun as <- <-. exists 1%nat, w1', (Ok recs2).
    repeat split; [lia|exact T1|exact E2]. }
  pose proof (Tried_again _ _ y w _ _ _ _ T1 E2) as T2.
  change (1 + 1 <? retryAttempts) with true in Hrun.
  unfold bind at 1 in Hrun.
  change (wrap64 (retryDelay * (1 + 1))) with (retryDelay * Z.of_nat 2) in Hrun.
  destruct (time_Sleep (retryDelay * Z.of_nat 2) w2) as [[] w2'] eqn:S2.
  cbn [snd] in T2. unfold bind at 1 in Hrun.
  destruct (fetch y w2') as [[recs3|e3] w3] eqn:E3.
  { injection Hrun as <- <-. exists 2%nat, w2', (Ok recs3).
    repeat split; [lia|exact T2|exact E3]. }
  change (1 + 1 + 1 <? retryAttempts) with false in Hrun.
  unfold bind at 1 in Hrun. cbn [ret] in Hrun.
  injection Hrun as <- <-.
  exists 2%nat, w2', (Err e3). repeat split; [lia|exact T2|exact E3].
Qed.

(** What a retried fetch leaves in the world. *)
Lemma retry_effect y w r w' :
  retry y w = (r, w') ->
  exists (k : nat) evs,
    (k < 3)%nat /\
    trace w' = trace w ++ evs /\
    sleepsOf evs = backoff k /\
    countEv isFetch evs = S k /\
    (countEv isRequest evs <= S k)%nat /\
    requests w' = (requests w + countEv isRequest evs)%nat /\
    (forall d, last evs <> Some (EvSleep d)).
Proof.
  intros Hrun.
  destruct (retry_unrolled _ _ _ _ Hrun) as (k & w1 & r0 & Hk & Ht & Hf & _).
  destruct (attempt_trace _ _ _ _ _ _ _ _ Ht Hf)
    as (evs & H1 & H2 & H3 & H4 & H5 & H6).
  exists k, evs. auto 10.
Qed.

End FetchMore.

(** X5: a season that has not started is still tried three times.  When
    the season start lies more than six seconds ahead of the clock,
    [fetchSeasonWithRetry] sends no request at all, yet enters [fetchSeason]
    three times, sleeps 2 s and 4 s in between, and returns the wrapped
    "starts in the future" error. *)
Theorem future_season_retried {F : Type} {FO : Float64 F}
    (time_Parse : string -> string -> option Time)
    (strconv_ParseFloat : string -> F) (y : Z) (w : World) :
  clock w + 6 * Second < seasonStartOf y ->
  fetchSeasonWithRetry time_Parse strconv_ParseFloat y w
  = (Err (Errorf_w ("all 3 attempts failed for " ++ fmt_d y ++ ": ")
            (errorString ("season " ++ fmt_d y ++ " starts in the future ("
                          ++ fmt_d y ++ "-11-01)"))),
     {| clock := clock w + 6 * Second;
        network := network w;
        requests := requests w;
        trace := trace w ++ [ EvFetch y; EvSleep (2 * Second);
                              EvFetch y; EvSleep (4 * Second);
                              EvFetch y ] |}).
Proof.
  intros Hfuture.
  assert (Hafter : forall t, t <= clock w + 6 * Second ->
                     Time_After (seasonStartOf y) t = true).
  { intros t Ht. apply Z.ltb_lt. lia. }
  change (6 * Second) with 6000000000 in Hafter.
  unfold fetchSeasonWithRetry.
  change (Z.to_nat retryAttempts) with 3%nat.
  cbn [retryLoop].
  change (wrap64 (retryDelay * 1)) with 2000000000.
  change (wrap64 (retryDelay * (1 + 1))) with 4000000000.
  change (1 <? retryAttempts) with true.
  change (1 + 1 <? retryAttempts) with true.
  change (1 + 1 + 1 <? retryAttempts) with false.
  unfold bind at 1.
  rewrite fetchSeason_future by (apply Hafter; lia).
  unfold bind at 1. unfold time_Sleep at 1.
  cbn [clock network requests trace]. unfold bind at 1.
  rewrite fetchSeason_future by (cbn [clock]; apply Hafter; lia).
  unfold bind at 1. unfold time_Sleep at 1.
  cbn [clock network requests trace]. unfold bind at 1.
  rewrite fetchSeason_future by (cbn [clock]; apply Hafter; lia).
  unfold bind at 1. cbn [ret clock network requests trace].
  change (fmt_d retryAttempts) with "3"%string.
  change (2 * Second) with 2000000000. change (4 * Second) with 4000000000.
  change (6 * Second) with 6000000000.
  f_equal. f_equal; [lia|]. rewrite <- !app_assoc. reflexivity.
Qed.

Lemma future_season_retried_witness :
  (requests (snd (fetchSeasonWithRetry parseNothing parseZero 2026
                    worldDown)) = 0)%nat.
Proof.
  rewrite (future_season_retried parseNothing parseZero 2026 worldDown).
  - reflexivity.
  - vm_compute. reflexivity.
Defined.

(** X6: [fetchSeason] returns records only for a season that has started,
    from one request answered with status 200 and a body that decodes; the
    records are then the aggregation of the decoded payload. *)
Theorem fetchSeason_Ok_only_from_200 {F : Type} {FO : Float64 F}
    (time_Parse : string -> string -> option Time)
    (strconv_ParseFloat : string -> F)
    (y : Z) (w : World) (recs : list (DayRecord F)) (w' : World) :
  fetchSeason time_Parse strconv_ParseFloat y w = (Ok recs, w') ->
  Time_After (seasonStartOf y) (clock w) = false /\
  exists latency body payload,
    network w (requests w) = (latency, Body statusOK body (Ok payload)) /\
    aggregateSeason time_Parse strconv_ParseFloat y payload = Ok recs /\
    requests w' = S (requests w) /\
    trace w' = trace w ++ [EvFetch y; EvRequest y].
Proof.
  unfold fetchSeason, bind, emit, time_Now, client_Do, ret. cbn.
  destruct (Time_After _ _); [discriminate|].
  intros H. cbn in H. split; [reflexivity|].
  destruct (network w (requests w)) as [latency answer].
  destruct answer as [e|st e|st body [payload|e]]; cbn in H;
    try discriminate H;
    (destruct (Z.eqb_spec st statusOK) as [->|Hne]; cbn in H;
     [|discriminate H]); [|discriminate H].
  injection H as Hagg <-. exists latency, body, payload.
  cbn. rewrite <- app_assoc. auto.
Qed.

Lemma fetchSeason_Ok_only_from_200_witness :
  exists latency body payload,
    network worldUp (requests worldUp)
    = (latency, Body statusOK body (Ok payload)).
Proof.
  destruct (fetchSeason parseSample parseFloatSample 2025 worldUp)
    as [[recs|e] w'] eqn:E; [|vm_compute in E; discriminate E].
  destruct (fetchSeason_Ok_only_from_200 _ _ _ _ _ _ E)
    as (_ & latency & body & payload & Hnet & _).
  exists latency, body, payload. exact Hnet.
Defined.

(** ** Season orchestrator *)

Section OrchestratorMore.
Context {F : Type} {FO : Float64 F}.
Variable time_Parse : string -> string -> option Time.
Variable strconv_ParseFloat : string -> F.
Implicit Types (configs : list SeasonConfig) (seasons : list (SeasonData F))
  (m : gmap Z (list (DayRecord F))).

Local Abbreviation loop := (fetchSeasonsLoop time_Parse strconv_ParseFloat).

Lemma countSleeps_app d evs evs' :
  countSleeps d (evs ++ evs') = (countSleeps d evs + countSleeps d evs')%nat.
Proof.
  unfold countSleeps. rewrite sleepsOf_app, List.filter_app, length_app.
  reflexivity.
Qed.

(** The retry delays are never the delay between seasons. *)
Lemma backoff_delays (k : nat) :
  (k < 3)%nat ->
  List.filter (Z.eqb delayBetweenCalls) (backoff k) = [] /\
  Forall (fun d => d = 2 * Second \/ d = 4 * Second) (backoff k).
Proof.
  intros Hk. destruct k as [|[|[|k]]]; [| | |lia];
    (split; [reflexivity|]);
    repeat (constructor; [(left; reflexivity) || (right; reflexivity)|]);
    constructor.
Qed.

(** What the loop over the configs leaves in the trace. *)
Lemma loop_effect configs loaded w res w' :
  loop configs loaded w = (res, w') ->
  exists evs,
    trace w' = trace w ++ evs /\
    countSleeps delayBetweenCalls evs = (length configs - 1)%nat /\
    Forall (fun d => d = delayBetweenCalls \/ d = 2 * Second \/ d = 4 * Second)
      (sleepsOf evs) /\
    (length configs <= countEv isFetch evs <= 3 * length configs)%nat /\
    (countEv isRequest evs <= 3 * length configs)%nat /\
    requests w' = (requests w + countEv isRequest evs)%nat /\
    (forall d, last evs <> Some (EvSleep d)).
Proof.
  revert loaded w. induction configs as [|cfg rest IH]; intros loaded w.
  - cbn. intros [= <- <-]. exists []. rewrite app_nil_r.
    cbn. repeat split; auto; try lia; discriminate.
  - cbn [fetchSeasonsLoop]. unfold bind at 1.
    destruct (fetchSeasonWithRetry _ _ (Year cfg) w) as [r w1] eqn:Hretry.
    destruct (retry_effect _ _ _ _ _ _ Hretry)
      as (k & evs1 & Hk & Ht1 & Hs1 & Hf1 & Hr1 & Hn1 & Hl1).
    destruct (backoff_delays k Hk) as [Hnone Hdelays].
    unfold bind at 1.
    destruct rest as [|cfg' rest'].
    + (* the last season: no sleep *)
      cbn. intros [= <- <-]. exists evs1.
      unfold countSleeps. rewrite Hs1, Hnone.
      repeat split; auto; try lia.
      eapply Forall_impl; [exact Hdelays|]. cbn. tauto.
    + unfold time_Sleep at 1. cbn [ret].
      intros Hrest. apply IH in Hrest
        as (evs2 & Ht2 & Hc2 & Hs2 & Hf2 & Hr2 & Hn2 & Hl2).
      cbn [trace requests] in Ht2, Hn2.
      exists (evs1 ++ EvSleep delayBetweenCalls :: evs2).
      rewrite Ht2, Ht1, <- !app_assoc. cbn [app].
      split; [reflexivity|].
      rewrite !countSleeps_app, sleepsOf_app, !countEv_app.
      change (EvSleep delayBetweenCalls :: evs2)
        with ([EvSleep delayBetweenCalls] ++ evs2).
      rewrite !countSleeps_app, sleepsOf_app, !countEv_app.
      assert (countSleeps delayBetweenCalls evs1 = 0%nat) as ->
        by (unfold countSleeps; rewrite Hs1, Hnone; reflexivity).
      cbn [length] in Hc2, Hf2, Hr2 |- .
      assert (countSleeps delayBetweenCalls [EvSleep delayBetweenCalls]
              = 1%nat) as -> by reflexivity.
      split; [rewrite Hc2; cbn [length]; lia|].
      split.
      { rewrite Hs1. apply Forall_app. split.
        - eapply Forall_impl; [exact Hdelays|]. cbn. tauto.
        - apply Forall_app. split; [repeat constructor; auto|exact Hs2]. }
      cbn [length]. cbn [countEv List.filter isFetch isRequest length app].
      split; [lia|]. split; [lia|]. split; [lia|].
      intros d. rewrite last_app.
      (* the rest entered [fetchSeason] at least once *)
      destruct evs2 as [|e evs2']; [cbn in Hf2; lia|].
      change (last (EvSleep delayBetweenCalls :: e :: evs2'))
        with (last (e :: evs2')).
      destruct (last (e :: evs2')) as [ev|] eqn:Hlast; [apply Hl2|].
      apply last_None in Hlast. discriminate.
Qed.

(** One call of [fetchSeason] leaves the events of one attempt. *)
Lemma fetchSeason_attempt y w r w' :
  fetchSeason time_Parse strconv_ParseFloat y w = (r, w') ->
  exists sent, trace w' = trace w ++ attemptEvents y sent.
Proof.
  intros H.
  destruct (fetchSeason_effect _ _ _ _ _ _ H) as [[Ht _]|[Ht _]];
    [exists false|exists true]; exact Ht.
Qed.

Lemma failedAttempts_snoc y i failed sent :
  failedAttempts y i (failed ++ [sent])
  = failedAttempts y i failed ++ attemptEvents y sent
    ++ [EvSleep (retryDelay * Z.of_nat (i + length failed))].
Proof.
  revert i. induction failed as [|s failed IH]; intros i.
  - cbn [failedAttempts app length]. rewrite Nat.add_0_r. reflexivity.
  - cbn [failedAttempts app length]. rewrite IH, <- ?app_assoc.
    cbn [app]. rewrite <- ?app_assoc.
    replace (S i + length failed)%nat with (i + S (length failed))%nat by lia.
    reflexivity.
Qed.

(** What [k] failed attempts leave in the trace. *)
Lemma Tried_block y w k w1 :
  Tried time_Parse strconv_ParseFloat y w k w1 ->
  exists failed,
    length failed = k /\ trace w1 = trace w ++ failedAttempts y 1 failed.
Proof.
  induction 1 as [|k w1 e w2 _ (failed & Hlen & Ht) Hfetch].
  - exists []. rewrite app_nil_r. auto.
  - destruct (fetchSeason_attempt _ _ _ _ Hfetch) as [sent Ht2].
    exists (failed ++ [sent]). split; [rewrite length_app; cbn; lia|].
    cbn [snd time_Sleep trace].
    rewrite Ht2, Ht, failedAttempts_snoc, Hlen, <- !app_assoc.
    reflexivity.
Qed.

(** The trace of a retried fetch is the block of its season. *)
Lemma retry_block y w r w' :
  fetchSeasonWithRetry time_Parse strconv_ParseFloat y w = (r, w') ->
  exists block, seasonBlock y block /\ trace w' = trace w ++ block.
Proof.
  intros Hrun.
  destruct (retry_unrolled _ _ _ _ _ _ Hrun)
    as (k & w1 & r0 & Hk & Htried & Hfetch & _).
  destruct (Tried_block _ _ _ _ Htried) as (failed & Hlen & Ht).
  destruct (fetchSeason_attempt _ _ _ _ Hfetch) as [sent Ht2].
  exists (failedAttempts y 1 failed ++ attemptEvents y sent). split.
  - exists failed, sent. split; [lia|reflexivity].
  - rewrite Ht2, Ht, <- app_assoc. reflexivity.
Qed.

Lemma failedAttempts_counts y i failed :
  countEv isFetch (failedAttempts y i failed) = length failed /\
  (countEv isRequest (failedAttempts y i failed) <= length failed)%nat.
Proof.
  revert i. induction failed as [|sent failed IH]; intros i; [cbn; lia|].
  cbn [failedAttempts length].
  change (EvSleep (retryDelay * Z.of_nat i) :: failedAttempts y (S i) failed)
    with ([EvSleep (retryDelay * Z.of_nat i)]
          ++ failedAttempts y (S i) failed).
  rewrite !countEv_app. destruct (IH (S i)) as [-> Hr].
  destruct sent; cbn; lia.
Qed.

(** A season is tried one to three times, with at most one request per
    try. *)
Lemma seasonBlock_counts y block :
  seasonBlock y block ->
  (1 <= countEv isFetch block <= 3)%nat /\
  (countEv isRequest block <= countEv isFetch block)%nat.
Proof.
  intros (failed & sent & Hlen & ->). rewrite !countEv_app.
  destruct (failedAttempts_counts y 1 failed) as [-> Hr].
  destruct sent; cbn; lia.
Qed.

(** The trace of the loop over the configs: one block per season, in the
    order of the configs, separated by the delay between calls. *)
Lemma loop_blocks configs loaded w res w' :
  loop configs loaded w = (res, w') ->
  exists blocks,
    Forall2 seasonTrace configs blocks /\
    trace w' = trace w ++ paced blocks.
Proof.
  revert loaded w. induction configs as [|cfg rest IH]; intros loaded w.
  - cbn. intros [= <- <-]. exists []. rewrite app_nil_r.
    split; [constructor|reflexivity].
  - cbn [fetchSeasonsLoop]. unfold bind at 1.
    destruct (fetchSeasonWithRetry _ _ (Year cfg) w) as [r w1] eqn:Hretry.
    destruct (retry_block _ _ _ _ Hretry) as (block & Hblock & Ht1).
    assert (Hseason : seasonTrace cfg block)
      by (split; [exact Hblock|exact (seasonBlock_counts _ _ Hblock)]).
    unfold bind at 1.
    destruct rest as [|cfg' rest'].
    + cbn. intros [= <- <-]. exists [block].
      split; [constructor; [exact Hseason|constructor]|exact Ht1].
    + unfold time_Sleep at 1. cbn [ret].
      intros Hrest. apply IH in Hrest as (blocks & Hall & Ht2).
      cbn [trace] in Ht2.
      exists (block :: blocks). split; [constructor; assumption|].
      inversion Hall as [|? b ? blocks' _ _ Heq1 Heq2]. subst blocks.
      cbn [paced]. rewrite Ht2, Ht1, <- !app_assoc. reflexivity.
Qed.

Lemma indexByYear_cons sd seasons m :
  indexByYear (sd :: seasons) m
  = indexByYear seasons (<[ Year (Config sd) := Records sd ]> m).
Proof. reflexivity. Qed.

Lemma indexByYear_snoc seasons sd m :
  indexByYear (seasons ++ [sd]) m
  = <[ Year (Config sd) := Records sd ]> (indexByYear seasons m).
Proof. unfold indexByYear. rewrite fold_left_app. reflexivity. Qed.

(** What the loop over the configs returns: the seasons it adds follow the
    order of the configs, have records, and are indexed by the map. *)
Lemma loop_result configs m0 seasons0 w m seasons w' :
  loop configs (m0, seasons0) w = ((m, seasons), w') ->
  exists added,
    seasons = seasons0 ++ added /\
    map Config added `sublist_of` configs /\
    Forall hasRecords added /\
    m = indexByYear added m0.
Proof.
  revert m0 seasons0 w.
  induction configs as [|cfg rest IH]; intros m0 seasons0 w.
  - cbn. intros [= <- <- <-]. exists []. rewrite app_nil_r.
    repeat split; constructor.
  - cbn [fetchSeasonsLoop]. unfold bind at 1.
    destruct (fetchSeasonWithRetry _ _ (Year cfg) w) as [r w1].
    unfold bind at 1.
    destruct (match rest with [] => ret () | _ => _ end w1) as [[] w2].
    assert (Hkeep :
      keepSeason cfg r (m0, seasons0) = (m0, seasons0) \/
      exists records,
        records <> [] /\
        keepSeason cfg r (m0, seasons0)
        = (<[ Year cfg := records ]> m0,
           seasons0 ++ [ {| Config := cfg; Records := records |} ])).
    { destruct r as [[|x records]|e]; cbn; auto.
      right. exists (x :: records). split; [discriminate|reflexivity]. }
    destruct Hkeep as [->|(records & Hne & ->)]; intros Hrest;
      apply IH in Hrest as (added & -> & Hsub & Hall & ->).
    + exists added. split; [reflexivity|].
      split; [apply sublist_cons, Hsub|]. split; [exact Hall|reflexivity].
    + exists ({| Config := cfg; Records := records |} :: added).
      rewrite <- app_assoc. split; [reflexivity|].
      split; [cbn; apply sublist_skip, Hsub|].
      split; [constructor; [exact Hne|exact Hall]|reflexivity].
Qed.

Lemma indexByYear_other seasons m y :
  y ∉ map (fun sd => Year (Config sd)) seasons ->
  indexByYear seasons m !! y = m !! y.
Proof.
  revert m. induction seasons as [|sd seasons IH]; intros m Hy; [reflexivity|].
  cbn in Hy. apply not_elem_of_cons in Hy as [Hne Hy].
  rewrite indexByYear_cons.
  rewrite IH by exact Hy. apply lookup_insert_ne. congruence.
Qed.

Lemma indexByYear_lookup seasons m y recs :
  indexByYear seasons m !! y = Some recs ->
  (exists sd, sd ∈ seasons /\ Year (Config sd) = y /\ Records sd = recs) \/
  m !! y = Some recs.
Proof.
  revert m. induction seasons as [|sd seasons IH]; intros m; [auto|].
  rewrite indexByYear_cons.
  intros H. apply IH in H as [(sd' & Hin & Hy & Hr)|H].
  - left. exists sd'. split; [right; exact Hin|auto].
  - destruct (decide (Year (Config sd) = y)) as [Heq|Hne].
    + rewrite <- Heq, lookup_insert_eq in H. injection H as <-.
      left. exists sd. split; [left|auto].
    + rewrite lookup_insert_ne in H by exact Hne. auto.
Qed.

Lemma indexByYear_is_Some seasons m y :
  y ∈ map (fun sd => Year (Config sd)) seasons ->
  is_Some (indexByYear seasons m !! y).
Proof.
  revert m. induction seasons as [|sd seasons IH]; intros m Hin;
    [inversion Hin|].
  rewrite indexByYear_cons.
  destruct (decide (y ∈ map (fun sd => Year (Config sd)) seasons))
    as [Hlater|Hnot]; [apply IH, Hlater|].
  rewrite indexByYear_other by exact Hnot.
  cbn in Hin. apply elem_of_cons in Hin as [->|Hin]; [|contradiction].
  rewrite lookup_insert_eq. eauto.
Qed.

Lemma indexByYear_NoDup seasons m sd :
  NoDup (map (fun sd => Year (Config sd)) seasons) ->
  sd ∈ seasons ->
  indexByYear seasons m !! Year (Config sd) = Some (Records sd).
Proof.
  revert m. induction seasons as [|sd' seasons IH]; intros m Hnd Hin;
    [inversion Hin|].
  cbn in Hnd. apply NoDup_cons in Hnd as [Hnot Hnd].
  rewrite indexByYear_cons.
  apply elem_of_cons in Hin as [->|Hin].
  - rewrite indexByYear_other by exact Hnot. apply lookup_insert_eq.
  - apply IH; assumption.
Qed.

End OrchestratorMore.

(** X7: [fetchAllSeasons] handles the seasons one after the other, in the
    order of the configs.  Its trace is one block per season, and two
    consecutive blocks are separated by exactly one sleep of
    [delayBetweenCalls], with none after the last block.  The block of a
    season holds only tries and requests for that season's year: at most
    two failed tries, the [i]-th followed by a sleep of [retryDelay * i],
    then the try that decides; so each season is tried one to three times
    and sends at most one request per try.  Hence the delay between calls
    is slept once less than there are seasons, every other sleep is a
    retry delay of 2 s or 4 s, and the trace does not end in a sleep. *)
Theorem fetchAllSeasons_pacing {F : Type} {FO : Float64 F}
    (time_Parse : string -> string -> option Time)
    (strconv_ParseFloat : string -> F)
    (configs : list SeasonConfig) (w : World) :
  let w' := snd (fetchAllSeasons time_Parse strconv_ParseFloat configs w) in
  exists blocks,
    Forall2 seasonTrace configs blocks /\
    trace w' = trace w ++ paced blocks /\
    countSleeps delayBetweenCalls (paced blocks) = (length configs - 1)%nat /\
    Forall (fun d => d = delayBetweenCalls \/ d = 2 * Second \/ d = 4 * Second)
      (sleepsOf (paced blocks)) /\
    (length configs <= countEv isFetch (paced blocks)
     <= 3 * length configs)%nat /\
    (countEv isRequest (paced blocks) <= 3 * length configs)%nat /\
    requests w' = (requests w + countEv isRequest (paced blocks))%nat /\
    (forall d, last (paced blocks) <> Some (EvSleep d)).
Proof.
  cbv zeta. unfold fetchAllSeasons.
  destruct (fetchSeasonsLoop _ _ configs (∅, []) w) as [res w'] eqn:Hloop.
  destruct (loop_blocks _ _ _ _ _ _ _ Hloop) as (blocks & Hall & Ht).
  destruct (loop_effect _ _ _ _ _ _ _ Hloop) as (evs & Ht' & Heffect).
  cbn [snd]. rewrite Ht in Ht'. apply app_inv_head in Ht'. subst evs.
  exists blocks. split; [exact Hall|]. split; [exact Ht|exact Heffect].
Qed.

(** X8: the two results of [fetchAllSeasons] agree.  The loaded seasons
    follow the order of the configs, each has at least one record, and the
    map holds exactly the years of the loaded seasons, each with the
    records of a loaded season of that year; when the configs' years are
    distinct, it is the season's own records. *)
Theorem fetchAllSeasons_consistent {F : Type} {FO : Float64 F}
    (time_Parse : string -> string -> option Time)
    (strconv_ParseFloat : string -> F)
    (configs : list SeasonConfig) (w : World)
    (allSeasons : gmap Z (list (DayRecord F)))
    (seasons : list (SeasonData F)) (w' : World) :
  fetchAllSeasons time_Parse strconv_ParseFloat configs w
  = ((allSeasons, seasons), w') ->
  map Config seasons `sublist_of` configs /\
  Forall hasRecords seasons /\
  (forall y recs,
     allSeasons !! y = Some recs ->
     exists sd, sd ∈ seasons /\ Year (Config sd) = y /\ Records sd = recs) /\
  (forall sd, sd ∈ seasons -> is_Some (allSeasons !! Year (Config sd))) /\
  (NoDup (map Year configs) ->
   forall sd, sd ∈ seasons ->
              allSeasons !! Year (Config sd) = Some (Records sd)).
Proof.
  unfold fetchAllSeasons. intros Hloop.
  apply loop_result in Hloop as (added & -> & Hsub & Hall & ->).
  cbn [app]. split; [exact Hsub|]. split; [exact Hall|].
  split; [|split].
  - intros y recs Hy. apply indexByYear_lookup in Hy as [Hy|Hy]; [exact Hy|].
    rewrite lookup_empty in Hy. discriminate.
  - intros sd Hin. apply indexByYear_is_Some.
    apply list_elem_of_In, (in_map (fun sd => Year (Config sd))),
      list_elem_of_In, Hin.
  - intros Hnd sd Hin. apply indexByYear_NoDup; [|exact Hin].
    apply (sublist_NoDup _ (map Year configs)); [exact Hnd|].
    rewrite <- (map_map Config Year). exact (fmap_sublist Year _ _ Hsub).
Qed.

Lemma fetchAllSeasons_consistent_witness :
  exists allSeasons seasons w',
    fetchAllSeasons parseSample parseFloatSample configsSample worldUp
    = ((allSeasons, seasons), w') /\
    map Config seasons `sublist_of` configsSample /\
    Forall hasRecords seasons.
Proof.
  destruct (fetchAllSeasons parseSample parseFloatSample configsSample worldUp)
    as [[allSeasons seasons] w'] eqn:E.
  exists allSeasons, seasons, w'. split; [reflexivity|].
  destruct (fetchAllSeasons_consistent _ _ _ _ _ _ _ E) as (Hsub & Hall & _).
  split; assumption.
Defined.

(** ** Dashboard builder *)

Section DashboardMore.
Context {F : Type} {FO : Float64 F}.
Variable time_Parse : string -> string -> option Time.
Variable strconv_ParseFloat : string -> F.
Variable zoneOffset : Time -> Duration.

(** [currentWinterStartYear] only reads the clock. *)
Lemma currentWinterStartYear_reads w :
  currentWinterStartYear zoneOffset w
  = (fst (currentWinterStartYear zoneOffset w), w).
Proof.
  unfold currentWinterStartYear, bind, time_Now, ret.
  destruct (_ <? 11); reflexivity.
Qed.

Lemma match_nonempty {A B : Type} (l : list A) (a b : B) :
  l <> [] -> match l with [] => a | _ :: _ => b end = b.
Proof. destruct l; [congruence|reflexivity]. Qed.

(** [buildKPI] describes the last record of a non-empty series. *)
Lemma buildKPI_nonempty (records : list (DayRecord F))
    (scenarios : list (Scenario F)) :
  records <> [] ->
  exists kpi,
    buildKPI records scenarios = Some kpi /\
    CurrentFill kpi = Full (at_ records (length records - 1)).
Proof.
  unfold buildKPI. destruct records as [|x records]; [congruence|].
  intros _. eexists. split; reflexivity.
Qed.

(** The sublists of three configs. *)
Lemma sublist_three {A : Type} (l : list A) (a b c : A) :
  l `sublist_of` [a; b; c] ->
  l = [] \/ l = [a] \/ l = [b] \/ l = [a; b] \/
  l = [c] \/ l = [a; c] \/ l = [b; c] \/ l = [a; b; c].
Proof.
  intros H.
  apply sublist_cons_r in H as [H|(la & -> & H)];
    (apply sublist_cons_r in H as [H|(lb & -> & H)]);
    (apply sublist_cons_r in H as [H|(lc & -> & H)]);
    apply sublist_nil_r in H as ->; tauto.
Qed.

(** Of the seasons loaded for three configs of consecutive years of which
    only the last is flagged current, the last one becomes the current
    season: it is the season of [cwsy] when that was loaded, and is marked
    current otherwise. *)
Lemma selectCurrent_three (cwsy : Z) (c1 c2 c3 : SeasonConfig)
    (seasons : list (SeasonData F)) :
  Year c1 = cwsy - 2 -> Year c2 = cwsy - 1 -> Year c3 = cwsy ->
  IsCurrent c1 = false -> IsCurrent c2 = false -> IsCurrent c3 = true ->
  map Config seasons `sublist_of` [c1; c2; c3] ->
  Forall hasRecords seasons ->
  seasons <> [] ->
  exists init cur,
    selectCurrent cwsy (indexByYear seasons ∅) seasons
    = Some (Records cur, init ++ [cur]) /\
    (length init <= 2)%nat /\
    Forall (fun sd => IsCurrent (Config sd) = false) init /\
    IsCurrent (Config cur) = true /\
    Records cur <> [] /\
    map (fun sd => Year (Config sd)) (init ++ [cur])
    = map (fun sd => Year (Config sd)) seasons /\
    map Records (init ++ [cur]) = map Records seasons.
Proof.
  intros Hy1 Hy2 Hy3 Hc1 Hc2 Hc3 Hsub Hall Hne.
  apply sublist_three in Hsub.
  destruct seasons as [|[k1 r1] [|[k2 r2] [|[k3 r3] [|]]]];
    [congruence| | | |cbn in Hsub; repeat destruct Hsub as [Hsub|Hsub];
                      discriminate Hsub].
  all: clear Hne; cbn [map Config] in Hsub.
  all: repeat destruct Hsub as [Hsub|Hsub]; try discriminate Hsub.
  all: injection Hsub as ?; subst.
  all: repeat match goal with
           | H : Forall hasRecords (_ :: _) |- _ =>
               apply Forall_cons in H as [? H]
           end; clear Hall.
  all: unfold hasRecords in *|-; cbn [Records] in *|-.
  all: repeat match goal with
              | H : ?r <> [] |- _ =>
                  destruct r; [congruence|clear H]
              end.
  all: unfold selectCurrent, indexByYear;
    cbn [fold_left Config Records Year].
  all: rewrite ?Hy1, ?Hy2, ?Hy3.
  all: repeat first [ rewrite lookup_insert_eq
                 | rewrite lookup_insert_ne by lia
                 | rewrite lookup_empty ].
  all: cbn [fallbackLoop length lookup list_lookup Records Nat.ltb Nat.leb
         list_insert insert].
  all: match goal with
       | |- exists init cur, Some (_, [?a]) = _ /\ _ => exists [], a
       | |- exists init cur, Some (_, [?a; ?b]) = _ /\ _ => exists [a], b
       | |- exists init cur, Some (_, [?a; ?b; ?c]) = _ /\ _ =>
           exists [a; b], c
       end;
    (split; [reflexivity|]);
    cbn [length app map Config Records Year IsCurrent markCurrent];
    repeat split; try lia; try discriminate; try assumption;
    repeat (constructor; try assumption).
Qed.
(** [buildDashboard] leaves the world as [fetchAllSeasons] left it. *)
Lemma buildDashboard_world w :
  snd (buildDashboard time_Parse strconv_ParseFloat zoneOffset w)
  = snd (fetchAllSeasons time_Parse strconv_ParseFloat
           (seasonConfigs (fst (currentWinterStartYear zoneOffset w))) w).
Proof.
  unfold buildDashboard. unfold bind at 1, time_Now at 1.
  unfold bind at 1. rewrite currentWinterStartYear_reads.
  unfold bind at 1. cbn [fst].
  destruct (fetchAllSeasons _ _ _ w) as [[allSeasons seasons] w'].
  cbn [fst snd]. destruct seasons as [|sd seasons]; [reflexivity|].
  destruct (selectCurrent _ _ _) as [[currentRecords seasons']|];
    [|reflexivity].
  destruct (buildKPI _ _); reflexivity.
Qed.

End DashboardMore.

(** X9: [buildDashboard] has two outcomes.  It fails with "no season data
    loaded from API", or it returns a dashboard for the current winter
    start year with one to three seasons, oldest first, among the last
    three winters; each has records, exactly the last one is flagged
    current, and the KPI's fill level is that season's last record.  It
    never panics on an empty record list and never reports "no usable
    current season data". *)
Theorem buildDashboard_outcomes {F : Type} {FO : Float64 F}
    (time_Parse : string -> string -> option Time)
    (strconv_ParseFloat : string -> F)
    (zoneOffset : Time -> Duration) (w : World) :
  let cwsy := fst (currentWinterStartYear zoneOffset w) in
  let res :=
    fst (buildDashboard time_Parse strconv_ParseFloat zoneOffset w) in
  res = Some (Err (errorString "no season data loaded from API")) \/
  exists d init cur,
    res = Some (Ok d) /\
    CurrentYear d = cwsy /\
    Seasons d = init ++ [cur] /\
    (length init <= 2)%nat /\
    map (fun sd => Year (Config sd)) (Seasons d)
      `sublist_of` [cwsy - 2; cwsy - 1; cwsy] /\
    Forall hasRecords (Seasons d) /\
    Forall (fun sd => IsCurrent (Config sd) = false) init /\
    IsCurrent (Config cur) = true /\
    CurrentFill (KPI d)
    = Full (at_ (Records cur) (length (Records cur) - 1)).
Proof.
  cbv zeta.
  destruct (buildDashboard time_Parse strconv_ParseFloat zoneOffset w)
    as [res w2] eqn:Hbuild.
  cbn [fst]. unfold buildDashboard in Hbuild.
  unfold bind at 1, time_Now at 1 in Hbuild.
  unfold bind at 1 in Hbuild.
  rewrite currentWinterStartYear_reads in Hbuild.
  set (cwsy := fst (currentWinterStartYear zoneOffset w)) in Hbuild |- * .
  unfold bind at 1 in Hbuild.
  destruct (fetchAllSeasons _ _ (seasonConfigs cwsy) w)
    as [[allSeasons seasons] w'] eqn:Hfetch.
  unfold fetchAllSeasons in Hfetch.
  apply loop_result in Hfetch as (added & -> & Hsub & Hall & ->).
  cbn [app fst snd] in Hbuild.
  destruct (decide (added = [])) as [->|Hne];
    [left; injection Hbuild as <- _; reflexivity|].
  right. rewrite (match_nonempty added) in Hbuild by exact Hne.
  pose proof (fun c1 c2 c3 Hs h1 h2 h3 h4 h5 h6 =>
                selectCurrent_three cwsy c1 c2 c3 added
                  h1 h2 h3 h4 h5 h6 Hs Hall) as Hsel.
  specialize (Hsel _ _ _ Hsub eq_refl eq_refl eq_refl eq_refl eq_refl eq_refl).
  destruct Hsel
    as (init & cur & Hsel & Hlen & Hinit & Hcur & Hrecs & Hyears & Hrecords);
    [exact Hne|].
  rewrite Hsel in Hbuild.
  destruct (buildKPI_nonempty (Records cur)
              (generateScenarios (Records cur) (indexByYear added ∅) cwsy)
              Hrecs) as (kpi & Hkpi & Hfill).
  rewrite Hkpi in Hbuild. injection Hbuild as <- _.
  eexists _, init, cur.
  split; [reflexivity|].
  cbn [CurrentYear Seasons KPI]. rewrite Hfill.
  split; [reflexivity|]. split; [reflexivity|]. split; [exact Hlen|].
  split.
  { rewrite Hyears, <- (map_map Config Year).
    exact (fmap_sublist Year _ _ Hsub). }
  split.
  { apply Forall_forall. intros sd Hin.
    apply list_elem_of_In, (in_map Records), list_elem_of_In in Hin.
    rewrite Hrecords in Hin.
    apply list_elem_of_In, in_map_iff in Hin as (sd' & Heq & Hin).
    unfold hasRecords. rewrite <- Heq.
    rewrite Forall_forall in Hall. apply Hall, list_elem_of_In, Hin. }
  split; [exact Hinit|]. split; [exact Hcur|reflexivity].
Qed.

(** X10: one run of [buildDashboard] fetches the winters [cwsy - 2],
    [cwsy - 1] and [cwsy], in this order.  Its trace is the block of the
    first, a sleep of [delayBetweenCalls], the block of the second, the
    same sleep, and the block of the third; the block of a season holds
    only tries and requests for that season's year, one to three tries and
    at most one request per try.  So it sends at most nine upstream
    requests and sleeps the delay between calls exactly twice. *)
Theorem buildDashboard_requests {F : Type} {FO : Float64 F}
    (time_Parse : string -> string -> option Time)
    (strconv_ParseFloat : string -> F)
    (zoneOffset : Time -> Duration) (w : World) :
  let cwsy := fst (currentWinterStartYear zoneOffset w) in
  let w' := snd (buildDashboard time_Parse strconv_ParseFloat zoneOffset w) in
  exists b1 b2 b3,
    let evs := b1 ++ EvSleep delayBetweenCalls
                  :: b2 ++ EvSleep delayBetweenCalls :: b3 in
    trace w' = trace w ++ evs /\
    seasonBlock (cwsy - 2) b1 /\
    seasonBlock (cwsy - 1) b2 /\
    seasonBlock cwsy b3 /\
    Forall (fun block =>
              (1 <= countEv isFetch block <= 3)%nat /\
              (countEv isRequest block <= countEv isFetch block)%nat)
      [b1; b2; b3] /\
    (3 <= countEv isFetch evs <= 9)%nat /\
    (countEv isRequest evs <= 9)%nat /\
    requests w' = (requests w + countEv isRequest evs)%nat /\
    countSleeps delayBetweenCalls evs = 2%nat.
Proof.
  cbv zeta. rewrite buildDashboard_world. unfold fetchAllSeasons.
  set (cwsy := fst (currentWinterStartYear zoneOffset w)).
  destruct (fetchSeasonsLoop _ _ _ (∅, []) w) as [res w'] eqn:Hloop.
  destruct (loop_blocks _ _ _ _ _ _ _ Hloop) as (blocks & Hall & Ht).
  destruct (loop_effect _ _ _ _ _ _ _ Hloop)
    as (evs & Ht' & Hc & _ & Hf & Hr & Hn & _).
  rewrite Ht in Ht'. apply app_inv_head in Ht'. subst evs.
  unfold seasonConfigs in Hall.
  inversion Hall as [|c1 b1 l1 blocks1 (H1 & Hf1 & Hr1) Hall1]; subst.
  inversion Hall1 as [|c2 b2 l2 blocks2 (H2 & Hf2 & Hr2) Hall2]; subst.
  inversion Hall2 as [|c3 b3 l3 blocks3 (H3 & Hf3 & Hr3) Hall3]; subst.
  inversion Hall3; subst.
  cbn [Year] in H1, H2, H3.
  cbn [paced] in Ht, Hc, Hf, Hr, Hn.
  cbn [seasonConfigs length] in Hc, Hf, Hr.
  exists b1, b2, b3. cbn [snd].
  split; [exact Ht|]. split; [exact H1|]. split; [exact H2|].
  split; [exact H3|].
  split; [repeat (constructor; [split; assumption|]); constructor|].
  repeat split; try assumption; lia.
Qed.

(** ** Winter start year *)

Lemma calendar_bracketed_checked : allFrom bracketed 0 calendarDays = true.
Proof. vm_compute. reflexivity. Qed.

Lemma calendar_novemberFirst_checked :
  allFrom novemberFirst 1000 (Z.to_nat 9000) = true.
Proof. vm_compute. reflexivity. Qed.

Lemma currentWinterStartYear_winterOfDay (zoneOffset : Time -> Duration) w :
  fst (currentWinterStartYear zoneOffset w)
  = winterOfDay ((clock w + zoneOffset (clock w)) / Day).
Proof.
  unfold currentWinterStartYear, bind, time_Now, ret, winterOfDay,
    Time_Year, Time_Month. cbn [fst].
  destruct (civil_from_days _) as [[y m] d]. cbn [fst snd].
  destruct (m <? 11); reflexivity.
Qed.

Lemma seasonStartOf_days y :
  1000 <= y <= 9999 ->
  seasonStartOf y = days_from_civil y winterStartMonth winterStartDay * Day.
Proof.
  intros Hy. unfold seasonStartOf, civil.
  destruct (Z.leb_spec 1000 y); [|lia].
  destruct (Z.leb_spec y 9999); [|lia].
  cbn [andb]. lia.
Qed.

Lemma day_of_instant t : (t / Day) * Day <= t < (t / Day + 1) * Day.
Proof.
  pose proof (Z.div_mod t Day) as Hdm.
  pose proof (Z.mod_pos_bound t Day) as Hmod.
  change Day with 86400000000000 in Hdm, Hmod |- * .
  lia.
Qed.

(** X11: [currentWinterStartYear] names the winter the local wall clock is
    in: between 1970 and 2100 the wall clock lies on or after 1 November
    of the returned year and before 1 November of the next.  Where the
    local zone is not ahead of UTC, the current season has therefore
    started, and [fetchSeason] does not refuse it as a future season. *)
Theorem winter_year_brackets_now (zoneOffset : Time -> Duration) (w : World) :
  let wall := clock w + zoneOffset (clock w) in
  let y := fst (currentWinterStartYear zoneOffset w) in
  civil 1970 1 1 0 0 0 <= wall < civil 2100 1 1 0 0 0 ->
  seasonStartOf y <= wall < seasonStartOf (y + 1) /\
  (zoneOffset (clock w) <= 0 ->
   Time_After (seasonStartOf y) (clock w) = false).
Proof.
  cbv zeta. rewrite currentWinterStartYear_winterOfDay.
  remember (clock w + zoneOffset (clock w)) as wall eqn:Hwall.
  intros Hrange.
  pose proof (day_of_instant wall) as Hday.
  assert (Hin : 0 <= wall / Day < 0 + Z.of_nat calendarDays).
  { change (civil 1970 1 1 0 0 0) with 0 in Hrange.
    change (civil 2100 1 1 0 0 0) with (47482 * Day) in Hrange.
    change (0 + Z.of_nat calendarDays) with 47482.
    split.
    - apply Z.div_pos; [lia|reflexivity].
    - apply Z.div_lt_upper_bound; [reflexivity|lia]. }
  pose proof (allFrom_spec _ _ _ calendar_bracketed_checked _ Hin) as Hb.
  unfold bracketed in Hb. cbv zeta in Hb.
  apply andb_prop in Hb as [Hb Hnext]. apply andb_prop in Hb as [Hb Hstart].
  apply andb_prop in Hb as [Hlo Hhi].
  apply Z.leb_le in Hlo, Hhi, Hstart. apply Z.ltb_lt in Hnext.
  assert (Hyear : 1000 <= winterOfDay (wall / Day) <= 9999) by lia.
  assert (Hyear' : 1000 <= winterOfDay (wall / Day) + 1 <= 9999) by lia.
  rewrite (seasonStartOf_days _ Hyear), (seasonStartOf_days _ Hyear').
  assert (Hbracket :
    days_from_civil (winterOfDay (wall / Day)) winterStartMonth winterStartDay
      * Day <= wall
    < days_from_civil (winterOfDay (wall / Day) + 1)
        winterStartMonth winterStartDay * Day).
  { remember (wall / Day) as day eqn:Hq. clear Hq.
    change Day with 86400000000000 in Hday |- * . lia. }
  split; [exact Hbracket|].
  intros Hwest. unfold Time_After. apply Z.ltb_ge.
  lia.
Qed.

Lemma winter_year_brackets_now_witness :
  Time_After
    (seasonStartOf (fst (currentWinterStartYear (fun _ => 0) worldUp)))
    (clock worldUp) = false.
Proof.
  apply (winter_year_brackets_now (fun _ => 0) worldUp);
    [vm_compute; split; [discriminate|reflexivity]|reflexivity].
Defined.

(** X12: in a zone ahead of UTC, [currentWinterStartYear] and [fetchSeason]
    disagree for the first hours of 1 November: the local wall clock is
    already in the new winter, so the year [y] is the current one, while
    the season start, parsed as UTC, is still ahead, so fetching season
    [y] is refused without a request. *)
Theorem current_season_refused_east_of_utc {F : Type} {FO : Float64 F}
    (time_Parse : string -> string -> option Time)
    (strconv_ParseFloat : string -> F)
    (zoneOffset : Time -> Duration) (y : Z) (w : World) :
  1000 <= y <= 9999 ->
  0 < zoneOffset (clock w) <= Day ->
  seasonStartOf y - zoneOffset (clock w) <= clock w < seasonStartOf y ->
  fst (currentWinterStartYear zoneOffset w) = y /\
  fetchSeason time_Parse strconv_ParseFloat y w
  = (Err (errorString ("season " ++ fmt_d y ++ " starts in the future ("
                       ++ fmt_d y ++ "-11-01)")),
     {| clock := clock w; network := network w; requests := requests w;
        trace := trace w ++ [EvFetch y] |}).
Proof.
  intros Hy Hzone Hnow. split.
  - rewrite currentWinterStartYear_winterOfDay.
    rewrite seasonStartOf_days in Hnow by exact Hy.
    set (D := days_from_civil y winterStartMonth winterStartDay) in Hnow.
    assert (Hday : (clock w + zoneOffset (clock w)) / Day = D).
    { symmetry. apply (Z.div_unique _ _ _
                         (clock w + zoneOffset (clock w) - D * Day));
        change Day with 86400000000000 in Hzone, Hnow |- * ; lia. }
    rewrite Hday.
    assert (Hin : 1000 <= y < 1000 + Z.of_nat (Z.to_nat 9000)) by lia.
    pose proof (allFrom_spec _ _ _ calendar_novemberFirst_checked _ Hin) as Hn.
    unfold novemberFirst in Hn. fold D in Hn. unfold winterOfDay.
    destruct (civil_from_days D) as [[y' m] d].
    apply andb_prop in Hn as [Hn _]. apply andb_prop in Hn as [Hy' Hm].
    apply Z.eqb_eq in Hy', Hm. subst. reflexivity.
  - apply fetchSeason_future. apply Z.ltb_lt. lia.
Qed.

Lemma current_season_refused_east_of_utc_witness :
  fst (currentWinterStartYear (fun _ => Hour) worldEve) = 2025.
Proof.
  apply (current_season_refused_east_of_utc parseSample parseFloatSample
           (fun _ => Hour) 2025 worldEve);
    vm_compute; split; first [discriminate | reflexivity].
Defined.

(** ** Scenarios and KPI together *)

Section ScenarioMore.
Context {F : Type} {FO : Float64 F}.
Implicit Types (current : list (DayRecord F))
  (allSeasons : gmap Z (list (DayRecord F))).

Lemma generateScenarios_few current allSeasons y :
  (length current < trendWindow)%nat ->
  generateScenarios current allSeasons y = [].
Proof.
  intros H. unfold generateScenarios.
  destruct (Nat.ltb_spec (length current) trendWindow); [reflexivity|lia].
Qed.

Lemma declines_cases current :
  (trailingSlope current <.? f_zero) = false /\ declines current = [] \/
  (trailingSlope current <.? f_zero) = true /\
  exists linear stress,
    declines current = [linear; stress] /\
    Name linear = "Linear"%string /\ Name stress = "Stress"%string /\
    DaysLeft linear
    = to_int (daysToThreshold (Full (today current)) (trailingSlope current)).
Proof.
  unfold declines. destruct (trailingSlope current <.? f_zero); [right|left];
    [|split; reflexivity].
  split; [reflexivity|]. eexists _, _. repeat split; reflexivity.
Qed.

Lemma historyOf_cases current allSeasons y :
  historyOf current allSeasons y = [] \/
  exists h, historyOf current allSeasons y = [h] /\ Name h = "History"%string.
Proof.
  unfold historyOf. destruct (allSeasons !! (y - 1)) as [recs|]; [|left; auto].
  destruct (historyPoints _ _ recs); [left; auto|right].
  eexists. split; reflexivity.
Qed.

End ScenarioMore.

(** X13: [generateScenarios] returns no scenario for fewer than 14 records,
    and otherwise one of four line-ups, in this order: none, History
    alone, Linear and Stress, or Linear, Stress and History. *)
Theorem scenario_lineups {F : Type} {FO : Float64 F}
    (current : list (DayRecord F))
    (allSeasons : gmap Z (list (DayRecord F))) (y : Z) :
  let names := map Name (generateScenarios current allSeasons y) in
  ((length current < trendWindow)%nat -> names = []) /\
  (names = [] \/ names = ["History"%string] \/
   names = ["Linear"%string; "Stress"%string] \/
   names = ["Linear"%string; "Stress"%string; "History"%string]).
Proof.
  cbv zeta. split.
  - intros H. rewrite generateScenarios_few by exact H. reflexivity.
  - destruct (Nat.lt_ge_cases (length current) trendWindow) as [Hfew|Hlen].
    + rewrite generateScenarios_few by exact Hfew. left. reflexivity.
    + rewrite generateScenarios_shape by exact Hlen. rewrite map_app.
      destruct (declines_cases current)
        as [[_ ->]|(_ & linear & stress & -> & Hl & Hs & _)];
        destruct (historyOf_cases current allSeasons y) as [->|(h & -> & Hh)];
        cbn [map app]; rewrite ?Hl, ?Hs, ?Hh; tauto.
Qed.

Lemma scenario_lineups_witness :
  map Name (generateScenarios (F := float) [] ∅ 2025) = [].
Proof.
  apply (scenario_lineups (F := float) [] ∅ 2025). cbn. unfold trendWindow. lia.
Defined.

(** X14: the KPI built from the scenarios of the same records reports, as
    days to critical, the Linear scenario's days left when there are at
    least 14 records, the trailing slope is negative and the days left are
    positive, and 999 in every other case; the Stress and History scenarios
    never change it. *)
Theorem kpi_days_to_critical {F : Type} {FO : Float64 F}
    (current : list (DayRecord F))
    (allSeasons : gmap Z (list (DayRecord F))) (y : Z) (kpi : KPIData F) :
  buildKPI current (generateScenarios current allSeasons y) = Some kpi ->
  let daysLeft :=
    to_int (daysToThreshold (Full (today current)) (trailingSlope current)) in
  DaysToCrit kpi
  = if ((trendWindow <=? length current)%nat
        && (trailingSlope current <.? f_zero) && (0 <? daysLeft))%bool
    then daysLeft else 999.
Proof.
  unfold buildKPI. destruct current as [|r0 rest] eqn:Hcur; [discriminate|].
  rewrite <- Hcur. intros [= <-]. cbv zeta. cbn [DaysToCrit].
  destruct (Nat.leb_spec trendWindow (length current)) as [Hlen|Hfew].
  - rewrite generateScenarios_shape by exact Hlen. rewrite fold_left_app.
    destruct (declines_cases current)
      as [[-> ->]|(-> & linear & stress & -> & Hl & Hs & Hd)];
      destruct (historyOf_cases current allSeasons y) as [->|(h & -> & Hh)];
      cbn [fold_left andb]; rewrite ?Hl, ?Hs, ?Hh, ?Hd;
      cbn [String.eqb Ascii.eqb Bool.eqb andb];
      try reflexivity;
      destruct (0 <? _); reflexivity.
  - rewrite generateScenarios_few by exact Hfew. reflexivity.
Qed.

Lemma kpi_days_to_critical_witness :
  exists kpi,
    buildKPI fallingTo90 (generateScenarios fallingTo90 ∅ 2025) = Some kpi /\
    DaysToCrit kpi = 1706.
Proof.
  destruct (buildKPI fallingTo90 (generateScenarios fallingTo90 ∅ 2025))
    as [kpi|] eqn:E; [|vm_compute in E; discriminate E].
  exists kpi. split; [reflexivity|].
  rewrite (kpi_days_to_critical _ _ _ _ E). vm_compute. reflexivity.
Defined.

(** ** Projection line *)

Lemma exact_projection_point (day : Z) (fill slope total : Qc) (date : Time)
    (n i : nat) p :
  makeProjectionPoints day fill slope total date n !! i = Some p ->
  (i < n)%nat /\
  X p = (of_int day + total * of_int (Z.of_nat i) / of_int (Z.of_nat n - 1))%Qc /\
  Y p = (fill + slope * (X p - of_int day))%Qc.
Proof.
  unfold makeProjectionPoints. rewrite list_lookup_fmap.
  destruct (seq 0 n !! i) as [j|] eqn:Hj; [|discriminate].
  apply lookup_seq in Hj as [-> Hi]. cbn [fmap option_fmap option_map].
  intros [= <-]. cbn [X Y f_add f_sub f_mul f_div Exact.ops].
  split; [exact Hi|]. split; [reflexivity|].
  cbn [of_int Exact.ops].
  set (d := (total * _ / _)%Qc). set (a := Exact.from_int day).
  clearbody d a. ring.
Qed.

Lemma exact_crossing_reached (fill slope : Qc) :
  slope <> 0%Qc ->
  (fill + slope * daysToThreshold fill slope)%Qc = criticalThreshold.
Proof.
  intros Hs. unfold daysToThreshold. cbn [f_sub f_div Exact.ops]. field.
  exact Hs.
Qed.

Lemma exact_stress_slope_neg (slope : Qc) :
  (slope < 0)%Qc -> (slope *. stressMultiplier) <> 0%Qc.
Proof.
  intros Hs H. cbn [f_mul Exact.ops] in H.
  apply Qcmult_integral in H as [H|H].
  - rewrite H in Hs. revert Hs. apply Qcle_not_lt, Qcle_refl.
  - pose proof exact_stressMultiplier_pos as Hp. rewrite H in Hp.
    revert Hp. apply Qcle_not_lt, Qcle_refl.
Qed.

(** X15: in exact arithmetic the projection of a Linear or Stress scenario
    is a line of 50 points through today's point with the scenario's
    slope, which starts at today's day and fill level and ends at the
    critical threshold, the scenario's crossing time after today. *)
Theorem exact_projection_reaches_threshold (current : list (DayRecord Qc))
    (allSeasons : gmap Z (list (DayRecord Qc))) (y : Z) (s : Scenario Qc) :
  s ∈ generateScenarios current allSeasons y ->
  Name s <> "History"%string ->
  let day := of_int (F := Qc) (DaysElapsed (today current)) in
  let fill := Full (today current) in
  length (Points s) = 50%nat /\
  (forall p, p ∈ Points s -> Y p = (fill + Slope s * (X p - day))%Qc) /\
  (exists p, Points s !! 0%nat = Some p /\ X p = day /\ Y p = fill) /\
  (exists p, Points s !! 49%nat = Some p /\
             X p = (day + daysToThreshold fill (Slope s))%Qc /\
             Y p = criticalThreshold).
Proof.
  intros Hin Hname. cbv zeta.
  destruct (Nat.lt_ge_cases (length current) trendWindow) as [Hfew|Hlen].
  { rewrite generateScenarios_few in Hin by exact Hfew. inversion Hin. }
  rewrite generateScenarios_shape in Hin by exact Hlen.
  apply elem_of_app in Hin as [Hin|Hin];
    [|apply historyOf_names in Hin; congruence].
  unfold declines in Hin.
  destruct (trailingSlope current <.? f_zero) eqn:Hneg; [|inversion Hin].
  apply exact_ltb_lt in Hneg. change (@f_zero Qc _) with 0%Qc in Hneg.
  assert (Hslope : Slope s <> 0%Qc /\
            Points s = makeProjectionPoints (DaysElapsed (today current))
                         (Full (today current)) (Slope s)
                         (daysToThreshold (Full (today current)) (Slope s))
                         (Date (today current)) 50).
  { apply elem_of_cons in Hin as [->|Hin];
      [|apply list_elem_of_singleton in Hin as ->];
      cbn [Slope Points declineScenario].
    - split; [|reflexivity]. intros H. rewrite H in Hneg.
      revert Hneg. apply Qcle_not_lt, Qcle_refl.
    - split; [|reflexivity]. apply exact_stress_slope_neg, Hneg. }
  destruct Hslope as [Hslope ->].
  split; [unfold makeProjectionPoints; rewrite length_map, length_seq;
          reflexivity|].
  split; [|split].
  - intros p Hp. apply list_elem_of_lookup in Hp as [i Hp].
    apply exact_projection_point in Hp as (_ & _ & Hy). exact Hy.
  - eexists. split; [reflexivity|].
    cbn [X Y f_add f_sub f_mul f_div Exact.ops].
    change (of_int (Z.of_nat 0)) with 0%Qc. split; field;
      discriminate.
  - eexists. split; [reflexivity|].
    cbn [X Y f_add f_sub f_mul f_div Exact.ops].
    change (of_int (Z.of_nat 49)) with (of_int (F := Qc) 49).
    change (of_int (Z.of_nat 50 - 1)) with (of_int (F := Qc) 49).
    assert (H49 : of_int (F := Qc) 49 <> 0%Qc) by discriminate.
    replace (daysToThreshold (Full (today current)) (Slope s) * of_int 49
             / of_int 49)%Qc
      with (daysToThreshold (Full (today current)) (Slope s))
      by (field; exact H49).
    split; [reflexivity|]. apply exact_crossing_reached, Hslope.
Qed.

Lemma exact_projection_reaches_threshold_witness :
  exists linear rest,
    generateScenarios fallingTo11_exact ∅ 2025 = linear :: rest /\
    length (Points linear) = 50%nat.
Proof.
  destruct (generateScenarios fallingTo11_exact ∅ 2025) as [|linear rest] eqn:E;
    [vm_compute in E; discriminate E|].
  exists linear, rest. split; [reflexivity|].
  apply (exact_projection_reaches_threshold fallingTo11_exact ∅ 2025 linear).
  - rewrite E. left.
  - assert (H : Name linear = "Linear"%string).
    { assert (Hh : head (generateScenarios fallingTo11_exact ∅ 2025)
                   = Some linear) by (rewrite E; reflexivity).
      vm_compute in Hh. injection Hh as <-. reflexivity. }
    rewrite H. discriminate.
Defined.

(** ** Regression on a single day *)

Lemma regressionSums_oneDay (c : Z) (recs : list (DayRecord Qc))
    (s0 : Sums Qc) :
  Forall (fun r => DaysElapsed r = c) recs ->
  let s := fold_left regressionStep recs s0 in
  sx s = (sx s0 + of_int (Z.of_nat (length recs)) * of_int c)%Qc /\
  sx2 s = (sx2 s0 + of_int (Z.of_nat (length recs)) * (of_int c * of_int c))%Qc /\
  sy s = fold_left f_add (map Full recs) (sy s0).
Proof.
  cbv zeta. revert s0.
  induction recs as [|r recs IH]; intros s0 Hall.
  - cbn [fold_left map length]. change (of_int (Z.of_nat 0)) with 0%Qc.
    repeat split; ring.
  - apply Forall_cons in Hall as [Hc Hall].
    cbn [fold_left map]. destruct (IH (regressionStep s0 r) Hall)
      as (-> & -> & ->).
    cbn [regressionStep sx sx2 sy length]. rewrite Hc.
    rewrite Nat2Z.inj_succ, <- Z.add_1_l, exact_of_int_add.
    change (of_int 1) with 1%Qc.
    cbn [f_add f_mul Exact.ops].
    repeat split; ring.
Qed.

(** X16: in exact arithmetic, records that all fall on one elapsed day
    have no trend: [linearRegression] returns slope 0 and, as intercept,
    the mean fill level; for fewer than two records it returns 0 and 0. *)
Theorem exact_regression_single_day (recs : list (DayRecord Qc)) (c : Z) :
  Forall (fun r => DaysElapsed r = c) recs ->
  linearRegression recs
  = if (length recs <? 2)%nat then (0%Qc, 0%Qc)
    else (0%Qc, mean (map Full recs)).
Proof.
  intros Hall. unfold linearRegression, regressionSums.
  destruct (Nat.ltb_spec (length recs) 2) as [Hfew|Hlen].
  - assert ((of_int (Z.of_nat (length recs)) <.? of_int (F := Qc) 2) = true)
      as -> by (apply exact_ltb_lt, exact_of_int_lt; lia).
    reflexivity.
  - assert ((of_int (Z.of_nat (length recs)) <.? of_int (F := Qc) 2) = false)
      as -> by (apply exact_ltb_ge, exact_of_int_le; lia).
    destruct (regressionSums_oneDay c recs
                {| sx := f_zero; sy := f_zero; sxy := f_zero; sx2 := f_zero |}
                Hall) as (Hsx & Hsx2 & Hsy).
    cbv zeta in Hsx, Hsx2, Hsy. rewrite Hsx, Hsx2, Hsy. cbn [sx sx2 sy].
    set (n := of_int (Z.of_nat (length recs))).
    cbn [f_sub f_mul Exact.ops]. change (@f_zero Qc _) with 0%Qc.
    replace (n * (0 + n * (of_int c * of_int c))
             - (0 + n * of_int c) * (0 + n * of_int c))%Qc
      with 0%Qc by ring.
    change (f_abs 0%Qc <.? epsilon) with true. cbv iota.
    unfold mean. rewrite length_map. reflexivity.
Qed.

Lemma exact_regression_single_day_witness :
  linearRegression
    [ sampleRecord (F := Qc) 3 (of_int 80);
      sampleRecord (F := Qc) 3 (of_int 70) ]
  = (0%Qc, of_int 75).
Proof.
  rewrite (exact_regression_single_day _ 3);
    [|repeat constructor].
  change (length _ <? 2)%nat with false. cbv iota.
  f_equal. apply Qc_is_canon. vm_compute. reflexivity.
Defined.

(** ** Mutex, progress and provenance of the handlers *)

Section HandlerMore.
Context {D : Type}.
Implicit Types (s : Server D) (e : Tick D) (p : pc D) (c : Cache D).

Ltac step_split H Hp :=
  unfold step in H;
  match type of H with
  | context [callers ?s !! ?i] =>
      destruct (callers s !! i) as [[]|] eqn:Hp; [..|discriminate H]
  end;
  cbn in H;
  repeat match type of H with
         | context [Cache_Get ?c ?t] =>
             let E := fresh "Hget" in destruct (Cache_Get c t) eqn:E
         | context [lock D ?s ?i] =>
             let E := fresh "Hlock" in
             destruct (lock D s i) eqn:E;
             [apply lock_Some in E as [E ->]|discriminate H]
         | context [built ?e] =>
             let E := fresh "Hbuilt" in destruct (built e) eqn:E
         end;
  first [discriminate H | injection H as <-];
  cbn [goto unlock enterBuild withCache cache building callers builds].

Lemma entry_held s :
  building s = None -> held s.
Proof. intros H i Hi. congruence. Qed.

Lemma step_held s e s' :
  exclusive s -> held s -> step s e = Some s' -> held s'.
Proof.
  intros Hex Hheld H. unfold held.
  step_split H Hp; intros j Hj; cbn in Hj |- * ;
    try discriminate Hj;
    try (injection Hj as <-; eexists; split;
         [apply list_lookup_insert_eq; eapply lookup_lt_Some, Hp
         |reflexivity]);
    try (destruct (Hheld j Hj) as (q & Hq & Hcrit);
         destruct (decide (j = who e)) as [->|Hne];
         [rewrite Hp in Hq; injection Hq as <-;
          first [discriminate Hcrit
                | eexists; split;
                  [apply list_lookup_insert_eq; eapply lookup_lt_Some, Hp
                  |reflexivity]]
         |exists q; split;
          [rewrite list_lookup_insert_ne by congruence; exact Hq
          |exact Hcrit]]).
Qed.

Lemma run_held s schedule s' :
  exclusive s -> held s -> run s schedule = Some s' ->
  exclusive s' /\ held s'.
Proof.
  revert s. induction schedule as [|e schedule IH]; intros s Hex Hheld; cbn.
  - intros [= <-]. auto.
  - destruct (step s e) as [s1|] eqn:Hstep; [|discriminate].
    apply IH.
    + exact (step_exclusive _ _ _ Hex Hstep).
    + exact (step_held _ _ _ Hex Hheld Hstep).
Qed.

(** A caller inside the critical section can always take its next step;
    a caller outside can when the mutex is free. *)
Lemma step_enabled s i p t b :
  callers s !! i = Some p ->
  (forall r, p <> Done r) ->
  critical p = true \/ building s = None ->
  is_Some (step s {| who := i; at_time := t; built := b |}).
Proof.
  intros Hp Hnot Hfree. unfold step. cbn [who at_time built]. rewrite Hp.
  destruct p; try (destruct Hfree as [Hc|Hb]; [discriminate Hc|]);
    try (unfold lock; rewrite Hb); cbn;
    repeat match goal with
           | |- context [Cache_Get ?c ?t] => destruct (Cache_Get c t)
           | |- context [match b with _ => _ end] => destruct b
           end; eauto.
  exfalso. eapply Hnot. reflexivity.
Qed.

Lemma step_sourced (P : D -> Prop) s e s' :
  (forall d, built e = Ok d -> P d) ->
  sourced P s -> step s e = Some s' -> sourced P s'.
Proof.
  intros Hbuilt [Hcache Hcallers] H. unfold sourced.
  assert (Hget : forall t d, Cache_Get (cache s) t = Some d -> P d).
  { intros t d. unfold Cache_Get.
    destruct (data (cache s)) as [d0|] eqn:Hd; [|discriminate].
    destruct (_ <? _); [|discriminate]. intros [= <-]. apply Hcache.
    reflexivity. }
  step_split H Hp; (split; [cbn [data Cache_Set Cache_Clear]|]);
    try exact Hcache; try discriminate;
    try (intros d0 [= <-]; eapply Hcallers; [exact Hp|left; reflexivity]);
    intros j q d0 Hq Hcar;
    (apply list_lookup_insert_Some in Hq as [(<- & <- & _)|(Hne & Hq)];
     [|exact (Hcallers _ _ _ Hq Hcar)]);
    destruct Hcar as [Hcar|[Hcar|Hcar]]; try discriminate Hcar;
    inversion Hcar; subst;
    first [ solve [eapply Hget; eassumption]
          | solve [apply Hbuilt; first [assumption|reflexivity]]
          | solve [eapply Hcallers; [exact Hp|]; unfold carries; auto] ].
Qed.

Lemma run_sourced (P : D -> Prop) s schedule s' :
  (forall e d, e ∈ schedule -> built e = Ok d -> P d) ->
  sourced P s -> run s schedule = Some s' -> sourced P s'.
Proof.
  revert s. induction schedule as [|e schedule IH]; intros s Hbuilt Hs; cbn.
  - intros [= <-]. exact Hs.
  - destruct (step s e) as [s1|] eqn:Hstep; [|discriminate].
    apply IH.
    + intros e' d He'. apply Hbuilt. right. exact He'.
    + apply (step_sourced P s e s1); [|exact Hs|exact Hstep].
      intros d. apply Hbuilt. left.
Qed.

End HandlerMore.

(** X17: the deferred unlock always releases the mutex.  In any run of
    the handlers from a server on which no caller has yet entered a
    handler's body, the mutex is held only by a caller inside its critical
    section; so once every caller has returned, the mutex is free, whether
    the builds succeeded or failed. *)
Theorem mutex_released {D : Type} (s : Server D) (schedule : list (Tick D))
    (s' : Server D) :
  building s = None ->
  (forall i p, callers s !! i = Some p -> entry p) ->
  run s schedule = Some s' ->
  held s' /\ (finished s' -> building s' = None).
Proof.
  intros Hfree Hentry Hrun.
  destruct (run_held s schedule s' (entry_exclusive s Hentry)
              (entry_held s Hfree) Hrun) as [_ Hheld].
  split; [exact Hheld|].
  intros Hfin. destruct (building s') as [i|] eqn:Hb; [|reflexivity].
  destruct (Hheld i Hb) as (p & Hp & Hcrit).
  destruct (Hfin i p Hp) as [r ->]. discriminate Hcrit.
Qed.

Lemma mutex_released_witness :
  exists s,
    run (missed cache0 2) scheduleDown = Some s /\ building s = None.
Proof.
  destruct (run (missed cache0 2) scheduleDown) as [s|] eqn:Hrun;
    [|vm_compute in Hrun; discriminate Hrun].
  exists s. split; [reflexivity|].
  pose proof Hrun as Hs. vm_compute in Hs. injection Hs as Hs.
  apply (mutex_released (missed cache0 2) scheduleDown s).
  - reflexivity.
  - intros [|[|i]] p; cbn; intros [= <-]; unfold entry; auto.
  - exact Hrun.
  - rewrite <- Hs. intros [|[|i]] p; cbn; intros [= <-]; eauto.
Defined.

(** X18: the handlers cannot deadlock.  In any run from such a server, as
    long as some caller has not returned, some caller can take its next
    step, at any instant and whatever a build returns. *)
Theorem handlers_progress {D : Type} (s : Server D)
    (schedule : list (Tick D)) (s' : Server D) (i : nat) (p : pc D)
    (t : Time) (b : result D) :
  building s = None ->
  (forall i p, callers s !! i = Some p -> entry p) ->
  run s schedule = Some s' ->
  callers s' !! i = Some p ->
  (forall r, p <> Done r) ->
  exists j, is_Some (step s' {| who := j; at_time := t; built := b |}).
Proof.
  intros Hfree Hentry Hrun Hp Hnot.
  destruct (run_held s schedule s' (entry_exclusive s Hentry)
              (entry_held s Hfree) Hrun) as [Hex Hheld].
  destruct (building s') as [j|] eqn:Hb.
  - destruct (Hheld j Hb) as (q & Hq & Hcrit).
    exists j. apply (step_enabled s' j q); [exact Hq| |left; exact Hcrit].
    intros r ->. discriminate Hcrit.
  - exists i. apply (step_enabled s' i p); [exact Hp|exact Hnot|right; exact Hb].
Qed.

Lemma handlers_progress_witness :
  exists j,
    is_Some (step (missed (@cache0 Z) 2)
               {| who := j; at_time := 1; built := Ok 42 |}).
Proof.
  apply (handlers_progress (missed cache0 2) [] (missed cache0 2)
           0%nat AtLock 1 (Ok 42));
    try reflexivity; try discriminate.
  intros [|[|i]] p; cbn; intros [= <-]; unfold entry; auto.
Defined.

(** X19: the handlers serve nothing but results of [buildDashboard].  In
    any run from such a server, a dashboard that is in the cache or that a
    caller has been served was in the cache at the start or was returned
    by a build of the run. *)
Theorem served_data_was_built {D : Type} (s : Server D)
    (schedule : list (Tick D)) (s' : Server D) :
  (forall i p, callers s !! i = Some p -> entry p) ->
  run s schedule = Some s' ->
  forall d,
    data (cache s') = Some d \/
    (exists i, callers s' !! i = Some (Done (Served d))) ->
    data (cache s) = Some d \/ exists e, e ∈ schedule /\ built e = Ok d.
Proof.
  intros Hentry Hrun d Hd.
  set (P := fun d => data (cache s) = Some d \/
                     exists e, e ∈ schedule /\ built e = Ok d).
  assert (Hs : sourced P s).
  { split; [intros d0 H0; left; exact H0|].
    intros i p d0 Hp Hcar. exfalso.
    destruct (Hentry i p Hp) as [->|[->|[->| ->]]];
      destruct Hcar as [H|[H|H]]; discriminate H. }
  assert (Hs' : sourced P s').
  { apply (run_sourced P s schedule s'); [|exact Hs|exact Hrun].
    intros e d0 He Hb. right. exists e. auto. }
  destruct Hs' as [Hcache Hcallers].
  destruct Hd as [Hd|[i Hi]]; [exact (Hcache d Hd)|].
  apply (Hcallers i _ d Hi). unfold carries. auto.
Qed.

Lemma served_data_was_built_witness :
  exists e, e ∈ scheduleOk /\ built e = Ok 42.
Proof.
  destruct (run (missed cache0 2) scheduleOk) as [s|] eqn:Hrun;
    [|vm_compute in Hrun; discriminate Hrun].
  pose proof Hrun as Hs. vm_compute in Hs. injection Hs as Hs.
  destruct (served_data_was_built (missed cache0 2) scheduleOk s) with (d := 42)
    as [H|H].
  - intros [|[|i]] p; cbn; intros [= <-]; unfold entry; auto.
  - exact Hrun.
  - rewrite <- Hs. left. reflexivity.
  - discriminate H.
  - exact H.
Defined.

(** X20: a failed refresh leaves the server without data.  When
    [handleRefresh] runs alone and its build fails, the caller gets the
    error, the mutex is free again, and the cache is empty, also when it
    held a dashboard that had not expired. *)
Theorem failed_refresh_empties_cache {D : Type} (c : Cache D)
    (e1 e2 e3 e4 : Tick D) (err : error) :
  who e1 = 0%nat -> who e2 = 0%nat -> who e3 = 0%nat -> who e4 = 0%nat ->
  built e3 = Err err ->
  exists s,
    run (refreshing c) [e1; e2; e3; e4] = Some s /\
    callers s = [Done (Failed err)] /\
    building s = None /\
    builds s = 1%nat /\
    forall t, Cache_Get (cache s) t = None.
Proof.
  intros H1 H2 H3 H4 Hb. eexists. split.
  - unfold run, step, refreshing. rewrite H1. cbn.
    rewrite H2. cbn. rewrite H3. cbn. rewrite Hb. cbn. rewrite H4. cbn.
    reflexivity.
  - repeat split.
Qed.

Lemma failed_refresh_empties_cache_witness :
  exists s,
    run (refreshing (Cache_Set cache0 (Some 42) 0))
      [ tick 0 1 upstreamDown; tick 0 2 upstreamDown; tick 0 3 upstreamDown;
        tick 0 4 upstreamDown ] = Some s /\
    Cache_Get (Cache_Set cache0 (Some 42) 0) 1 = Some 42 /\
    Cache_Get (cache s) 4 = None.
Proof.
  destruct (failed_refresh_empties_cache (Cache_Set cache0 (Some 42) 0)
              (tick 0 1 upstreamDown) (tick 0 2 upstreamDown)
              (tick 0 3 upstreamDown) (tick 0 4 upstreamDown)
              (errorString "no season data loaded from API")
              eq_refl eq_refl eq_refl eq_refl eq_refl)
    as (s & Hrun & _ & _ & _ & Hget).
  exists s. split; [exact Hrun|]. split; [reflexivity|apply Hget].
Defined.

(** ** Axis ticks *)

(** X21: [generateTicks] returns the 26 weekly ticks 0, 7, ..., 175, each
    labelled with the date that many days after the season start; the loop
    ends on its bound of 180 days, after 26 turns. *)
Theorem generateTicks_weekly (startYear : Z) :
  fst (generateTicks startYear)
  = map (fun i : nat => 7 * Z.of_nat i) (seq 0 26) /\
  snd (generateTicks startYear)
  = map (fun d => Format (Time_AddDays (seasonStartOf startYear) d) "02 Jan")
      (fst (generateTicks startYear)) /\
  forall spare : nat,
    ticksLoop (26 + spare) (seasonStartOf startYear) 0 [] []
    = generateTicks startYear.
Proof.
  unfold generateTicks.
  generalize (seasonStartOf startYear). intros start.
  split; [reflexivity|]. split; [reflexivity|].
  intros spare. destruct spare; reflexivity.
Qed.
